(** * flows/ssh_nodes.py: sessions, watchdogs, nodes and the batch coordinator

    A shallow embedding of [ssh_node] and [ssh_session] (with its
    [SSHReaderProtocol]) and the properties of the session life cycle.

    Conventions of the embedding:
    - a Python [str] is a list of code points, a [bytes]/[bytearray] a list
      of bytes;
    - objects live in heaps (lists indexed by their position); a reference
      is an index;
    - a method is a computation in the monad [M St], which threads the
      object's state, collects the records handed to [logging] and stops at
      the first exception, keeping the state reached so far;
    - [asyncio] is not part of the repository: its event loop is modelled by
      the calls it makes into this module (protocol callbacks, timer
      callbacks, task steps), chosen by a schedule;
    - [ssh_node.loop] is assumed to have been installed by [set_loop]. *)

From Stdlib Require Import ZArith NArith List Bool Lia String Ascii QArith DecimalString.
From Stdlib.Strings Require Import Byte.
From stdpp Require Import base list.

Local Close Scope Q_scope.
Local Open Scope N_scope.
Local Open Scope nat_scope.
Local Open Scope list_scope.

(** ** Python strings and bytes *)

Definition pystr := list N.

Definition py (s : string) : pystr :=
  List.map N_of_ascii (list_ascii_of_string s).

Definition LF : N := 10%N.

(** [str(n)] for an integer. *)
Definition str_of_Z (z : Z) : pystr := py (NilZero.string_of_int (Z.to_int z)).

(** [str(x)] where [x] is [None] or a string. *)
Definition str_of_opt (o : option pystr) : pystr :=
  match o with
  | None => py "None"
  | Some s => s
  end.

Definition str_of_optZ (o : option Z) : pystr :=
  match o with
  | None => py "None"
  | Some z => str_of_Z z
  end.

(** [sep.join(parts)] *)
Fixpoint str_join (sep : pystr) (parts : list pystr) : pystr :=
  match parts with
  | [] => []
  | [p] => p
  | p :: ps => p ++ sep ++ str_join sep ps
  end.

(** [c in s] for a one-character [c]. *)
Definition str_contains (c : N) (s : pystr) : bool :=
  existsb (N.eqb c) s.

(** [s.split(c, 1)] for a one-character separator: at most two pieces. *)
Fixpoint str_split1 (c : N) (s : pystr) : list pystr :=
  match s with
  | [] => [[]]
  | x :: rest =>
      if N.eqb c x then [[]; rest]
      else match str_split1 c rest with
           | hd :: tl => (x :: hd) :: tl
           | [] => [[x]]
           end
  end.

(** *** Strict UTF-8 decoding: [data.decode("utf-8")] *)

Definition is_cont (b : N) : bool := (128 <=? b)%N && (b <=? 191)%N.

Definition cont_bits (b : N) : N := N.land b 63.

Fixpoint decode_utf8 (bs : list byte) : option pystr :=
  match bs with
  | [] => Some []
  | b0 :: r0 =>
      let n0 := Byte.to_N b0 in
      if (n0 <? 128)%N then option_map (cons n0) (decode_utf8 r0)
      else if (n0 <? 194)%N then None
      else if (n0 <? 224)%N then
        match r0 with
        | b1 :: r1 =>
            let n1 := Byte.to_N b1 in
            if is_cont n1
            then option_map
                   (cons (N.lor (N.shiftl (N.land n0 31) 6) (cont_bits n1)))
                   (decode_utf8 r1)
            else None
        | _ => None
        end
      else if (n0 <? 240)%N then
        match r0 with
        | b1 :: b2 :: r2 =>
            let n1 := Byte.to_N b1 in
            let n2 := Byte.to_N b2 in
            let lo := if (n0 =? 224)%N then 160%N else 128%N in
            let hi := if (n0 =? 237)%N then 159%N else 191%N in
            if (lo <=? n1)%N && (n1 <=? hi)%N && is_cont n2
            then option_map
                   (cons (N.lor (N.shiftl (N.land n0 15) 12)
                            (N.lor (N.shiftl (cont_bits n1) 6) (cont_bits n2))))
                   (decode_utf8 r2)
            else None
        | _ => None
        end
      else if (n0 <? 245)%N then
        match r0 with
        | b1 :: b2 :: b3 :: r3 =>
            let n1 := Byte.to_N b1 in
            let n2 := Byte.to_N b2 in
            let n3 := Byte.to_N b3 in
            let lo := if (n0 =? 240)%N then 144%N else 128%N in
            let hi := if (n0 =? 244)%N then 143%N else 191%N in
            if (lo <=? n1)%N && (n1 <=? hi)%N && is_cont n2 && is_cont n3
            then option_map
                   (cons (N.lor (N.shiftl (N.land n0 7) 18)
                            (N.lor (N.shiftl (cont_bits n1) 12)
                               (N.lor (N.shiftl (cont_bits n2) 6) (cont_bits n3)))))
                   (decode_utf8 r3)
            else None
        | _ => None
        end
      else None
  end.

(** The bytes of an ASCII literal. *)
Definition bytes_of (s : string) : list byte := list_byte_of_string s.

(** [repr] of a [bytes] object, as ['{}'.format(data)] prints it. *)
Definition hex_digit (n : N) : N :=
  if (n <? 10)%N then (48 + n)%N else (87 + n)%N.

Definition repr_byte (quote : N) (b : byte) : pystr :=
  let n := Byte.to_N b in
  if (n =? 92)%N then py "\\"
  else if (n =? 9)%N then py "\t"
  else if (n =? 10)%N then py "\n"
  else if (n =? 13)%N then py "\r"
  else if (n =? quote)%N then [92%N; quote]
  else if (n <? 32)%N || (127 <=? n)%N
       then [92%N; 120%N; hex_digit (N.div n 16); hex_digit (N.modulo n 16)]
       else [n].

Definition bytes_repr (bs : list byte) : pystr :=
  let ns := List.map Byte.to_N bs in
  let quote :=
    if existsb (N.eqb 39) ns && negb (existsb (N.eqb 34) ns) then 34%N else 39%N in
  [98%N; quote] ++ List.concat (List.map (repr_byte quote) bs) ++ [quote].

(** ** Exceptions, logging and the method monad *)

Inductive exn : Type :=
| AttributeError
| TypeError
| ValueError
| NameError
| UnicodeDecodeError
| InvalidStateError
| TimeoutError.

Inductive log_level : Type := DEBUG | INFO | WARNING | ERROR.

(** [logging.info(...)] goes to the root logger, [adapter.info(...)] to the
    module's logger through the session's [CustomAdapter]. *)
Inductive log_sink : Type := RootLogger | ModuleLogger.

Record log_record : Type := LogRecord {
  lg_sink : log_sink;
  lg_level : log_level;
  lg_msg : pystr
}.

Definition result (A : Type) : Type := (exn + A)%type.

Definition M (St A : Type) : Type := St -> St * list log_record * result A.

Definition ret {St A} (a : A) : M St A := fun s => (s, [], inr a).

Definition bind {St A B} (m : M St A) (k : A -> M St B) : M St B :=
  fun s =>
    match m s with
    | (s1, l1, inl e) => (s1, l1, inl e)
    | (s1, l1, inr a) =>
        match k a s1 with
        | (s2, l2, r) => (s2, l1 ++ l2, r)
        end
    end.

Definition raise {St A} (e : exn) : M St A := fun s => (s, [], inl e).
Definition get {St} : M St St := fun s => (s, [], inr s).
Definition gets {St A} (f : St -> A) : M St A := fun s => (s, [], inr (f s)).
Definition modify {St} (f : St -> St) : M St unit := fun s => (f s, [], inr tt).
Definition emit {St} (r : log_record) : M St unit := fun s => (s, [r], inr tt).

(** Python's [if c: body] with no [else]. *)
Definition when {St} (c : bool) (body : M St unit) : M St unit :=
  if c then body else ret tt.

Declare Scope py_scope.
Delimit Scope py_scope with py.
Notation "x <- m ;; k" := (bind m (fun x => k))
  (at level 100, m at level 99, right associativity) : py_scope.
Notation "m ;; k" := (bind m (fun _ => k))
  (at level 100, right associativity) : py_scope.
Local Open Scope py_scope.

Definition final_state {St A} (o : St * list log_record * result A) : St := fst (fst o).
Definition emitted {St A} (o : St * list log_record * result A) : list log_record := snd (fst o).
Definition outcome {St A} (o : St * list log_record * result A) : result A := snd o.

Definition logging (lvl : log_level) {St} (msg : pystr) : M St unit :=
  emit (LogRecord RootLogger lvl msg).

(** Truthiness of an optional object and of an optional string. *)
Definition truthy {A} (o : option A) : bool :=
  match o with Some _ => true | None => false end.

Definition truthy_str (o : option pystr) : bool :=
  match o with
  | Some (_ :: _) => true
  | _ => false
  end.

(** ** Timers of the event loop and child processes *)

Inductive watchdog_kind : Type := ConnectWatchdog | IoWatchdog | CmdWatchdog.

Inductive timer_status : Type := TimerPending | TimerCancelled | TimerFired.

(** A handle returned by [loop.call_later(delay, callback)].  The connect and
    the command watchdog call [wd_timer], the io watchdog calls [io_timer]. *)
Record timer : Type := Timer {
  th_kind : watchdog_kind;
  th_delay : Q;
  th_status : timer_status
}.

(** The [subprocess.Popen] object behind a transport. *)
Record process : Type := Process {
  argv : list pystr;
  pid : Z;
  terminate_calls : nat
}.

(** ** [ssh_session.SSHReaderProtocol] *)

(** [watchdog], [iowatchdog] and [_transport] are attributes that exist only
    once they have been assigned: [None] stands for "no such attribute". *)
Record SSHReaderProtocol : Type := mkProtocol {
  _exited : bool;
  _closed_stdout : bool;
  _closed_stderr : bool;
  _mypid : option Z;
  _stdoutbuffer : pystr;
  _stderrbuffer : pystr;
  debug : bool;
  watchdog : option nat;
  iowatchdog : option nat;
  timeout_occurred : bool;
  p_transport : option nat
}.

Definition set__exited v (p : SSHReaderProtocol) :=
  mkProtocol v (_closed_stdout p) (_closed_stderr p) (_mypid p) (_stdoutbuffer p)
    (_stderrbuffer p) (debug p) (watchdog p) (iowatchdog p) (timeout_occurred p) (p_transport p).
Definition set__closed_stdout v (p : SSHReaderProtocol) :=
  mkProtocol (_exited p) v (_closed_stderr p) (_mypid p) (_stdoutbuffer p)
    (_stderrbuffer p) (debug p) (watchdog p) (iowatchdog p) (timeout_occurred p) (p_transport p).
Definition set__closed_stderr v (p : SSHReaderProtocol) :=
  mkProtocol (_exited p) (_closed_stdout p) v (_mypid p) (_stdoutbuffer p)
    (_stderrbuffer p) (debug p) (watchdog p) (iowatchdog p) (timeout_occurred p) (p_transport p).
Definition set__mypid v (p : SSHReaderProtocol) :=
  mkProtocol (_exited p) (_closed_stdout p) (_closed_stderr p) v (_stdoutbuffer p)
    (_stderrbuffer p) (debug p) (watchdog p) (iowatchdog p) (timeout_occurred p) (p_transport p).
Definition set__stdoutbuffer v (p : SSHReaderProtocol) :=
  mkProtocol (_exited p) (_closed_stdout p) (_closed_stderr p) (_mypid p) v
    (_stderrbuffer p) (debug p) (watchdog p) (iowatchdog p) (timeout_occurred p) (p_transport p).
Definition set__stderrbuffer v (p : SSHReaderProtocol) :=
  mkProtocol (_exited p) (_closed_stdout p) (_closed_stderr p) (_mypid p) (_stdoutbuffer p)
    v (debug p) (watchdog p) (iowatchdog p) (timeout_occurred p) (p_transport p).
Definition set_watchdog v (p : SSHReaderProtocol) :=
  mkProtocol (_exited p) (_closed_stdout p) (_closed_stderr p) (_mypid p) (_stdoutbuffer p)
    (_stderrbuffer p) (debug p) v (iowatchdog p) (timeout_occurred p) (p_transport p).
Definition set_iowatchdog v (p : SSHReaderProtocol) :=
  mkProtocol (_exited p) (_closed_stdout p) (_closed_stderr p) (_mypid p) (_stdoutbuffer p)
    (_stderrbuffer p) (debug p) (watchdog p) v (timeout_occurred p) (p_transport p).
Definition set_timeout_occurred v (p : SSHReaderProtocol) :=
  mkProtocol (_exited p) (_closed_stdout p) (_closed_stderr p) (_mypid p) (_stdoutbuffer p)
    (_stderrbuffer p) (debug p) (watchdog p) (iowatchdog p) v (p_transport p).
Definition set_p_transport v (p : SSHReaderProtocol) :=
  mkProtocol (_exited p) (_closed_stdout p) (_closed_stderr p) (_mypid p) (_stdoutbuffer p)
    (_stderrbuffer p) (debug p) (watchdog p) (iowatchdog p) (timeout_occurred p) v.

(** ** [ssh_session] *)

(** The attributes of a session, followed by the objects it owns in the
    model: [protocol] is the protocol object the transport holds (from the
    moment the factory of [subprocess_exec] has run), [timers] the handles
    [call_later] has returned for it, [children] the processes spawned for
    it (the last one belongs to the current transport).
    [cmd], [_transport] and [_protocol] exist only once [post_cmd] has
    assigned them. *)
Record ssh_session : Type := mkSession {
  hostname : option pystr;
  name : option pystr;
  user : pystr;
  opened : bool;
  closed : bool;
  connected : bool;
  results : list byte;
  sshpipe : option nat;
  node : option nat;
  CONNECT_TIMEOUT : option Q;
  IO_TIMEOUT : option Q;
  CMD_TIMEOUT : option Q;
  control_master : bool;
  ssh : pystr;
  adapter : pystr;
  cmd : option (option pystr);
  _transport : option nat;
  _protocol : bool;
  protocol : option SSHReaderProtocol;
  timers : list timer;
  children : list process
}.

Definition set_opened v (s : ssh_session) :=
  mkSession (hostname s) (name s) (user s) v (closed s) (connected s) (results s)
    (sshpipe s) (node s) (CONNECT_TIMEOUT s) (IO_TIMEOUT s) (CMD_TIMEOUT s)
    (control_master s) (ssh s) (adapter s) (cmd s) (_transport s) (_protocol s)
    (protocol s) (timers s) (children s).
Definition set_closed v (s : ssh_session) :=
  mkSession (hostname s) (name s) (user s) (opened s) v (connected s) (results s)
    (sshpipe s) (node s) (CONNECT_TIMEOUT s) (IO_TIMEOUT s) (CMD_TIMEOUT s)
    (control_master s) (ssh s) (adapter s) (cmd s) (_transport s) (_protocol s)
    (protocol s) (timers s) (children s).
Definition set_connected v (s : ssh_session) :=
  mkSession (hostname s) (name s) (user s) (opened s) (closed s) v (results s)
    (sshpipe s) (node s) (CONNECT_TIMEOUT s) (IO_TIMEOUT s) (CMD_TIMEOUT s)
    (control_master s) (ssh s) (adapter s) (cmd s) (_transport s) (_protocol s)
    (protocol s) (timers s) (children s).
Definition set_results v (s : ssh_session) :=
  mkSession (hostname s) (name s) (user s) (opened s) (closed s) (connected s) v
    (sshpipe s) (node s) (CONNECT_TIMEOUT s) (IO_TIMEOUT s) (CMD_TIMEOUT s)
    (control_master s) (ssh s) (adapter s) (cmd s) (_transport s) (_protocol s)
    (protocol s) (timers s) (children s).
Definition set_sshpipe v (s : ssh_session) :=
  mkSession (hostname s) (name s) (user s) (opened s) (closed s) (connected s) (results s)
    v (node s) (CONNECT_TIMEOUT s) (IO_TIMEOUT s) (CMD_TIMEOUT s)
    (control_master s) (ssh s) (adapter s) (cmd s) (_transport s) (_protocol s)
    (protocol s) (timers s) (children s).
Definition set_IO_TIMEOUT v (s : ssh_session) :=
  mkSession (hostname s) (name s) (user s) (opened s) (closed s) (connected s) (results s)
    (sshpipe s) (node s) (CONNECT_TIMEOUT s) v (CMD_TIMEOUT s)
    (control_master s) (ssh s) (adapter s) (cmd s) (_transport s) (_protocol s)
    (protocol s) (timers s) (children s).
Definition set_CMD_TIMEOUT v (s : ssh_session) :=
  mkSession (hostname s) (name s) (user s) (opened s) (closed s) (connected s) (results s)
    (sshpipe s) (node s) (CONNECT_TIMEOUT s) (IO_TIMEOUT s) v
    (control_master s) (ssh s) (adapter s) (cmd s) (_transport s) (_protocol s)
    (protocol s) (timers s) (children s).
Definition set_cmd v (s : ssh_session) :=
  mkSession (hostname s) (name s) (user s) (opened s) (closed s) (connected s) (results s)
    (sshpipe s) (node s) (CONNECT_TIMEOUT s) (IO_TIMEOUT s) (CMD_TIMEOUT s)
    (control_master s) (ssh s) (adapter s) v (_transport s) (_protocol s)
    (protocol s) (timers s) (children s).
Definition set__transport v (s : ssh_session) :=
  mkSession (hostname s) (name s) (user s) (opened s) (closed s) (connected s) (results s)
    (sshpipe s) (node s) (CONNECT_TIMEOUT s) (IO_TIMEOUT s) (CMD_TIMEOUT s)
    (control_master s) (ssh s) (adapter s) (cmd s) v (_protocol s)
    (protocol s) (timers s) (children s).
Definition set__protocol v (s : ssh_session) :=
  mkSession (hostname s) (name s) (user s) (opened s) (closed s) (connected s) (results s)
    (sshpipe s) (node s) (CONNECT_TIMEOUT s) (IO_TIMEOUT s) (CMD_TIMEOUT s)
    (control_master s) (ssh s) (adapter s) (cmd s) (_transport s) v
    (protocol s) (timers s) (children s).
Definition set_protocol v (s : ssh_session) :=
  mkSession (hostname s) (name s) (user s) (opened s) (closed s) (connected s) (results s)
    (sshpipe s) (node s) (CONNECT_TIMEOUT s) (IO_TIMEOUT s) (CMD_TIMEOUT s)
    (control_master s) (ssh s) (adapter s) (cmd s) (_transport s) (_protocol s)
    v (timers s) (children s).
Definition set_timers v (s : ssh_session) :=
  mkSession (hostname s) (name s) (user s) (opened s) (closed s) (connected s) (results s)
    (sshpipe s) (node s) (CONNECT_TIMEOUT s) (IO_TIMEOUT s) (CMD_TIMEOUT s)
    (control_master s) (ssh s) (adapter s) (cmd s) (_transport s) (_protocol s)
    (protocol s) v (children s).
Definition set_children v (s : ssh_session) :=
  mkSession (hostname s) (name s) (user s) (opened s) (closed s) (connected s) (results s)
    (sshpipe s) (node s) (CONNECT_TIMEOUT s) (IO_TIMEOUT s) (CMD_TIMEOUT s)
    (control_master s) (ssh s) (adapter s) (cmd s) (_transport s) (_protocol s)
    (protocol s) (timers s) v.

(** *** The state a protocol method runs on: [self] and [self._session] *)

Record pself : Type := mkSelf {
  self : SSHReaderProtocol;
  _session : ssh_session
}.

Definition self_get {A} (f : SSHReaderProtocol -> A) : M pself A :=
  gets (fun st => f (self st)).
Definition self_set (upd : SSHReaderProtocol -> SSHReaderProtocol) : M pself unit :=
  modify (fun st => mkSelf (upd (self st)) (_session st)).
Definition sess_get {A} (f : ssh_session -> A) : M pself A :=
  gets (fun st => f (_session st)).
Definition sess_set (upd : ssh_session -> ssh_session) : M pself unit :=
  modify (fun st => mkSelf (self st) (upd (_session st))).

(** [x is not None] *)
Definition is_not_None {A} (o : option A) : bool := truthy o.

(** [ssh_node.loop.call_later(delay, callback)]: a new pending handle. *)
Definition call_later (delay : Q) (kind : watchdog_kind) (s : ssh_session)
  : nat * ssh_session :=
  (length (timers s), set_timers (timers s ++ [Timer kind delay TimerPending]) s).

(** [handle.cancel()]: a pending handle will not fire any more. *)
Definition cancel_timer (t : timer) : timer :=
  match th_status t with
  | TimerPending => Timer (th_kind t) (th_delay t) TimerCancelled
  | _ => t
  end.

Definition cancel_handle (h : nat) (s : ssh_session) : ssh_session :=
  set_timers (alter cancel_timer h (timers s)) s.

(** [self.<attr>.cancel()], where the attribute may not exist yet. *)
Definition cancel_attr (attr : SSHReaderProtocol -> option nat) : M pself unit :=
  h <- self_get attr;;
  match h with
  | None => raise AttributeError
  | Some h => sess_set (cancel_handle h)
  end.

Definition arm (set : option nat -> SSHReaderProtocol -> SSHReaderProtocol)
    (delay : Q) (kind : watchdog_kind) : M pself unit :=
  s <- sess_get (fun s => s);;
  let '(h, s') := call_later delay kind s in
  sess_set (fun _ => s');;
  self_set (set (Some h)).

(** [popen.terminate()] on the process behind reference [h]. *)
Definition terminate_process (p : process) : process :=
  Process (argv p) (pid p) (S (terminate_calls p)).

Definition terminate (h : nat) (s : ssh_session) : ssh_session :=
  set_children (alter terminate_process h (children s)) s.

(** [CustomAdapter.process]: ['[%s] %s' % (self.extra['connid'], msg)]. *)
Definition adapter_process (connid msg : pystr) : pystr :=
  py "[" ++ connid ++ py "] " ++ msg.

Definition adapter_log (lvl : log_level) (msg : pystr) : M pself unit :=
  connid <- sess_get adapter;;
  emit (LogRecord ModuleLogger lvl (adapter_process connid msg)).

(** [SSHReaderProtocol.__init__(self, session)], run on the session; it
    returns the new protocol object. *)
Definition empty_protocol : SSHReaderProtocol :=
  mkProtocol false false false None [] [] false None None false None.

Definition SSHReaderProtocol_init : M ssh_session SSHReaderProtocol :=
  ct <- gets CONNECT_TIMEOUT;;
  p <- match ct with
       | Some d =>
           s <- get;;
           let '(h, s') := call_later d ConnectWatchdog s in
           modify (fun _ => s');;
           ret (set_watchdog (Some h) empty_protocol)
       | None => ret empty_protocol
       end;;
  modify (set_closed false);;
  ret (set_timeout_occurred false p).

(** The property [finished]. *)
Definition finished (p : SSHReaderProtocol) : bool :=
  _exited p && _closed_stdout p && _closed_stderr p.

Definition signal_exit : M pself unit :=
  fin <- self_get finished;;
  if negb fin then ret tt
  else sess_set (set_closed true).

(** [connection_made(self, transport)]: [transport] is the reference of the
    process the transport runs, which is what both [get_pid()] and
    [get_extra_info('subprocess')] are read from. *)
Definition connection_made (transport : nat) : M pself unit :=
  ct <- sess_get CONNECT_TIMEOUT;;
  when (is_not_None ct) (cancel_attr watchdog);;
  procs <- sess_get children;;
  self_set (set__mypid (pid <$> procs !! transport));;
  self_set (set_p_transport (Some transport));;
  sess_set (set_sshpipe (Some transport));;
  nm <- sess_get name;;
  mypid <- self_get _mypid;;
  adapter_log DEBUG
    (str_of_opt nm ++ py " ssh node connection made pid=(" ++ str_of_optZ mypid ++ py ")");;
  sess_set (set_connected true);;
  io <- sess_get IO_TIMEOUT;;
  match io with
  | Some d => arm set_iowatchdog d IoWatchdog
  | None => ret tt
  end;;
  ctm <- sess_get CMD_TIMEOUT;;
  match ctm with
  | Some d => arm set_watchdog d CmdWatchdog
  | None => ret tt
  end.

Definition connection_lost (exc : option pystr) : M pself unit :=
  nm <- sess_get name;;
  mypid <- self_get _mypid;;
  adapter_log DEBUG
    (str_of_opt nm ++ py " node connection lost pid=(" ++ str_of_optZ mypid ++ py ")");;
  sess_set (set_connected false).

(** The loop [while "\n" in buffer: line, buffer = buffer.split("\n", 1); log(line)],
    for either buffer.  [fuel] bounds the number of iterations; the buffer's
    length plus one is always enough (lemma [drain_lines_spec]). *)
Fixpoint drain_lines
    (getbuf : SSHReaderProtocol -> pystr)
    (setbuf : pystr -> SSHReaderProtocol -> SSHReaderProtocol)
    (log_line : pystr -> M pself unit)
    (fuel : nat) : M pself unit :=
  match fuel with
  | O => ret tt
  | S fuel' =>
      buf <- self_get getbuf;;
      if str_contains LF buf then
        match str_split1 LF buf with
        | [line; rest] =>
            self_set (setbuf rest);;
            log_line line;;
            drain_lines getbuf setbuf log_line fuel'
        | _ => raise ValueError
        end
      else ret tt
  end.

Definition log_stdout_line (line : pystr) : M pself unit :=
  adapter_log INFO line.

Definition log_stderr_line (line : pystr) : M pself unit :=
  nm <- sess_get name;;
  adapter_log WARNING (str_of_opt nm ++ py " " ++ line).

Definition pipe_data_received (fd : Z) (data : list byte) : M pself unit :=
  io <- sess_get IO_TIMEOUT;;
  when (is_not_None io) (cancel_attr iowatchdog);;
  dbg <- self_get debug;;
  when dbg (logging DEBUG (str_of_Z fd ++ py " " ++ bytes_repr data));;
  sess_set (fun s => set_results (results s ++ data) s);;
  text <- match decode_utf8 data with
          | Some t => ret t
          | None => raise UnicodeDecodeError
          end;;
  (if (fd =? 1)%Z then
     self_set (fun p => set__stdoutbuffer (_stdoutbuffer p ++ text) p);;
     buf <- self_get _stdoutbuffer;;
     drain_lines _stdoutbuffer set__stdoutbuffer log_stdout_line (S (length buf))
   else if (fd =? 2)%Z then
     self_set (fun p => set__stderrbuffer (_stderrbuffer p ++ text) p);;
     buf <- self_get _stderrbuffer;;
     drain_lines _stderrbuffer set__stderrbuffer log_stderr_line (S (length buf))
   else ret tt);;
  io <- sess_get IO_TIMEOUT;;
  match io with
  | Some d => arm set_iowatchdog d IoWatchdog
  | None => ret tt
  end.

Definition pipe_connection_lost (fd : Z) (exc : option pystr) : M pself unit :=
  io <- sess_get IO_TIMEOUT;;
  when (is_not_None io) (cancel_attr iowatchdog);;
  (if (fd =? 1)%Z then
     nm <- sess_get name;;
     adapter_log DEBUG
       (str_of_opt nm ++ py " stdout pipe closed (exception=" ++ str_of_opt exc ++ py ")");;
     self_set (set__closed_stdout true)
   else if (fd =? 2)%Z then
     nm <- sess_get name;;
     adapter_log DEBUG
       (str_of_opt nm ++ py " stderr pipe closed (exception=" ++ str_of_opt exc ++ py ")");;
     self_set (set__closed_stderr true)
   else ret tt);;
  signal_exit.

Definition process_exited : M pself unit :=
  ctm <- sess_get CMD_TIMEOUT;;
  when (is_not_None ctm) (cancel_attr watchdog);;
  nm <- sess_get name;;
  mypid <- self_get _mypid;;
  logging DEBUG
    (str_of_opt nm ++ py " subprocess with pid=" ++ str_of_optZ mypid ++ py " closed");;
  self_set (set__exited true);;
  self_set (set__mypid None);;
  signal_exit.

Definition wd_timer : M pself unit :=
  nm <- sess_get name;;
  mypid <- self_get _mypid;;
  logging ERROR (str_of_opt nm ++ py ": timeout: pid=" ++ str_of_optZ mypid);;
  self_set (set_timeout_occurred true);;
  pipe <- sess_get sshpipe;;
  match pipe with
  | Some h => sess_set (terminate h)
  | None => ret tt
  end.

(** [self._session.cmd]: when [post_cmd] has not bound the attribute, the
    lookup falls through to [ssh_session.__getattr__], and an [ssh_node] has
    no attribute [cmd]. *)
Definition session_cmd : M pself (option pystr) :=
  c <- sess_get cmd;;
  match c with
  | Some c => ret c
  | None =>
      n <- sess_get node;;
      if truthy n then raise AttributeError else ret None
  end.

Definition io_timer : M pself unit :=
  nm <- sess_get name;;
  c <- session_cmd;;
  host <- sess_get hostname;;
  mypid <- self_get _mypid;;
  logging ERROR
    (str_of_opt nm ++ py " IO timeout: cmd='" ++ str_of_opt c ++ py "' host(pid)="
       ++ str_of_opt host ++ py "(" ++ str_of_optZ mypid ++ py ")");;
  self_set (set_timeout_occurred true);;
  pipe <- sess_get sshpipe;;
  match pipe with
  | Some h => sess_set (terminate h)
  | None => raise AttributeError
  end.

(** ** What the transport and the loop call on a session's protocol *)

Inductive event : Type :=
| ConnectionMade
| ConnectionLost (exc : option pystr)
| PipeDataReceived (fd : Z) (data : list byte)
| PipeConnectionLost (fd : Z) (exc : option pystr)
| ProcessExited
| TimerExpired (h : nat).

(** Runs a protocol method on the session's protocol object and writes both
    objects back.  Without a protocol there is nothing to call. *)
Definition on_protocol (m : M pself unit) : M ssh_session unit :=
  fun s =>
    match protocol s with
    | None => (s, [], inr tt)
    | Some p =>
        match m (mkSelf p s) with
        | (st, l, r) => (set_protocol (Some (self st)) (_session st), l, r)
        end
    end.

Definition fire_timer (t : timer) : timer :=
  Timer (th_kind t) (th_delay t) TimerFired.

Definition timer_callback (k : watchdog_kind) : M pself unit :=
  match k with
  | IoWatchdog => io_timer
  | ConnectWatchdog | CmdWatchdog => wd_timer
  end.

Definition is_pending (t : timer) : bool :=
  match th_status t with TimerPending => true | _ => false end.

Definition deliver (ev : event) : M ssh_session unit :=
  match ev with
  | ConnectionMade =>
      fun s =>
        match children s with
        | [] => (s, [], inr tt)
        | _ :: _ => on_protocol (connection_made (length (children s) - 1)) s
        end
  | ConnectionLost exc => on_protocol (connection_lost exc)
  | PipeDataReceived fd data => on_protocol (pipe_data_received fd data)
  | PipeConnectionLost fd exc => on_protocol (pipe_connection_lost fd exc)
  | ProcessExited => on_protocol process_exited
  | TimerExpired h =>
      fun s =>
        match timers s !! h with
        | Some t =>
            if is_pending t
            then on_protocol (timer_callback (th_kind t))
                   (set_timers (alter fire_timer h (timers s)) s)
            else (s, [], inr tt)
        | None => (s, [], inr tt)
        end
  end.

(** The loop logs an exception raised by a callback and goes on. *)
Definition deliver_all (evs : list event) (s : ssh_session) : ssh_session :=
  fold_left (fun s ev => final_state (deliver ev s)) evs s.

(** ** [ssh_session.__init__] *)

(** [sessionid] is the class attribute [ssh_session.sessionid]; the result is
    the new session and the new value of the counter. *)
Definition ssh_session_init (user_ : pystr) (name_ hostname_ : option pystr)
    (CONNECT_TIMEOUT_ : option Q) (control_master_ : bool) (node_ : option nat)
    (sessionid : Z) : result (ssh_session * Z) :=
  let mk conn_id :=
    mkSession hostname_ name_ user_
      false true false
      [] None node_ CONNECT_TIMEOUT_ None None control_master_
      (py "/usr/bin/ssh") conn_id None None false None [] [] in
  if control_master_ then
    match name_ with
    | Some n => inr (mk (n ++ py "(console)"), sessionid)
    | None => inl TypeError
    end
  else
    inr (mk (str_of_opt name_ ++ py "(" ++ str_of_Z sessionid ++ py ")"),
         (sessionid + 1)%Z).

(** ** The coroutines [post_cmd] and [close] *)

(** A coroutine is represented by the point at which it is suspended. *)
Inductive coroutine : Type :=
| post_cmd_start (cmd_ : option pystr) (IO_TIMEOUT_ CMD_TIMEOUT_ : option Q)
                 (ssh_speedups_ : bool)
| post_cmd_await_exec
| post_cmd_await_closed
| close_start
| close_await_closed.

Inductive returned : Type :=
| ReturnNone
| ReturnResults.   (* the session's [results] object itself *)

(** [loop.subprocess_exec(lambda: SSHReaderProtocol(self), *sshcmd, ...)] up
    to its first suspension: the factory builds the protocol, then the
    child is spawned (the spawn is assumed to succeed). *)
Definition subprocess_exec (sshcmd : list pystr) (newpid : Z) : M ssh_session unit :=
  p <- SSHReaderProtocol_init;;
  modify (set_protocol (Some p));;
  modify (fun s => set_children (children s ++ [Process sshcmd newpid 0]) s).

(** [await self.closed.wait()]: no suspension when the event is already set. *)
Definition await_closed (k : returned) (suspended : coroutine)
  : M ssh_session (coroutine + returned) :=
  c <- gets closed;;
  if c then ret (inr k) else ret (inl suspended).

(** One step of a coroutine: from where it is suspended to its next
    suspension ([inl]) or to its [return] ([inr]).  A coroutine whose awaited
    result is not there yet stays where it is.  [controlmasters] is what
    [self.controlmasters] evaluates to and [newpid] the pid the system gives
    to a child spawned in this step. *)
Definition coroutine_step (controlmasters : result (option pystr)) (newpid : Z)
    (c : coroutine) : M ssh_session (coroutine + returned) :=
  match c with
  | post_cmd_start cmd_ IO_TIMEOUT_ CMD_TIMEOUT_ ssh_speedups_ =>
      nm <- gets name;;
      logging DEBUG (str_of_opt nm ++ py " Post command " ++ str_of_opt cmd_);;
      modify (set_opened false);;
      modify (set_cmd (Some cmd_));;
      modify (set_IO_TIMEOUT IO_TIMEOUT_);;
      modify (set_CMD_TIMEOUT CMD_TIMEOUT_);;
      exe <- gets ssh;;
      cm <- gets control_master;;
      opts <- (if cm then
                 match controlmasters with
                 | inl e => raise e
                 | inr path =>
                     ret [py "-o ControlMaster=yes";
                          py "-o ControlPath=" ++ str_of_opt path]
                 end
               else if ssh_speedups_ then
                 match controlmasters with
                 | inl e => raise e
                 | inr path => ret [py "-o ControlPath=" ++ str_of_opt path]
                 end
               else ret []);;
      usr <- gets user;;
      host <- gets hostname;;
      match cmd_ with
      | None => raise TypeError      (* [s.join] of a list holding [None] *)
      | Some cmdtext =>
          let sshcmd := [exe] ++ opts ++ [usr ++ py "@" ++ str_of_opt host; cmdtext] in
          logging INFO (str_of_opt nm ++ py " " ++ str_join (py " ") sshcmd);;
          subprocess_exec sshcmd newpid;;
          ret (inl post_cmd_await_exec)
      end
  | post_cmd_await_exec =>
      s <- get;;
      match protocol s with
      | Some p =>
          match p_transport p with
          | Some tr =>
              modify (set__transport (Some tr));;
              modify (set__protocol true);;
              (* [self.connected.wait()] only builds a coroutine object *)
              logging DEBUG (py "Connected");;
              cm <- gets control_master;;
              if negb cm then await_closed ReturnResults post_cmd_await_closed
              else ret (inr ReturnNone)
          | None => ret (inl post_cmd_await_exec)
          end
      | None => ret (inl post_cmd_await_exec)
      end
  | post_cmd_await_closed =>
      await_closed ReturnResults post_cmd_await_closed
  | close_start =>
      pipe <- gets sshpipe;;
      match pipe with
      | Some h =>
          modify (terminate h);;
          await_closed ReturnNone close_await_closed
      | None => ret (inr ReturnNone)
      end
  | close_await_closed =>
      await_closed ReturnNone close_await_closed
  end.

(** ** Values, tasks, nodes and the state of the module *)

Inductive pyval : Type :=
| VNone
| VBool (b : bool)
| VInt (z : Z)
| VFloat (q : Q)
| VNumber (q : Q)               (* an [int] or a [float] of this value *)
| VStr (s : pystr)
| VEvent (is_set : bool)
| VBytearray (sid : nat)        (* the [results] object of session [sid] *)
| VSession (sid : nat)
| VProtocol (sid : nat)
| VProcess (sid : nat) (h : nat)
| VNode (nid : nat)
| VTask (tid : nat)
| VTaskList (tids : list nat)
| VCallable (qualname : string)
| VObject (description : string).

Inductive task_state : Type :=
| Pending (c : coroutine)
| Done (v : pyval)
| Failed (e : exn).

(** A task made by [asyncio.ensure_future] from a coroutine of a session. *)
Record task : Type := Task {
  t_session : nat;
  t_state : task_state
}.

(** [console_task] exists only once [open_consoles] or [close_consoles] has
    assigned it. *)
Record ssh_node : Type := mkNode {
  ipaddr : option pystr;
  n_name : option pystr;
  my_tasks : list nat;
  device : option pystr;
  controlmasters : pystr;
  ssh_speedups : bool;
  ssh_console_session : option nat;
  console_task : option nat
}.

Definition set_my_tasks v (n : ssh_node) :=
  mkNode (ipaddr n) (n_name n) v (device n) (controlmasters n) (ssh_speedups n)
    (ssh_console_session n) (console_task n).
Definition set_ssh_console_session v (n : ssh_node) :=
  mkNode (ipaddr n) (n_name n) (my_tasks n) (device n) (controlmasters n) (ssh_speedups n)
    v (console_task n).
Definition set_console_task v (n : ssh_node) :=
  mkNode (ipaddr n) (n_name n) (my_tasks n) (device n) (controlmasters n) (ssh_speedups n)
    (ssh_console_session n) v.

(** A call [asyncio.wait(tasks, timeout=...)] handed to [run_until_complete]. *)
Record wait_call : Type := WaitCall {
  wc_tasks : list nat;
  wc_timeout : option Q
}.

(** The class attributes [ssh_node.rexec_tasks], [ssh_node.instances] (the
    nodes that are alive, in the order [list(...)] enumerates them) and
    [ssh_session.sessionid]; the heaps of nodes, sessions and tasks; the pid
    the system hands out next; the joins the loop has run. *)
Record world : Type := mkWorld {
  rexec_tasks : list nat;
  instances : list nat;
  sessionid : Z;
  nodes : list ssh_node;
  sessions : list ssh_session;
  tasks : list task;
  next_pid : Z;
  waits : list wait_call
}.

Definition set_rexec_tasks v (w : world) :=
  mkWorld v (instances w) (sessionid w) (nodes w) (sessions w) (tasks w) (next_pid w) (waits w).
Definition set_instances v (w : world) :=
  mkWorld (rexec_tasks w) v (sessionid w) (nodes w) (sessions w) (tasks w) (next_pid w) (waits w).
Definition set_sessionid v (w : world) :=
  mkWorld (rexec_tasks w) (instances w) v (nodes w) (sessions w) (tasks w) (next_pid w) (waits w).
Definition set_nodes v (w : world) :=
  mkWorld (rexec_tasks w) (instances w) (sessionid w) v (sessions w) (tasks w) (next_pid w) (waits w).
Definition set_sessions v (w : world) :=
  mkWorld (rexec_tasks w) (instances w) (sessionid w) (nodes w) v (tasks w) (next_pid w) (waits w).
Definition set_tasks v (w : world) :=
  mkWorld (rexec_tasks w) (instances w) (sessionid w) (nodes w) (sessions w) v (next_pid w) (waits w).
Definition set_next_pid v (w : world) :=
  mkWorld (rexec_tasks w) (instances w) (sessionid w) (nodes w) (sessions w) (tasks w) v (waits w).
Definition set_waits v (w : world) :=
  mkWorld (rexec_tasks w) (instances w) (sessionid w) (nodes w) (sessions w) (tasks w) (next_pid w) v.

Definition empty_world : world := mkWorld [] [] 1 [] [] [] 1000 [].

(** ** Attribute lookup *)

Local Open Scope string_scope.

Definition opt_str (o : option pystr) : pyval :=
  match o with Some s => VStr s | None => VNone end.

(** The minor version of the interpreter the module's first line names
    ([python3.5]). *)
Definition python_minor : nat := 5.

(** What normal lookup finds on every instance of a class of the module
    besides its own attributes: the attributes of [object], and
    [__dict__], [__module__] and [__weakref__] of the class.  Neither class
    has a docstring, so [__doc__] is [None]; [weakref] is the value of
    [__weakref__]. *)
Definition object_getattr (weakref : pyval) (attr : string) : option pyval :=
  match attr with
  | "__doc__" => Some VNone
  | "__weakref__" => Some weakref
  | "__class__" | "__dict__" | "__module__" => Some (VObject attr)
  | "__delattr__" | "__dir__" | "__eq__" | "__format__" | "__ge__"
  | "__getattribute__" | "__gt__" | "__hash__" | "__le__" | "__lt__" | "__ne__"
  | "__new__" | "__reduce__" | "__reduce_ex__" | "__repr__" | "__setattr__"
  | "__sizeof__" | "__str__" | "__subclasshook__" => Some (VCallable attr)
  | "__init_subclass__" =>
      if (6 <=? python_minor)%nat then Some (VCallable attr) else None
  | _ => None
  end.

(** [getattr(node, attr)] for an [ssh_node]: instance attributes first, then
    the attributes of the class, then those of [object].  A node is held
    in the [WeakSet] [instances], so its [__weakref__] is a weak
    reference. *)

Definition ssh_node_getattr (w : world) (n : ssh_node) (attr : string) : result pyval :=
  match attr with
  | "ipaddr" => inr (opt_str (ipaddr n))
  | "name" => inr (opt_str (n_name n))
  | "my_tasks" => inr (VTaskList (my_tasks n))
  | "device" => inr (opt_str (device n))
  | "controlmasters" => inr (VStr (controlmasters n))
  | "ssh_speedups" => inr (VBool (ssh_speedups n))
  | "ssh_console_session" =>
      inr (match ssh_console_session n with Some sid => VSession sid | None => VNone end)
  | "console_task" =>
      match console_task n with Some tid => inr (VTask tid) | None => inl AttributeError end
  | "DEFAULT_IO_TIMEOUT" => inr (VFloat (20 # 1))
  | "DEFAULT_CMD_TIMEOUT" => inr (VInt 30)
  | "DEFAULT_CONNECT_TIMEOUT" => inr (VFloat (10 # 1))
  | "rexec_tasks" => inr (VTaskList (rexec_tasks w))
  | "loop" => inr (VObject "event loop")
  | "instances" => inr (VObject "WeakSet")
  | "set_loop" | "get_instances" | "run_all_commands" | "open_consoles"
  | "close_consoles" | "__init__" | "wl" | "wl_async" | "rexec" | "close_console" =>
      inr (VCallable attr)
  | _ =>
      match object_getattr (VObject "weakref") attr with
      | Some v => inr v
      | None => inl AttributeError
      end
  end.

(** What normal lookup finds on a session: its instance attributes, the
    attributes of the class and those of [object]; [None] when there is
    none of that name.  (The property [is_established] is looked up
    separately.)  The timeouts are whatever numbers the caller passed, the
    [int] [DEFAULT_CMD_TIMEOUT] for instance. *)
Definition ssh_session_own (sid : nat) (s : ssh_session) (attr : string) : option pyval :=
  match attr with
  | "hostname" => Some (opt_str (hostname s))
  | "name" => Some (opt_str (name s))
  | "user" => Some (VStr (user s))
  | "opened" => Some (VEvent (opened s))
  | "closed" => Some (VEvent (closed s))
  | "connected" => Some (VEvent (connected s))
  | "results" => Some (VBytearray sid)
  | "sshpipe" => Some (match sshpipe s with Some h => VProcess sid h | None => VNone end)
  | "node" => Some (match node s with Some nid => VNode nid | None => VNone end)
  | "CONNECT_TIMEOUT" => Some (match CONNECT_TIMEOUT s with Some q => VNumber q | None => VNone end)
  | "IO_TIMEOUT" => Some (match IO_TIMEOUT s with Some q => VNumber q | None => VNone end)
  | "CMD_TIMEOUT" => Some (match CMD_TIMEOUT s with Some q => VNumber q | None => VNone end)
  | "control_master" => Some (VBool (control_master s))
  | "ssh" => Some (VStr (ssh s))
  | "adapter" => Some (VObject "CustomAdapter")
  | "cmd" => opt_str <$> cmd s
  | "_transport" => (fun _ => VObject "transport") <$> _transport s
  | "_protocol" => if _protocol s then Some (VProtocol sid) else None
  | "sessionid" | "SSHReaderProtocol" | "CustomAdapter" =>
      Some (VObject attr)
  | "__init__" | "__getattr__" | "close" | "post_cmd" => Some (VCallable attr)
  | _ => object_getattr VNone attr
  end.

(** [ssh_session.__getattr__(self, attr)] *)
Definition ssh_session___getattr__ (w : world) (s : ssh_session) (attr : string)
  : result pyval :=
  match node s with
  | Some nid =>
      match nodes w !! nid with
      | Some n => ssh_node_getattr w n attr
      | None => inl AttributeError
      end
  | None => inr VNone
  end.

(** [getattr(session, attr)]: normal lookup, and [__getattr__] when that
    finds nothing.  The getter of [is_established] reads [self._exited],
    which no session has: with a node the read raises [AttributeError] out
    of the getter and [__getattr__] is asked for [is_established] itself;
    without one it yields [None], and so does the [and]-chain. *)
Definition ssh_session_getattr (w : world) (sid : nat) (s : ssh_session) (attr : string)
  : result pyval :=
  if String.eqb attr "is_established" then
    match ssh_session___getattr__ w s "_exited" with
    | inl _ => ssh_session___getattr__ w s attr
    | inr v => inr v
    end
  else
    match ssh_session_own sid s attr with
    | Some v => inr v
    | None => ssh_session___getattr__ w s attr
    end.

(** [self.controlmasters], read inside [post_cmd]. *)
Definition session_controlmasters (w : world) (sid : nat) (s : ssh_session)
  : result (option pystr) :=
  match ssh_session_getattr w sid s "controlmasters" with
  | inl e => inl e
  | inr (VStr path) => inr (Some path)
  | inr _ => inr None
  end.

Local Close Scope string_scope.

(** ** The event loop *)

(** [asyncio.ensure_future(coroutine)]: a new task, scheduled to start. *)
Definition ensure_future (sid : nat) (c : coroutine) : M world nat :=
  w <- get;;
  modify (set_tasks (tasks w ++ [Task sid (Pending c)]));;
  ret (length (tasks w)).

(** One step of task [tid].  An exception raised by the coroutine ends the
    task and is kept in it. *)
Definition step_task (tid : nat) : M world unit :=
  fun w =>
    match tasks w !! tid with
    | Some (Task sid (Pending c)) =>
        match sessions w !! sid with
        | Some s =>
            match coroutine_step (session_controlmasters w sid s) (next_pid w) c s with
            | (s', l, r) =>
                let st :=
                  match r with
                  | inl e => Failed e
                  | inr (inl c') => Pending c'
                  | inr (inr ReturnNone) => Done VNone
                  | inr (inr ReturnResults) => Done (VBytearray sid)
                  end in
                let spawned := length (children s') - length (children s) in
                (set_next_pid (next_pid w + Z.of_nat spawned)%Z
                   (set_tasks (<[tid := Task sid st]> (tasks w))
                      (set_sessions (<[sid := s']> (sessions w)) w)),
                 l, inr tt)
            end
        | None => (w, [], inr tt)
        end
    | _ => (w, [], inr tt)
    end.

(** What the loop does between two suspensions of [run_until_complete]. *)
Inductive action : Type :=
| Deliver (sid : nat) (ev : event)
| Step (tid : nat).

Definition deliver_to (sid : nat) (ev : event) : M world unit :=
  fun w =>
    match sessions w !! sid with
    | Some s =>
        match deliver ev s with
        | (s', l, _) => (set_sessions (<[sid := s']> (sessions w)) w, l, inr tt)
        end
    | None => (w, [], inr tt)
    end.

Definition do_action (a : action) : M world unit :=
  match a with
  | Deliver sid ev => deliver_to sid ev
  | Step tid => step_task tid
  end.

Fixpoint for_each {St A} (xs : list A) (body : A -> M St unit) : M St unit :=
  match xs with
  | [] => ret tt
  | x :: xs' => body x;; for_each xs' body
  end.

Definition not_started (t : task) : bool :=
  match t_state t with
  | Pending (post_cmd_start _ _ _ _) | Pending close_start => true
  | _ => false
  end.

(** The first steps of the tasks made since the loop last ran: they are
    ahead of everything else in the loop's queue, in the order the tasks
    were made. *)
Definition start_scheduled : M world unit :=
  w <- get;;
  for_each (seq 0 (length (tasks w)))
    (fun tid =>
       w' <- get;;
       match tasks w' !! tid with
       | Some t => when (not_started t) (step_task tid)
       | None => ret tt
       end).

(** A spawned child whose protocol has not had [connection_made] yet. *)
Definition unconfirmed (s : ssh_session) : bool :=
  match protocol s, children s with
  | Some p, _ :: _ => negb (truthy (p_transport p))
  | _, _ => false
  end.

(** The transport calls [connection_made] as soon as the pipes of a new
    child are connected, before any other callback of that child. *)
Definition confirm_launches : M world unit :=
  w <- get;;
  for_each (seq 0 (length (sessions w)))
    (fun sid =>
       w' <- get;;
       match sessions w' !! sid with
       | Some s => when (unconfirmed s) (deliver_to sid ConnectionMade)
       | None => ret tt
       end).

(** [ssh_node.loop.run_until_complete(asyncio.wait(ts, timeout=timeout, ...))]:
    the join returns when all of [ts] are done or the timeout has passed,
    never with an exception.  The loop first runs what is already in its
    queue ([loop_prologue]); [sched] is what it does after that, until the
    join returns. *)
Definition loop_prologue (ts : list nat) (timeout : option Q) : M world unit :=
  modify (fun w => set_waits (waits w ++ [WaitCall ts timeout]) w);;
  start_scheduled;;
  confirm_launches.

Definition run_until_complete_wait (ts : list nat) (timeout : option Q)
    (sched : list action) : M world unit :=
  loop_prologue ts timeout;;
  for_each sched do_action.

(** [task.result()] *)
Definition task_result (tid : nat) : M world pyval :=
  w <- get;;
  match tasks w !! tid with
  | Some (Task _ (Done v)) => ret v
  | Some (Task _ (Failed e)) => raise e
  | _ => raise InvalidStateError
  end.

(** ** [ssh_node] *)

(** [ssh_node.__init__].  [instances] is a [WeakSet]: the model keeps every
    node alive (the caller holds on to its nodes) and lists the set in the
    order the nodes were made, which is one of the orders [list(instances)]
    may give.  What is proved for an arbitrary world holds for every
    order. *)
Definition ssh_node_init (name_ ipaddr_ : option pystr) (console_ : bool)
    (device_ : option pystr) (ssh_speedups_ : bool) : M world nat :=
  w <- get;;
  let n := mkNode ipaddr_ name_ [] device_
             (py "/tmp/controlmasters_" ++ str_of_opt ipaddr_) ssh_speedups_ None None in
  modify (set_nodes (nodes w ++ [n]));;
  modify (fun w' => set_instances (instances w' ++ [length (nodes w)]) w');;
  ret (length (nodes w)).

Definition get_instances : M world (list nat) := gets instances.

Definition update_node (nid : nat) (f : ssh_node -> ssh_node) : M world unit :=
  modify (fun w => set_nodes (alter f nid (nodes w)) w).

(** [ssh_session(...)] called from a method of the module. *)
Definition new_session (user_ : pystr) (name_ hostname_ : option pystr)
    (CONNECT_TIMEOUT_ : option Q) (control_master_ : bool) (node_ : option nat)
  : M world nat :=
  w <- get;;
  match ssh_session_init user_ name_ hostname_ CONNECT_TIMEOUT_ control_master_ node_
          (sessionid w) with
  | inl e => raise e
  | inr (s, next) =>
      modify (set_sessionid next);;
      modify (fun w' => set_sessions (sessions w' ++ [s]) w');;
      ret (length (sessions w))
  end.

(** [s.join(names)] of names that may be [None]. *)
Fixpoint all_names (names : list (option pystr)) : option (list pystr) :=
  match names with
  | [] => Some []
  | Some n :: rest => option_map (cons n) (all_names rest)
  | None :: _ => None
  end.

Definition join_names (names : list (option pystr)) : M world pystr :=
  match all_names names with
  | Some ns => ret (str_join (py " ") ns)
  | None => raise TypeError
  end.

Definition nonempty {A} (l : list A) : bool :=
  match l with [] => false | _ :: _ => true end.

Definition run_all_commands (timeout : option Q) (text stoptext : option pystr)
    (sched : list action) : M world unit :=
  pending <- gets rexec_tasks;;
  when (nonempty pending)
    (when (truthy_str text)
       (* the module has no name [time] *)
       (raise NameError);;
     run_until_complete_wait pending timeout sched;;
     when (truthy_str stoptext)
       (logging INFO (py "Commands done (" ++ str_of_opt stoptext ++ py ")"));;
     modify (set_rexec_tasks [])).

(** The [for node in nodes] loop of [open_consoles]; it returns [tasks] and
    [node_names]. *)
Fixpoint open_consoles_loop (ns : list nat) (ts : list nat)
    (node_names : list (option pystr)) : M world (list nat * list (option pystr)) :=
  match ns with
  | [] => ret (ts, node_names)
  | nid :: rest =>
      w <- get;;
      match nodes w !! nid with
      | Some n =>
          if negb (truthy (ssh_console_session n)) then
            sid <- new_session (py "root") (n_name n) (ipaddr n) None true (Some nid);;
            update_node nid (set_ssh_console_session (Some sid));;
            tid <- ensure_future sid (post_cmd_start (Some (py "dmesg -w")) None None false);;
            update_node nid (set_console_task (Some tid));;
            open_consoles_loop rest (ts ++ [tid]) (node_names ++ [n_name n])
          else open_consoles_loop rest ts node_names
      | None => open_consoles_loop rest ts node_names
      end
  end.

Definition open_consoles (sched : list action) : M world unit :=
  ns <- get_instances;;
  r <- open_consoles_loop ns [] [];;
  let '(ts, node_names) := r in
  when (nonempty ts)
    (joined <- join_names node_names;;
     logging INFO (py "Opening consoles: " ++ joined);;
     run_until_complete_wait ts (Some (60 # 1)%Q) sched;;
     logging INFO (py "Open consoles done")).

Fixpoint close_consoles_loop (ns : list nat) (ts : list nat)
    (node_names : list (option pystr)) : M world (list nat * list (option pystr)) :=
  match ns with
  | [] => ret (ts, node_names)
  | nid :: rest =>
      w <- get;;
      match nodes w !! nid with
      | Some n =>
          match ssh_console_session n with
          | Some sid =>
              tid <- ensure_future sid close_start;;
              update_node nid (set_console_task (Some tid));;
              close_consoles_loop rest (ts ++ [tid]) (node_names ++ [n_name n])
          | None => close_consoles_loop rest ts node_names
          end
      | None => close_consoles_loop rest ts node_names
      end
  end.

Definition close_consoles (sched : list action) : M world unit :=
  ns <- get_instances;;
  r <- close_consoles_loop ns [] [];;
  let '(ts, node_names) := r in
  when (nonempty ts)
    (joined <- join_names node_names;;
     logging INFO (py "Closing consoles: " ++ joined);;
     run_until_complete_wait ts (Some (60 # 1)%Q) sched).

(** [list.remove(x)]: the first occurrence goes, [ValueError] without one. *)
Fixpoint list_remove (x : nat) (l : list nat) : option (list nat) :=
  match l with
  | [] => None
  | y :: rest =>
      if Nat.eqb x y then Some rest
      else option_map (cons y) (list_remove x rest)
  end.

Definition DEFAULT_IO_TIMEOUT : Q := (20 # 1)%Q.
Definition DEFAULT_CMD_TIMEOUT : Q := (30 # 1)%Q.
Definition DEFAULT_CONNECT_TIMEOUT : Q := (10 # 1)%Q.

(** The [finally] clause of [rexec]; its [return] replaces whatever the
    [try] block was about to do. *)
Definition rexec_finally (self_ : nat) (this_task : nat) : M world pyval :=
  w <- get;;
  match list_remove this_task (rexec_tasks w) with
  | None => raise ValueError
  | Some l =>
      modify (set_rexec_tasks l);;
      w' <- get;;
      match nodes w' !! self_ with
      | None => raise AttributeError
      | Some n =>
          match list_remove this_task (my_tasks n) with
          | None => raise ValueError
          | Some l' =>
              update_node self_ (set_my_tasks l');;
              task_result this_task
          end
      end
  end.

(** [ssh_node.rexec(self, cmd, ASYNC, IO_TIMEOUT, CMD_TIMEOUT, CONNECT_TIMEOUT)] *)
Definition rexec (self_ : nat) (cmd_ : option pystr) (ASYNC : bool)
    (IO_TIMEOUT_ CMD_TIMEOUT_ CONNECT_TIMEOUT_ : option Q)
    (sched : list action) : M world pyval :=
  w <- get;;
  match nodes w !! self_ with
  | None => raise AttributeError
  | Some n =>
      this_session <- new_session (py "root") (n_name n) (ipaddr n)
                        CONNECT_TIMEOUT_ false (Some self_);;
      this_task <- ensure_future this_session
                     (post_cmd_start cmd_ IO_TIMEOUT_ CMD_TIMEOUT_ false);;
      modify (fun w' => set_rexec_tasks (rexec_tasks w' ++ [this_task]) w');;
      update_node self_ (fun n' => set_my_tasks (my_tasks n' ++ [this_task]) n');;
      if negb ASYNC then
        (* [asyncio.wait] does not raise [TimeoutError]: the [except]
           clause is never entered *)
        run_until_complete_wait [this_task] (Some (10 # 1)%Q) sched;;
        rexec_finally self_ this_task
      else ret (VTask this_task)
  end.

(** [ssh_node.wl(self, cmd, ASYNC)] *)
Definition wl (self_ : nat) (cmd_ : pystr) (ASYNC : bool) (sched : list action)
  : M world pyval :=
  w <- get;;
  match nodes w !! self_ with
  | None => raise AttributeError
  | Some n =>
      if truthy_str (device n) then
        rexec self_ (Some (py "/usr/bin/wl -i " ++ str_of_opt (device n) ++ py " " ++ cmd_))
          ASYNC (Some DEFAULT_IO_TIMEOUT) (Some DEFAULT_CMD_TIMEOUT)
          (Some DEFAULT_CONNECT_TIMEOUT) sched
      else
        rexec self_ (Some (py "/usr/bin/wl " ++ cmd_))
          ASYNC (Some DEFAULT_IO_TIMEOUT) (Some DEFAULT_CMD_TIMEOUT)
          (Some DEFAULT_CONNECT_TIMEOUT) sched
  end.

(** [ssh_node.wl_async(self, cmd)]: both calls pass [ASYNC=False]. *)
Definition wl_async (self_ : nat) (cmd_ : pystr) (sched : list action) : M world pyval :=
  w <- get;;
  match nodes w !! self_ with
  | None => raise AttributeError
  | Some n =>
      if truthy_str (device n) then
        rexec self_ (Some (py "/usr/bin/wl -i " ++ str_of_opt (device n) ++ py " " ++ cmd_))
          false (Some DEFAULT_IO_TIMEOUT) (Some DEFAULT_CMD_TIMEOUT)
          (Some DEFAULT_CONNECT_TIMEOUT) sched
      else
        rexec self_ (Some (py "/usr/bin/wl " ++ cmd_))
          false (Some DEFAULT_IO_TIMEOUT) (Some DEFAULT_CMD_TIMEOUT)
          (Some DEFAULT_CONNECT_TIMEOUT) sched
  end.

(** [ssh_node.close_console(self)]: [self.ssh_console_session.close()] only
    makes a coroutine object; it is neither awaited nor handed to the loop,
    so nothing of the body of [close] runs. *)
Definition close_console (self_ : nat) : M world unit :=
  w <- get;;
  match nodes w !! self_ with
  | None => raise AttributeError
  | Some n => when (truthy (ssh_console_session n)) (ret tt)
  end.

(** [ssh_node.set_loop(loop)], run on the class attribute [ssh_node.loop]
    (an event loop is a reference).  The module does not import [os]:
    without a loop, evaluating [os.name] raises [NameError]. *)
Definition set_loop (loop : option nat) : M (option nat) (option nat) :=
  match loop with
  | Some l => modify (fun _ => Some l);; gets (fun cur => cur)
  | None => raise NameError
  end.

(** ** Observing a session *)

(** The protocol is installed and the child spawned: the state in which
    [post_cmd] waits for [subprocess_exec]. *)
Definition launch (sshcmd : list pystr) (newpid : Z) (s : ssh_session) : ssh_session :=
  final_state (subprocess_exec sshcmd newpid s).

Definition is_connection_made (ev : event) : bool :=
  match ev with ConnectionMade => true | _ => false end.

Definition is_exit (ev : event) : bool :=
  match ev with ProcessExited => true | _ => false end.

Definition is_close (fd : Z) (ev : event) : bool :=
  match ev with
  | PipeConnectionLost fd' _ => (fd' =? fd)%Z
  | _ => false
  end.

(** Process exit, closure of stdout (fd 1) and closure of stderr (fd 2) have
    all been delivered. *)
Definition observed_all (evs : list event) : bool :=
  existsb is_exit evs && existsb (is_close 1) evs && existsb (is_close 2) evs.

(** What a subprocess transport does: [connection_made] once, before any
    other callback of the protocol; timers fire whenever they are due. *)
Definition allowed (made : bool) (ev : event) : bool :=
  match ev with
  | ConnectionMade => negb made
  | TimerExpired _ => true
  | _ => made
  end.

Fixpoint contract (made : bool) (evs : list event) : bool :=
  match evs with
  | [] => true
  | ev :: rest => allowed made ev && contract (made || is_connection_made ev) rest
  end.

Definition transport_contract (evs : list event) : bool := contract false evs.

(** The value of [closed] after each event. *)
Fixpoint closed_history (evs : list event) (s : ssh_session) : list bool :=
  match evs with
  | [] => []
  | ev :: rest =>
      let s' := final_state (deliver ev s) in
      closed s' :: closed_history rest s'
  end.

(** How often a signal goes from clear to set. *)
Fixpoint rising_edges (prev : bool) (h : list bool) : nat :=
  match h with
  | [] => 0
  | b :: rest => (if negb prev && b then 1 else 0) + rising_edges b rest
  end.

(** The timers of one kind that can still fire. *)
Definition active (k : watchdog_kind) (t : timer) : bool :=
  is_pending t &&
  match k, th_kind t with
  | ConnectWatchdog, ConnectWatchdog
  | IoWatchdog, IoWatchdog
  | CmdWatchdog, CmdWatchdog => true
  | _, _ => false
  end.

Definition active_count (k : watchdog_kind) (s : ssh_session) : nat :=
  length (List.filter (active k) (timers s)).

(** The session after each event. *)
Fixpoint states (evs : list event) (s : ssh_session) : list ssh_session :=
  match evs with
  | [] => []
  | ev :: rest =>
      let s' := final_state (deliver ev s) in
      s' :: states rest s'
  end.

(** ** Vocabulary of the properties *)

(** *** The line loop *)

Definition with_lf (line : pystr) : pystr := line ++ [LF].

(** The buffer [pipe_data_received] appends to for file descriptor [fd]. *)
Definition stream_buffer (fd : Z) (p : SSHReaderProtocol) : pystr :=
  if (fd =? 1)%Z then _stdoutbuffer p
  else if (fd =? 2)%Z then _stderrbuffer p
  else [].

(** What is left in that buffer on the session's protocol object. *)
Definition pending_partial (fd : Z) (s : ssh_session) : pystr :=
  match protocol s with
  | Some p => stream_buffer fd p
  | None => []
  end.

(** The record a completed line of [fd] is logged as: [adapter.info(line)]
    for stdout, [adapter.warning('{} {}'.format(name, line))] for stderr. *)
Definition line_record (fd : Z) (s : ssh_session) (line : pystr) : log_record :=
  if (fd =? 1)%Z
  then LogRecord ModuleLogger INFO (adapter_process (adapter s) line)
  else LogRecord ModuleLogger WARNING
         (adapter_process (adapter s) (str_of_opt (name s) ++ py " " ++ line)).

(** The transport hands a chunk of [fd] to the session's protocol. *)
Definition feed (fd : Z) (data : list byte) (s : ssh_session) :=
  deliver (PipeDataReceived fd data) s.

Definition from_adapter (r : log_record) : bool :=
  match lg_sink r with ModuleLogger => true | RootLogger => false end.

(** The records that went through the session's adapter: the lines. *)
Definition lines_logged {A} (o : ssh_session * list log_record * result A) : list log_record :=
  List.filter from_adapter (emitted o).

(** *** The life cycle of a launched session *)

(** [made]: [connection_made] has been called; [oe], [o1], [o2]: process
    exit, closure of stdout and closure of stderr have been delivered. *)
Record lifecycle (made : bool) (oe o1 o2 : bool) (s : ssh_session) : Prop := {
  lc_proto : exists p, protocol s = Some p
      /\ _exited p = oe /\ _closed_stdout p = o1 /\ _closed_stderr p = o2
      /\ (made = true -> (is_Some (IO_TIMEOUT s) -> is_Some (iowatchdog p))
                         /\ (is_Some (CMD_TIMEOUT s) -> is_Some (watchdog p)))
      /\ (is_Some (CONNECT_TIMEOUT s) -> is_Some (watchdog p));
  lc_closed : closed s = oe && o1 && o2;
  lc_child : children s <> []
}.

(** [connection_made] has reached the session's protocol. *)
Definition confirmed (s : ssh_session) : bool :=
  match protocol s with
  | Some p => truthy (p_transport p)
  | None => false
  end.

Definition is_submission (c : coroutine) : bool :=
  match c with post_cmd_start _ _ _ _ => true | _ => false end.

Definition is_post_cmd (c : coroutine) : bool :=
  match c with
  | post_cmd_start _ _ _ _ | post_cmd_await_exec | post_cmd_await_closed => true
  | _ => false
  end.

(** *** Watchdogs *)

(** Every pending handle is the one its attribute refers to: [iowatchdog]
    for the io watchdog, [watchdog] for the connect watchdog (before
    [connection_made]) and for the command watchdog (after it). *)
Definition timers_ok (made : bool) (ct : option Q) (wd iowd : option nat)
    (tm : list timer) : Prop :=
  forall i t, tm !! i = Some t -> is_pending t = true ->
    match th_kind t with
    | IoWatchdog => iowd = Some i /\ made = true
    | ConnectWatchdog => wd = Some i /\ made = false /\ is_Some ct
    | CmdWatchdog => wd = Some i /\ made = true
    end.

Definition none_pending (tm : list timer) : Prop :=
  forall i t, tm !! i = Some t -> is_pending t = false.

Definition no_pending_io (tm : list timer) : Prop :=
  forall i t, tm !! i = Some t -> is_pending t = true -> th_kind t <> IoWatchdog.

Record watchdogs_ok (made : bool) (s : ssh_session) : Prop := {
  wo_proto : exists p, protocol s = Some p
      /\ timers_ok made (CONNECT_TIMEOUT s) (watchdog p) (iowatchdog p) (timers s);
  wo_child : children s <> []
}.

(** No handle of an earlier command of the session is still pending. *)
Definition idle_timers (s : ssh_session) : bool :=
  forallb (fun t => negb (is_pending t)) (timers s).

(** *** What running the loop leaves alone *)

Record registry_unchanged (w w' : world) : Prop := {
  ru_rexec_tasks : rexec_tasks w' = rexec_tasks w;
  ru_instances : instances w' = instances w;
  ru_nodes : nodes w' = nodes w;
  ru_sessionid : sessionid w' = sessionid w;
  ru_tasks : t_session <$> tasks w' = t_session <$> tasks w;
  ru_sessions : length (sessions w') = length (sessions w);
  ru_waits : waits w' = waits w
}.

(** A computation that ends normally and leaves the registry alone. *)
Definition quiet (m : M world unit) : Prop :=
  forall w, outcome (m w) = inr tt /\ registry_unchanged w (final_state (m w)).

(** The tasks the lists refer to exist. *)
Definition fresh_task_refs (w : world) : bool :=
  forallb (fun t => t <? length (tasks w)) (rexec_tasks w)
  && forallb (fun n => forallb (fun t => t <? length (tasks w)) (my_tasks n)) (nodes w).

(** *** Consoles *)

Definition console_or_dangling (w : world) (nid : nat) : Prop :=
  match nodes w !! nid with
  | Some n => truthy (ssh_console_session n) = true
  | None => True
  end.

Definition console_of (w : world) (nid : nat) : option nat :=
  match nodes w !! nid with
  | Some n => ssh_console_session n
  | None => None
  end.

(** The console sessions of the registered nodes that have one. *)
Definition consoles_of (w : world) : list nat := omap (console_of w) (instances w).

(** The task [ensure_future(session.close())] makes. *)
Definition close_task (sid : nat) : task := Task sid (Pending close_start).

Definition console_name (w : world) (nid : nat) : option (option pystr) :=
  match nodes w !! nid with
  | Some n => match ssh_console_session n with
              | Some _ => Some (n_name n)
              | None => None
              end
  | None => None
  end.

Definition is_None {A} (o : option A) : bool := negb (truthy o).

(** A console session with its child running and confirmed, on which
    [terminate()] has been called [tc] times. *)
Definition console_session_ok (tc : nat) (s : ssh_session) : bool :=
  control_master s
  && is_None (CONNECT_TIMEOUT s) && is_None (IO_TIMEOUT s) && is_None (CMD_TIMEOUT s)
  && match timers s with [] => true | _ => false end
  && match children s with [p] => terminate_calls p =? tc | _ => false end
  && match sshpipe s with Some 0 => true | _ => false end
  && confirmed s.

(** A coroutine that has run up to its first [await]. *)
Definition resumed (c : coroutine) : bool :=
  match c with
  | post_cmd_start _ _ _ _ | close_start => false
  | _ => true
  end.

Definition next_resumed (r : result (coroutine + returned)) : bool :=
  match r with
  | inr (inl c') => resumed c'
  | _ => true
  end.

Record consoles_running (tc : nat) (w : world) : Prop := {
  cr_sessions : Forall (fun s => console_session_ok tc s = true) (sessions w);
  cr_tasks : Forall (fun t => not_started t = false) (tasks w)
}.

(** [terminate()] has been called on the process. *)
Definition terminated (p : process) : bool := 0 <? terminate_calls p.

(** The child processes started, and those of them that were terminated. *)
Definition processes_started (w : world) : nat :=
  list_sum (List.map (fun s => length (children s)) (sessions w)).

Definition processes_terminated (w : world) : nat :=
  list_sum (List.map (fun s => length (List.filter terminated (children s))) (sessions w)).

(** Two named nodes and nothing else. *)
Definition two_nodes (name1 name2 : pystr) (ip1 ip2 dev1 dev2 : option pystr)
    (speedups1 speedups2 : bool) : world :=
  final_state
    ((ssh_node_init (Some name1) ip1 false dev1 speedups1;;
      ssh_node_init (Some name2) ip2 false dev2 speedups2) empty_world).

(** Two nodes made with the default [name=None] and nothing else. *)
Definition two_unnamed_nodes (ip1 ip2 dev1 dev2 : option pystr)
    (speedups1 speedups2 : bool) : world :=
  final_state
    ((ssh_node_init None ip1 false dev1 speedups1;;
      ssh_node_init None ip2 false dev2 speedups2) empty_world).

(** What [start_scheduled] does for task [tid]: its first step, if it has
    not had one. *)
Definition start_if_new (tid : nat) : M world unit :=
  w <- get;;
  match tasks w !! tid with
  | Some t => when (not_started t) (step_task tid)
  | None => ret tt
  end.

(** *** Concrete inputs *)

(** A session as [rexec] makes it for node 0, with all three timeouts. *)
Definition example_session : ssh_session :=
  mkSession (Some (py "10.0.0.1")) (Some (py "node1")) (py "root")
    false true false [] None (Some 0)
    (Some (10 # 1)%Q) (Some (20 # 1)%Q) (Some (30 # 1)%Q)
    false (py "/usr/bin/ssh") (py "node1(1)") None None false None [] [].

(** A command that prints on both pipes and ends. *)
Definition example_events : list event :=
  [ConnectionMade;
   PipeDataReceived 1 (bytes_of "ab");
   PipeDataReceived 2 (bytes_of "warn");
   PipeDataReceived 1 (bytes_of "c");
   PipeConnectionLost 2 None;
   ProcessExited;
   PipeConnectionLost 1 None;
   ConnectionLost None].

(** One registered node. *)
Definition example_world : world :=
  final_state
    (ssh_node_init (Some (py "node1")) (Some (py "10.0.0.1")) false None true empty_world).

(** A session that belongs to no node. *)
Definition orphan_session : ssh_session :=
  mkSession None None (py "root") false true false [] None None None None None
    false (py "/usr/bin/ssh") (py "None(1)") None None false None [] [].

(** The text "ok\ncafé\n" in UTF-8, cut inside the two bytes of "é". *)
Definition cut_chunk_1 : list byte := bytes_of "ok" ++ [x0a] ++ bytes_of "caf" ++ [xc3].
Definition cut_chunk_2 : list byte := [xa9; x0a].
Definition cafe : pystr := py "caf" ++ [233%N].

(** *** More vocabulary *)

(** The command line [wl] and [wl_async] post. *)
Definition wl_command (n : ssh_node) (cmd_ : pystr) : pystr :=
  match device n with
  | Some (c :: dev) => py "/usr/bin/wl -i " ++ (c :: dev) ++ py " " ++ cmd_
  | _ => py "/usr/bin/wl " ++ cmd_
  end.

(** The bytes a callback hands over. *)
Definition data_of (ev : event) : list byte :=
  match ev with
  | PipeDataReceived _ data => data
  | _ => []
  end.

(** All bytes received on the two pipes, in the order of arrival. *)
Definition received (evs : list event) : list byte :=
  List.concat (List.map data_of evs).

(** Every registered node has a console session. *)
Definition all_have_consoles (w : world) : bool :=
  forallb (fun nid =>
             match nodes w !! nid with
             | Some n => truthy (ssh_console_session n)
             | None => true
             end) (instances w).

(** The command lines of the children of each session. *)
Definition command_lines (w : world) : list (list (list pystr)) :=
  (fun s => argv <$> children s) <$> sessions w.

(** How often [terminate()] was called on each child of a session. *)
Definition terminate_counts (s : ssh_session) : list nat :=
  terminate_calls <$> children s.

(** A pending handle of a kind exists only if the timeout of that kind is
    set. *)
Definition armed (ct io cm : option Q) (tm : list timer) : Prop :=
  forall i t, tm !! i = Some t -> is_pending t = true ->
    match th_kind t with
    | ConnectWatchdog => is_Some ct
    | IoWatchdog => is_Some io
    | CmdWatchdog => is_Some cm
    end.

Definition armed_only_if_set (s : ssh_session) : Prop :=
  armed (CONNECT_TIMEOUT s) (IO_TIMEOUT s) (CMD_TIMEOUT s) (timers s).

Definition no_pending_of (k : watchdog_kind) (tm : list timer) : Prop :=
  forall i t, tm !! i = Some t -> is_pending t = true -> th_kind t <> k.

(** A command that prints one line and ends, seen from the loop. *)
Definition example_schedule : list action :=
  [Step 0;
   Deliver 0 (PipeDataReceived 1 (bytes_of "/root" ++ [x0a]));
   Deliver 0 (PipeConnectionLost 1 None);
   Deliver 0 (PipeConnectionLost 2 None);
   Deliver 0 ProcessExited;
   Step 0].

(** Every task has run up to its first [await]. *)
Definition all_started (w : world) : Prop :=
  Forall (fun t => not_started t = false) (tasks w).

(** A record that went through a session's adapter carries the connection
    id [connid] in front, as [CustomAdapter.process] puts it. *)
Definition tagged (connid : pystr) (r : log_record) : Prop :=
  lg_sink r = ModuleLogger -> exists msg, lg_msg r = adapter_process connid msg.

Definition is_connection_lost (ev : event) : bool :=
  match ev with ConnectionLost _ => true | _ => false end.

Arguments py : simpl never.
Arguments str_of_Z : simpl never.
Arguments str_of_opt : simpl never.
Arguments str_of_optZ : simpl never.
Arguments bytes_repr : simpl never.
Arguments decode_utf8 : simpl never.


Ltac break_match :=
  match goal with
  | |- context [match ?x with _ => _ end] =>
      lazymatch x with
      | context [match _ with _ => _ end] => fail
      | _ => destruct x eqn:?
      end
  end.

Lemma lifecycle_launch s sshcmd pid :
  lifecycle false false false false (launch sshcmd pid s).
Proof.
  unfold launch, subprocess_exec, SSHReaderProtocol_init.
  destruct s as [? ? ? ? ? ? ? ? ? ct ? ? ? ? ? ? ? ? ? ? ch].
  destruct ct; cbn.
  - split; cbn; [eexists; split; [reflexivity|] | reflexivity | ].
    + cbn. repeat split; try discriminate; eauto.
    + destruct ch; discriminate.
  - split; cbn; [eexists; split; [reflexivity|] | reflexivity | ].
    + cbn. repeat split; try discriminate; intros [? ?]; discriminate.
    + destruct ch; discriminate.
Qed.

Lemma children_alter_nonempty f h (l : list process) : l <> [] -> alter f h l <> [].
Proof. destruct l; [congruence|]. destruct h; cbn; discriminate. Qed.



(** *** The line loop *)

Lemma str_split1_spec c s :
  str_contains c s = true ->
  exists line rest,
    str_split1 c s = [line; rest] /\ s = line ++ c :: rest /\ str_contains c line = false.
Proof.
  induction s as [|x s IH]; cbn; [discriminate|].
  destruct (N.eqb c x) eqn:E.
  - intros _. apply N.eqb_eq in E. subst x. exists [], s. auto.
  - cbn. intros H. destruct (IH H) as (line & rest & -> & -> & Hn).
    exists (x :: line), rest. cbn. rewrite E. auto.
Qed.


Section Drain.
Variable getbuf : SSHReaderProtocol -> pystr.
Variable setbuf : pystr -> SSHReaderProtocol -> SSHReaderProtocol.
Variable log_line : pystr -> M pself unit.
Variable record_of : ssh_session -> pystr -> log_record.
Hypothesis get_set : forall v p, getbuf (setbuf v p) = v.
Hypothesis set_set : forall u v p, setbuf u (setbuf v p) = setbuf u p.
Hypothesis set_get : forall p, setbuf (getbuf p) p = p.
Hypothesis log_line_spec :
  forall line st, log_line line st = (st, [record_of (_session st) line], inr tt).

Lemma drain_lines_spec fuel : forall st,
  length (getbuf (self st)) < fuel ->
  exists lines rest,
    drain_lines getbuf setbuf log_line fuel st
      = (mkSelf (setbuf rest (self st)) (_session st),
         List.map (record_of (_session st)) lines, inr tt)
    /\ getbuf (self st) = List.concat (List.map with_lf lines) ++ rest
    /\ str_contains LF rest = false
    /\ Forall (fun line => str_contains LF line = false) lines.
Proof.
  induction fuel as [|fuel IH]; intros st Hlen; [lia|].
  cbn [drain_lines]. unfold bind at 1, self_get, gets.
  destruct (str_contains LF (getbuf (self st))) eqn:Hc.
  - destruct (str_split1_spec _ _ Hc) as (line & rest & Hs & Hb & Hn).
    rewrite Hs. unfold bind, self_set, modify. rewrite log_line_spec. cbn.
    destruct (IH (mkSelf (setbuf rest (self st)) (_session st))) as (lines & rest' & Hd & Hg & Hr & Hf).
    { cbn. rewrite get_set. rewrite Hb in Hlen. rewrite length_app in Hlen. cbn in Hlen. lia. }
    rewrite Hd. cbn. rewrite set_set. cbn in Hg. rewrite get_set in Hg.
    exists (line :: lines), rest'. repeat split; auto.
    rewrite Hb, Hg. cbn. unfold with_lf. rewrite <- !List.app_assoc. reflexivity.
  - exists [], (getbuf (self st)). cbn. rewrite set_get. destruct st; cbn. auto.
Qed.
End Drain.

Lemma drain_stdout st :
  exists lines rest,
    drain_lines _stdoutbuffer set__stdoutbuffer log_stdout_line
        (S (length (_stdoutbuffer (self st)))) st
      = (mkSelf (set__stdoutbuffer rest (self st)) (_session st),
         List.map (fun line => LogRecord ModuleLogger INFO
                      (adapter_process (adapter (_session st)) line)) lines,
         inr tt)
    /\ _stdoutbuffer (self st) = List.concat (List.map with_lf lines) ++ rest
    /\ str_contains LF rest = false
    /\ Forall (fun line => str_contains LF line = false) lines.
Proof.
  apply (drain_lines_spec _stdoutbuffer set__stdoutbuffer log_stdout_line
           (fun s line => LogRecord ModuleLogger INFO (adapter_process (adapter s) line))).
  - reflexivity.
  - reflexivity.
  - intros []; reflexivity.
  - reflexivity.
  - lia.
Qed.

Lemma drain_stderr st :
  exists lines rest,
    drain_lines _stderrbuffer set__stderrbuffer log_stderr_line
        (S (length (_stderrbuffer (self st)))) st
      = (mkSelf (set__stderrbuffer rest (self st)) (_session st),
         List.map (fun line => LogRecord ModuleLogger WARNING
                      (adapter_process (adapter (_session st))
                         (str_of_opt (name (_session st)) ++ py " " ++ line))) lines,
         inr tt)
    /\ _stderrbuffer (self st) = List.concat (List.map with_lf lines) ++ rest
    /\ str_contains LF rest = false
    /\ Forall (fun line => str_contains LF line = false) lines.
Proof.
  apply (drain_lines_spec _stderrbuffer set__stderrbuffer log_stderr_line
           (fun s line => LogRecord ModuleLogger WARNING
              (adapter_process (adapter s) (str_of_opt (name s) ++ py " " ++ line)))).
  - reflexivity.
  - reflexivity.
  - intros []; reflexivity.
  - reflexivity.
  - lia.
Qed.

Arguments drain_lines : simpl never.

Ltac unfold_methods :=
  unfold deliver, on_protocol, connection_made, connection_lost, pipe_data_received,
    pipe_connection_lost, process_exited, wd_timer, io_timer, timer_callback, signal_exit,
    session_cmd, cancel_attr, arm, call_later, adapter_log, logging,
    self_get, self_set, sess_get, sess_set, when, is_not_None, truthy,
    bind, ret, raise, get, gets, modify, emit, final_state in *.

Ltac drain_step :=
  match goal with
  | |- context [drain_lines _stdoutbuffer _ _ _ ?st] =>
      let H := fresh in
      destruct (drain_stdout st) as (? & ? & H & _); cbn in H; rewrite H; clear H
  | |- context [drain_lines _stderrbuffer _ _ _ ?st] =>
      let H := fresh in
      destruct (drain_stderr st) as (? & ? & H & _); cbn in H; rewrite H; clear H
  end.

Ltac crunch :=
  unfold_methods; cbn in *;
  repeat (first [drain_step | break_match]; unfold_methods; cbn in *).

Ltac open_session s p :=
  destruct s as [? ? ? ? ? ? ? ? ? ?ct ?io ?cm ? ? ? ? ? ? ? ?tm ?ch];
  destruct p as [? ? ? ? ? ? ?dbg ?wd ?iowd ? ?];
  cbn in *; subst.

Ltac absurd_some :=
  match goal with
  | H : is_Some None |- _ => destruct H; discriminate
  | H : is_Some (Some _) -> is_Some None |- _ =>
      destruct H; [eauto | discriminate]
  | H : true = true -> _ |- _ => specialize (H eq_refl)
  | H : _ /\ _ |- _ => destruct H
  end.

Ltac z_eqs :=
  repeat match goal with
         | H : (_ =? _)%Z = true |- _ => apply Z.eqb_eq in H; subst
         end;
  unfold finished in *; cbn in *.

Ltac bool_crush :=
  repeat match goal with
         | |- context [andb ?b _] => is_var b; destruct b; cbn in *
         | |- context [andb _ ?b] => is_var b; destruct b; cbn in *
         | |- context [orb ?b _] => is_var b; destruct b; cbn in *
         | |- ?b = _ => is_var b; destruct b; cbn in *
         | |- _ = ?b => is_var b; destruct b; cbn in *
         end;
  congruence.

Ltac finish_lifecycle :=
  try (repeat absurd_some; fail);
  z_eqs;
  split; cbn; rewrite ?orb_false_r, ?orb_true_r, ?andb_true_r;
  try reflexivity; try discriminate; try congruence;
  try (eexists; split; [reflexivity|]; cbn; rewrite ?orb_false_r, ?orb_true_r;
       intuition (try absurd_some; eauto));
  try (bool_crush; fail);
  try (apply children_alter_nonempty; assumption).

Lemma lifecycle_step made oe o1 o2 s ev :
  lifecycle made oe o1 o2 s ->
  allowed made ev = true ->
  lifecycle (made || is_connection_made ev)
    (oe || is_exit ev) (o1 || is_close 1 ev) (o2 || is_close 2 ev)
    (final_state (deliver ev s)).
Proof.
  intros [(p & Hp & He & H1 & H2 & Hm & Hc) Hcl Hch] Hall.
  destruct ev; cbn in Hall.
  - (* ConnectionMade *)
    apply negb_true_iff in Hall; subst made.
    open_session s p.
    destruct ch; [congruence|].
    crunch; finish_lifecycle.
  - subst made. open_session s p. crunch; finish_lifecycle.
  - subst made. open_session s p. crunch; finish_lifecycle.
  - subst made. open_session s p. crunch; finish_lifecycle.
  - subst made. open_session s p. crunch; finish_lifecycle.
  - open_session s p. crunch; finish_lifecycle.
Qed.

Lemma deliver_all_cons ev evs s :
  deliver_all (ev :: evs) s = deliver_all evs (final_state (deliver ev s)).
Proof. reflexivity. Qed.

Lemma lifecycle_run evs : forall made oe o1 o2 s,
  lifecycle made oe o1 o2 s ->
  contract made evs = true ->
  lifecycle (made || existsb is_connection_made evs)
    (oe || existsb is_exit evs) (o1 || existsb (is_close 1) evs)
    (o2 || existsb (is_close 2) evs) (deliver_all evs s).
Proof.
  induction evs as [|ev evs IH]; intros made oe o1 o2 s Hl Hc.
  - cbn. rewrite !orb_false_r. exact Hl.
  - cbn [contract] in Hc. apply andb_true_iff in Hc as [Ha Hc].
    rewrite deliver_all_cons. cbn [existsb]. rewrite !orb_assoc.
    apply IH; [|exact Hc]. apply lifecycle_step; assumption.
Qed.

Lemma contract_take evs : forall made n,
  contract made evs = true -> contract made (take n evs) = true.
Proof.
  induction evs as [|ev evs IH]; intros made n H; destruct n; cbn in *; auto.
  apply andb_true_iff in H as [-> H]. cbn. auto.
Qed.

Lemma rising_edges_run evs : forall made oe o1 o2 s,
  lifecycle made oe o1 o2 s ->
  contract made evs = true ->
  rising_edges (closed s) (closed_history evs s)
  = if negb (closed s) && closed (deliver_all evs s) then 1 else 0.
Proof.
  induction evs as [|ev evs IH]; intros made oe o1 o2 s Hl Hc.
  - cbn. destruct (closed s); reflexivity.
  - cbn [contract] in Hc. apply andb_true_iff in Hc as [Ha Hc].
    pose proof (lifecycle_step _ _ _ _ _ _ Hl Ha) as Hl1.
    pose proof (lifecycle_run _ _ _ _ _ _ Hl1 Hc) as Hl2.
    cbn [closed_history rising_edges]. rewrite deliver_all_cons.
    rewrite (IH _ _ _ _ _ Hl1 Hc).
    rewrite (lc_closed _ _ _ _ _ Hl), (lc_closed _ _ _ _ _ Hl1), (lc_closed _ _ _ _ _ Hl2).
    destruct oe, o1, o2, (is_exit ev), (is_close 1 ev), (is_close 2 ev); cbn;
      try reflexivity;
      destruct (existsb is_exit evs), (existsb (is_close 1) evs),
        (existsb (is_close 2) evs); reflexivity.
Qed.

(** C1: on a launched session whose transport calls [connection_made]
    first, [closed] is set after any prefix of the callbacks exactly when
    process exit, closure of stdout and closure of stderr have all been
    delivered in that prefix, in whatever order; over the whole run the
    signal goes from clear to set once if all three arrive and never
    otherwise. *)
Theorem closed_iff_all_three (s : ssh_session) (sshcmd : list pystr) (newpid : Z)
    (evs : list event) :
  transport_contract evs = true ->
  let s0 := launch sshcmd newpid s in
  (forall n, closed (deliver_all (take n evs) s0) = observed_all (take n evs))
  /\ rising_edges false (closed_history evs s0) = (if observed_all evs then 1 else 0).
Proof.
  intros Hc s0.
  pose proof (lifecycle_launch s sshcmd newpid) as Hl. fold s0 in Hl.
  split.
  - intros n.
    pose proof (lifecycle_run _ _ _ _ _ _ Hl (contract_take _ _ n Hc)) as Hr.
    rewrite (lc_closed _ _ _ _ _ Hr). reflexivity.
  - pose proof (rising_edges_run _ _ _ _ _ _ Hl Hc) as Hr.
    pose proof (lifecycle_run _ _ _ _ _ _ Hl Hc) as Hf.
    rewrite (lc_closed _ _ _ _ _ Hl) in Hr. cbn in Hr. rewrite Hr.
    rewrite (lc_closed _ _ _ _ _ Hf). reflexivity.
Qed.

Lemma closed_iff_all_three_witness :
  let s0 := launch [py "ssh"] 7 example_session in
  transport_contract example_events = true
  /\ (forall n, closed (deliver_all (take n example_events) s0)
                = observed_all (take n example_events))
  /\ rising_edges false (closed_history example_events s0)
     = (if observed_all example_events then 1 else 0).
Proof.
  split; [reflexivity|].
  apply (closed_iff_all_three example_session [py "ssh"] 7 example_events).
  reflexivity.
Defined.

(** *** Watchdogs *)




Lemma is_pending_cancel t : is_pending (cancel_timer t) = false.
Proof. destruct t as [k d []]; reflexivity. Qed.

Lemma is_pending_fire t : is_pending (fire_timer t) = false.
Proof. reflexivity. Qed.

Lemma lookup_alter_pending f h (tm : list timer) i t :
  (forall x, is_pending (f x) = false) ->
  alter f h tm !! i = Some t -> is_pending t = true ->
  tm !! i = Some t /\ h <> i.
Proof.
  intros Hf Hl Hp. destruct (decide (h = i)) as [->|Hne].
  - rewrite list_lookup_alter_eq in Hl. destruct (tm !! i); cbn in Hl; [|discriminate].
    injection Hl as <-. rewrite Hf in Hp. discriminate.
  - rewrite list_lookup_alter_ne in Hl by assumption. auto.
Qed.

Lemma ok_alter f h made ct wd iowd tm :
  (forall x, is_pending (f x) = false) ->
  timers_ok made ct wd iowd tm -> timers_ok made ct wd iowd (alter f h tm).
Proof.
  intros Hf H i t Hl Hp. destruct (lookup_alter_pending _ _ _ _ _ Hf Hl Hp) as [Hl' _].
  exact (H i t Hl' Hp).
Qed.

Lemma none_pending_ok made ct wd iowd tm :
  none_pending tm -> timers_ok made ct wd iowd tm.
Proof. intros H i t Hl Hp. rewrite (H i t Hl) in Hp. discriminate. Qed.

Lemma none_pending_alter f h tm :
  none_pending tm -> none_pending (alter f h tm) \/ True.
Proof. auto. Qed.

(** Before [connection_made], cancelling [watchdog] leaves nothing pending. *)
Lemma cancel_connect ct h iowd tm :
  timers_ok false ct (Some h) iowd tm -> none_pending (alter cancel_timer h tm).
Proof.
  intros H i t Hl. destruct (is_pending t) eqn:Hp; [|reflexivity]. exfalso.
  destruct (lookup_alter_pending _ _ _ _ _ is_pending_cancel Hl Hp) as [Hl' Hne].
  specialize (H i t Hl' Hp). destruct (th_kind t); destruct H as [H1 H2];
    try discriminate; try (destruct H2; discriminate). congruence.
Qed.

Lemma no_connect_timeout wd iowd tm :
  timers_ok false None wd iowd tm -> none_pending tm.
Proof.
  intros H i t Hl. destruct (is_pending t) eqn:Hp; [|reflexivity]. exfalso.
  specialize (H i t Hl Hp). destruct (th_kind t); destruct H as [H1 H2];
    try discriminate. destruct H2 as [_ [? ?]]. discriminate.
Qed.

Lemma lookup_snoc_pending (tm : list timer) x i t :
  (tm ++ [x]) !! i = Some t -> (tm !! i = Some t) \/ (i = length tm /\ t = x).
Proof.
  intros H. apply lookup_snoc_Some in H. destruct H as [[_ H]|[H1 H2]]; auto.
Qed.

Lemma arm_io_fresh ct wd d tm :
  timers_ok true ct wd None tm \/ none_pending tm \/ no_pending_io tm /\ (exists iowd, timers_ok true ct wd iowd tm) ->
  timers_ok true ct wd (Some (length tm)) (tm ++ [Timer IoWatchdog d TimerPending]).
Proof.
  intros H i t Hl Hp. apply lookup_snoc_pending in Hl as [Hl|[-> ->]]; [|cbn; auto].
  destruct H as [H|[H|[Hn [iowd H]]]].
  - specialize (H i t Hl Hp). destruct (th_kind t); destruct H; try discriminate; auto.
  - rewrite (H i t Hl) in Hp. discriminate.
  - specialize (H i t Hl Hp). specialize (Hn i t Hl Hp).
    destruct (th_kind t); destruct H; auto. congruence.
Qed.

Lemma cancel_io ct wd h tm made :
  timers_ok made ct wd (Some h) tm -> no_pending_io (alter cancel_timer h tm).
Proof.
  intros H i t Hl Hp Hk.
  destruct (lookup_alter_pending _ _ _ _ _ is_pending_cancel Hl Hp) as [Hl' Hne].
  specialize (H i t Hl' Hp). rewrite Hk in H. destruct H. congruence.
Qed.

Lemma arm_cmd_fresh ct iowd d tm :
  none_pending tm ->
  timers_ok true ct (Some (length tm)) iowd (tm ++ [Timer CmdWatchdog d TimerPending]).
Proof.
  intros H i t Hl Hp. apply lookup_snoc_pending in Hl as [Hl|[-> ->]]; [|cbn; auto].
  rewrite (H i t Hl) in Hp. discriminate.
Qed.

Lemma arm_both_fresh ct d d' tm :
  none_pending tm ->
  timers_ok true ct (Some (length (tm ++ [Timer IoWatchdog d TimerPending])))
    (Some (length tm))
    ((tm ++ [Timer IoWatchdog d TimerPending]) ++ [Timer CmdWatchdog d' TimerPending]).
Proof.
  intros H i t Hl Hp. apply lookup_snoc_pending in Hl as [Hl|[-> ->]]; [|cbn; auto].
  apply lookup_snoc_pending in Hl as [Hl|[-> ->]]; [|cbn; auto].
  rewrite (H i t Hl) in Hp. discriminate.
Qed.

Lemma no_watchdog_attr ct iowd tm :
  timers_ok false ct None iowd tm -> none_pending tm.
Proof.
  intros H i t Hl. destruct (is_pending t) eqn:Hp; [|reflexivity]. exfalso.
  specialize (H i t Hl Hp). destruct (th_kind t); destruct H as [H1 H2];
    discriminate.
Qed.

Lemma arm_io_np ct wd d tm :
  none_pending tm ->
  timers_ok true ct wd (Some (length tm)) (tm ++ [Timer IoWatchdog d TimerPending]).
Proof. intros H. apply arm_io_fresh. auto. Qed.

Lemma arm_io_again ct wd h d tm :
  timers_ok true ct wd (Some h) tm ->
  timers_ok true ct wd (Some (length (alter cancel_timer h tm)))
    (alter cancel_timer h tm ++ [Timer IoWatchdog d TimerPending]).
Proof.
  intros H. apply arm_io_fresh. right; right. split.
  - eapply cancel_io; eassumption.
  - eexists. apply ok_alter; [apply is_pending_cancel | eassumption].
Qed.

Lemma ok_cancel h made ct wd iowd tm :
  timers_ok made ct wd iowd tm -> timers_ok made ct wd iowd (alter cancel_timer h tm).
Proof. apply ok_alter, is_pending_cancel. Qed.

Lemma ok_fire h made ct wd iowd tm :
  timers_ok made ct wd iowd tm -> timers_ok made ct wd iowd (alter fire_timer h tm).
Proof. apply ok_alter, is_pending_fire. Qed.

Create HintDb watchdogs.
#[local] Hint Resolve cancel_connect no_connect_timeout no_watchdog_attr none_pending_ok
  arm_cmd_fresh arm_both_fresh arm_io_np arm_io_again ok_cancel ok_fire
  children_alter_nonempty : watchdogs.


Ltac finish_watchdogs :=
  split; cbn; rewrite ?orb_false_r;
  [eexists; (split; [reflexivity|]); cbn; eauto 6 with watchdogs
  | try discriminate; eauto with watchdogs].

Lemma watchdogs_step made s ev :
  watchdogs_ok made s ->
  allowed made ev = true ->
  watchdogs_ok (made || is_connection_made ev) (final_state (deliver ev s)).
Proof.
  intros [(p & Hp & Hok) Hch] Hall.
  destruct ev; cbn in Hall.
  - apply negb_true_iff in Hall; subst made.
    open_session s p.
    destruct ch; [congruence|].
    crunch; finish_watchdogs.
  - subst made. open_session s p. crunch; finish_watchdogs.
  - subst made. open_session s p. crunch; finish_watchdogs.
  - subst made. open_session s p. crunch; finish_watchdogs.
  - subst made. open_session s p. crunch; finish_watchdogs.
  - open_session s p. crunch; finish_watchdogs.
  Unshelve. all: exact None.
Qed.

Lemma filter_at_most_one {A} (f : A -> bool) (l : list A) :
  (forall i j x y, l !! i = Some x -> l !! j = Some y ->
                   f x = true -> f y = true -> i = j) ->
  length (List.filter f l) <= 1.
Proof.
  induction l as [|a l IH]; intros H; cbn; [lia|].
  destruct (f a) eqn:Ha.
  - assert (List.filter f l = []) as ->; [|cbn; lia].
    destruct (List.filter f l) as [|b r] eqn:E; [reflexivity|exfalso].
    assert (In b (List.filter f l)) as Hin by (rewrite E; left; reflexivity).
    apply filter_In in Hin as [Hin Hb].
    apply list_elem_of_In, list_elem_of_lookup in Hin as [j Hj].
    specialize (H 0 (S j) a b eq_refl Hj Ha Hb). discriminate.
  - apply IH. intros i j x y Hi Hj Hx Hy.
    specialize (H (S i) (S j) x y Hi Hj Hx Hy). lia.
Qed.

Lemma timers_ok_count made ct wd iowd tm k :
  timers_ok made ct wd iowd tm ->
  length (List.filter (active k) tm) <= 1.
Proof.
  intros H. apply filter_at_most_one. intros i j x y Hi Hj Hx Hy.
  unfold active in *. apply andb_true_iff in Hx as [Hpx Hkx].
  apply andb_true_iff in Hy as [Hpy Hky].
  specialize (H i x Hi Hpx) as Hx'. specialize (H j y Hj Hpy) as Hy'.
  destruct k, (th_kind x), (th_kind y); try discriminate;
    destruct Hx' as [? ?], Hy' as [? ?]; congruence.
Qed.


Lemma idle_none_pending s : idle_timers s = true -> none_pending (timers s).
Proof.
  unfold idle_timers. intros H i t Hl. 
  rewrite forallb_forall in H. apply negb_true_iff, H.
  apply list_elem_of_In, list_elem_of_lookup. eauto.
Qed.

Lemma watchdogs_launch s sshcmd pid :
  idle_timers s = true ->
  watchdogs_ok false (launch sshcmd pid s).
Proof.
  intros Hidle. apply idle_none_pending in Hidle.
  unfold launch, subprocess_exec, SSHReaderProtocol_init.
  destruct s as [? ? ? ? ? ? ? ? ? ct ? ? ? ? ? ? ? ? ? tm ch].
  cbn in Hidle.
  destruct ct; cbn.
  - split; cbn; [eexists; split; [reflexivity|] | destruct ch; discriminate].
    cbn. intros i t Hl Hp. apply lookup_snoc_pending in Hl as [Hl|[-> ->]].
    + rewrite (Hidle i t Hl) in Hp. discriminate.
    + cbn. eauto.
  - split; cbn; [eexists; split; [reflexivity|] | destruct ch; discriminate].
    cbn. apply none_pending_ok, Hidle.
Qed.

Lemma watchdogs_run evs : forall made s,
  watchdogs_ok made s ->
  contract made evs = true ->
  watchdogs_ok (made || existsb is_connection_made evs) (deliver_all evs s).
Proof.
  induction evs as [|ev evs IH]; intros made s Hl Hc.
  - cbn. rewrite orb_false_r. exact Hl.
  - cbn [contract] in Hc. apply andb_true_iff in Hc as [Ha Hc].
    rewrite deliver_all_cons. cbn [existsb]. rewrite orb_assoc.
    apply IH; [|exact Hc]. apply watchdogs_step; assumption.
Qed.

(** C3: on a launched session that starts with no pending handle, after
    any prefix of the callbacks and for each watchdog kind (connect, io,
    command) at most one handle of that kind is pending, however often the
    io watchdog has been re-armed by [pipe_data_received]. *)
Theorem one_active_watchdog_per_kind (s : ssh_session) (sshcmd : list pystr)
    (newpid : Z) (evs : list event) :
  idle_timers s = true ->
  transport_contract evs = true ->
  forall (n : nat) (k : watchdog_kind),
    active_count k (deliver_all (take n evs) (launch sshcmd newpid s)) <= 1.
Proof.
  intros Hidle Hc n k.
  pose proof (watchdogs_run _ _ _ (watchdogs_launch s sshcmd newpid Hidle)
                (contract_take _ _ n Hc)) as [(p & _ & Hok) _].
  unfold active_count. eapply timers_ok_count, Hok.
Qed.

Lemma one_active_watchdog_per_kind_witness :
  idle_timers example_session = true
  /\ transport_contract example_events = true
  /\ forall (n : nat) (k : watchdog_kind),
       active_count k
         (deliver_all (take n example_events) (launch [py "ssh"] 7 example_session)) <= 1.
Proof.
  split; [reflexivity|]. split; [reflexivity|].
  apply (one_active_watchdog_per_kind example_session [py "ssh"] 7 example_events);
    reflexivity.
Defined.

Lemma existsb_take_mono {A} (f : A -> bool) (l : list A) : forall n m,
  n <= m -> existsb f (take n l) = true -> existsb f (take m l) = true.
Proof.
  induction l as [|a l IH]; intros n m Hle H.
  - destruct n; discriminate.
  - destruct n; [discriminate|]. destruct m; [lia|]. cbn in *.
    destruct (f a); [reflexivity|]. cbn in *. apply (IH n); [lia|assumption].
Qed.

Lemma observed_all_mono evs n m :
  n <= m -> observed_all (take n evs) = true -> observed_all (take m evs) = true.
Proof.
  unfold observed_all. intros Hle H.
  apply andb_true_iff in H as [H H2]. apply andb_true_iff in H as [H0 H1].
  rewrite (existsb_take_mono _ _ _ _ Hle H0), (existsb_take_mono _ _ _ _ Hle H1),
    (existsb_take_mono _ _ _ _ Hle H2). reflexivity.
Qed.


Lemma await_closed_keeps k c s :
  final_state (await_closed k c s) = s.
Proof. unfold await_closed, bind, gets, ret, final_state. destruct (closed s); reflexivity. Qed.

(** C8: on a launched session, as long as the command has not completed
    (exit and both closures not all delivered) [closed] and [connected] are
    not both set; once [closed] is set it stays set under every later
    callback, and under every step of a coroutine that is not the
    submission of a command; submitting the next command on the same session
    object ([post_cmd] up to its first suspension, which runs the protocol's
    [__init__]) clears it. *)
Theorem closed_exclusive_and_monotone (s : ssh_session) (sshcmd : list pystr)
    (newpid : Z) (evs : list event) :
  transport_contract evs = true ->
  let at_ n := deliver_all (take n evs) (launch sshcmd newpid s) in
  (forall n, observed_all (take n evs) = false ->
             closed (at_ n) && connected (at_ n) = false)
  /\ (forall n m, n <= m -> closed (at_ n) = true -> closed (at_ m) = true)
  /\ (forall cm pid c, is_submission c = false ->
        closed (final_state (coroutine_step cm pid c (at_ (length evs))))
        = closed (at_ (length evs)))
  /\ (forall sshcmd' pid', closed (launch sshcmd' pid' (at_ (length evs))) = false)
  /\ (forall path pid' cmdtext io' cmdt' speedups,
        closed (final_state
                  (coroutine_step (inr path) pid'
                     (post_cmd_start (Some cmdtext) io' cmdt' speedups)
                     (at_ (length evs)))) = false).
Proof.
  intros Hc at_.
  assert (Hcl : forall n, closed (at_ n) = observed_all (take n evs)).
  { intros n. unfold at_.
    pose proof (lifecycle_run _ _ _ _ _ _ (lifecycle_launch s sshcmd newpid)
                  (contract_take _ _ n Hc)) as Hr.
    rewrite (lc_closed _ _ _ _ _ Hr). reflexivity. }
  repeat split.
  - intros n Hn. rewrite Hcl, Hn. reflexivity.
  - intros n m Hle. rewrite !Hcl. apply observed_all_mono, Hle.
  - intros cm pid c Hs. generalize (at_ (length evs)). intros s'.
    destruct c; try discriminate; destruct s';
      unfold coroutine_step, await_closed, terminate, bind, get, gets, modify,
        logging, emit, ret, final_state;
      cbn; repeat (break_match; cbn); reflexivity.
  - intros sshcmd' pid'.
    pose proof (lifecycle_launch (at_ (length evs)) sshcmd' pid') as Hl.
    rewrite (lc_closed _ _ _ _ _ Hl). reflexivity.
  - intros path pid' cmdtext io' cmdt' speedups.
    generalize (at_ (length evs)). intros s'. destruct s'.
    unfold coroutine_step, subprocess_exec, SSHReaderProtocol_init, call_later,
      bind, get, gets, modify, logging, emit, ret, raise, final_state.
    cbn. repeat (break_match; cbn). all: reflexivity.
Qed.

Lemma closed_exclusive_and_monotone_witness :
  transport_contract example_events = true
  /\ (let at_ n :=
        deliver_all (take n example_events) (launch [py "ssh"] 7 example_session) in
      (forall n, observed_all (take n example_events) = false ->
                 closed (at_ n) && connected (at_ n) = false)
      /\ (forall n m, n <= m -> closed (at_ n) = true -> closed (at_ m) = true)
      /\ (forall cm pid c, is_submission c = false ->
            closed (final_state (coroutine_step cm pid c (at_ (length example_events))))
            = closed (at_ (length example_events)))
      /\ (forall sshcmd' pid',
            closed (launch sshcmd' pid' (at_ (length example_events))) = false)
      /\ (forall path pid' cmdtext io' cmdt' speedups,
            closed (final_state
                      (coroutine_step (inr path) pid'
                         (post_cmd_start (Some cmdtext) io' cmdt' speedups)
                         (at_ (length example_events)))) = false)).
Proof.
  split; [reflexivity|].
  apply (closed_exclusive_and_monotone example_session [py "ssh"] 7 example_events).
  reflexivity.
Defined.

(** *** Line assembler *)







Lemma filter_from_adapter_records (f : pystr -> log_record) lines :
  (forall l, from_adapter (f l) = true) ->
  List.filter from_adapter (List.map f lines) = List.map f lines.
Proof.
  intros H. induction lines as [|l ls IH]; cbn; [reflexivity|].
  rewrite H, IH. reflexivity.
Qed.

Lemma line_assembler_general (s : ssh_session) (p : SSHReaderProtocol) (fd : Z)
    (data : list byte) (text : pystr) :
  protocol s = Some p ->
  (fd = 1 \/ fd = 2)%Z ->
  (is_Some (IO_TIMEOUT s) -> is_Some (iowatchdog p)) ->
  decode_utf8 data = Some text ->
  exists lines,
    lines_logged (feed fd data s) = List.map (line_record fd s) lines
    /\ stream_buffer fd p ++ text
       = List.concat (List.map with_lf lines) ++ pending_partial fd (final_state (feed fd data s))
    /\ str_contains LF (pending_partial fd (final_state (feed fd data s))) = false
    /\ Forall (fun line => str_contains LF line = false) lines
    /\ outcome (feed fd data s) = inr tt.
Proof.
  intros Hp Hfd Hwd Hdec.
  open_session s p.
  unfold feed, lines_logged, emitted, outcome, pending_partial, stream_buffer, line_record.
  destruct Hfd; subst fd; cbn [Z.eqb Pos.eqb].
  - unfold_methods. cbn.
    destruct io, iowd, dbg; cbn; rewrite ?Hdec; cbn; try (repeat absurd_some; fail).
    all: match goal with
         | |- context [drain_lines _stdoutbuffer _ _ _ ?st] =>
             destruct (drain_stdout st) as (lines & rest & Hd & Hg & Hr & Hf);
             cbn in Hd, Hg; rewrite Hd; cbn
         end.
    all: exists lines; rewrite ?app_nil_r; rewrite filter_from_adapter_records by reflexivity.
    all: auto.
  - unfold_methods. cbn.
    destruct io, iowd, dbg; cbn; rewrite ?Hdec; cbn; try (repeat absurd_some; fail).
    all: match goal with
         | |- context [drain_lines _stderrbuffer _ _ _ ?st] =>
             destruct (drain_stderr st) as (lines & rest & Hd & Hg & Hr & Hf);
             cbn in Hd, Hg; rewrite Hd; cbn
         end.
    all: exists lines; rewrite ?app_nil_r; rewrite filter_from_adapter_records by reflexivity.
    all: auto.
Qed.

Lemma line_assembler_example (s : ssh_session) (p : SSHReaderProtocol) (fd : Z) :
  protocol s = Some p ->
  (fd = 1 \/ fd = 2)%Z ->
  (is_Some (IO_TIMEOUT s) -> is_Some (iowatchdog p)) ->
  stream_buffer fd p = [] ->
  let o1 := feed fd (bytes_of "ab") s in
  let o2 := feed fd (bytes_of "c" ++ [x0a] ++ bytes_of "d") (final_state o1) in
  lines_logged o1 = []
  /\ pending_partial fd (final_state o1) = py "ab"
  /\ lines_logged o2 = [line_record fd s (py "abc")]
  /\ pending_partial fd (final_state o2) = py "d".
Proof.
  intros Hp Hfd Hwd Hbuf.
  open_session s p.
  destruct Hfd; subst fd; cbn in Hbuf; subst;
    destruct io, iowd, dbg; try (repeat absurd_some; fail);
    vm_compute; repeat split; reflexivity.
Qed.

Lemma line_assembler_undecodable (s : ssh_session) (p : SSHReaderProtocol) (fd : Z)
    (data : list byte) :
  protocol s = Some p ->
  (is_Some (IO_TIMEOUT s) -> is_Some (iowatchdog p)) ->
  decode_utf8 data = None ->
  outcome (feed fd data s) = inl UnicodeDecodeError
  /\ lines_logged (feed fd data s) = []
  /\ (forall fd', pending_partial fd' (final_state (feed fd data s)) = stream_buffer fd' p).
Proof.
  intros Hp Hwd Hdec.
  open_session s p.
  unfold feed, lines_logged, emitted, outcome, pending_partial.
  unfold_methods. cbn.
  destruct io, iowd, dbg; cbn; rewrite ?Hdec; cbn; try (repeat absurd_some; fail).
  all: repeat split.
Qed.

Lemma other_stream_untouched (s : ssh_session) (p : SSHReaderProtocol) (fd fd' : Z)
    (data : list byte) :
  protocol s = Some p ->
  (fd = 1 \/ fd = 2)%Z ->
  fd' <> fd ->
  pending_partial fd' (final_state (feed fd data s)) = stream_buffer fd' p.
Proof.
  intros Hp Hfd Hne.
  open_session s p.
  unfold feed, pending_partial, stream_buffer.
  destruct Hfd; subst fd; crunch; try reflexivity; z_eqs; congruence.
Qed.

Lemma line_assembler_cut_character (s : ssh_session) (p : SSHReaderProtocol) (fd : Z) :
  protocol s = Some p ->
  (fd = 1 \/ fd = 2)%Z ->
  (is_Some (IO_TIMEOUT s) -> is_Some (iowatchdog p)) ->
  stream_buffer fd p = [] ->
  let o1 := feed fd cut_chunk_1 s in
  let o2 := feed fd cut_chunk_2 (final_state o1) in
  let o := feed fd (cut_chunk_1 ++ cut_chunk_2) s in
  outcome o1 = inl UnicodeDecodeError
  /\ lines_logged o1 = []
  /\ pending_partial fd (final_state o1) = []
  /\ outcome o2 = inl UnicodeDecodeError
  /\ lines_logged o2 = []
  /\ pending_partial fd (final_state o2) = []
  /\ outcome o = inr tt
  /\ lines_logged o = [line_record fd s (py "ok"); line_record fd s cafe]
  /\ pending_partial fd (final_state o) = [].
Proof.
  intros Hp Hfd Hwd Hbuf.
  open_session s p.
  destruct Hfd; subst fd; cbn in Hbuf; subst;
    destruct io, iowd, dbg; try (repeat absurd_some; fail);
    vm_compute; repeat split; reflexivity.
Qed.

(** C5: for stdout (fd 1) and for stderr (fd 2), on a session whose
    protocol can re-arm its io watchdog.  Starting from an empty buffer, the
    chunk "ab" logs no line and leaves "ab" pending, and the chunk "c\nd"
    after it logs exactly the line "abc" and leaves "d" pending.  A chunk
    that decodes as UTF-8 on its own logs the complete lines of
    buffer ++ chunk, in order, none of them containing a line feed, and
    what remains in the buffer is the trailing segment without a line
    feed.  A chunk that does not decode on its own is not assembled at all:
    [pipe_data_received] raises [UnicodeDecodeError], logs no line, not
    even the complete lines the chunk holds, and retains nothing of it.
    So "ok\ncafé\n" cut inside "é" raises on both chunks, logs nothing and
    retains nothing, where the same bytes in one chunk log "ok" and
    "café".  A chunk never touches the buffer of the other stream. *)
Theorem line_assembler (s : ssh_session) (p : SSHReaderProtocol) (fd : Z) :
  protocol s = Some p ->
  (fd = 1 \/ fd = 2)%Z ->
  (is_Some (IO_TIMEOUT s) -> is_Some (iowatchdog p)) ->
  (stream_buffer fd p = [] ->
   let o1 := feed fd (bytes_of "ab") s in
   let o2 := feed fd (bytes_of "c" ++ [x0a] ++ bytes_of "d") (final_state o1) in
   lines_logged o1 = []
   /\ pending_partial fd (final_state o1) = py "ab"
   /\ lines_logged o2 = [line_record fd s (py "abc")]
   /\ pending_partial fd (final_state o2) = py "d")
  /\ (forall (data : list byte) (text : pystr),
        decode_utf8 data = Some text ->
        exists lines,
          lines_logged (feed fd data s) = List.map (line_record fd s) lines
          /\ stream_buffer fd p ++ text
             = List.concat (List.map with_lf lines)
                 ++ pending_partial fd (final_state (feed fd data s))
          /\ str_contains LF (pending_partial fd (final_state (feed fd data s))) = false
          /\ Forall (fun line => str_contains LF line = false) lines
          /\ outcome (feed fd data s) = inr tt)
  /\ (forall (data : list byte),
        decode_utf8 data = None ->
        outcome (feed fd data s) = inl UnicodeDecodeError
        /\ lines_logged (feed fd data s) = []
        /\ pending_partial fd (final_state (feed fd data s)) = stream_buffer fd p)
  /\ (forall (data : list byte) (fd' : Z),
        fd' <> fd ->
        pending_partial fd' (final_state (feed fd data s)) = stream_buffer fd' p)
  /\ (stream_buffer fd p = [] ->
      let o1 := feed fd cut_chunk_1 s in
      let o2 := feed fd cut_chunk_2 (final_state o1) in
      let o := feed fd (cut_chunk_1 ++ cut_chunk_2) s in
      outcome o1 = inl UnicodeDecodeError
      /\ lines_logged o1 = []
      /\ pending_partial fd (final_state o1) = []
      /\ outcome o2 = inl UnicodeDecodeError
      /\ lines_logged o2 = []
      /\ pending_partial fd (final_state o2) = []
      /\ outcome o = inr tt
      /\ lines_logged o = [line_record fd s (py "ok"); line_record fd s cafe]
      /\ pending_partial fd (final_state o) = []).
Proof.
  intros Hp Hfd Hwd. split; [|split; [|split; [|split]]].
  - intros Hbuf. exact (line_assembler_example s p fd Hp Hfd Hwd Hbuf).
  - intros data text Hdec. exact (line_assembler_general s p fd data text Hp Hfd Hwd Hdec).
  - intros data Hdec.
    destruct (line_assembler_undecodable s p fd data Hp Hwd Hdec) as (H1 & H2 & H3).
    auto.
  - intros data fd' Hne. exact (other_stream_untouched s p fd fd' data Hp Hfd Hne).
  - intros Hbuf. exact (line_assembler_cut_character s p fd Hp Hfd Hwd Hbuf).
Qed.

Lemma line_assembler_witness :
  let s := deliver_all [ConnectionMade] (launch [py "ssh"] 7 example_session) in
  let p := mkProtocol false false false (Some 7%Z) [] [] false (Some 2) (Some 1) false
             (Some 0) in
  let o1 := feed 1 cut_chunk_1 s in
  let o2 := feed 1 cut_chunk_2 (final_state o1) in
  let o := feed 1 (cut_chunk_1 ++ cut_chunk_2) s in
  protocol s = Some p
  /\ (1 = 1 \/ 1 = 2)%Z
  /\ (is_Some (IO_TIMEOUT s) -> is_Some (iowatchdog p))
  /\ stream_buffer 1 p = []
  /\ outcome o1 = inl UnicodeDecodeError
  /\ lines_logged o1 = []
  /\ pending_partial 1 (final_state o1) = []
  /\ outcome o2 = inl UnicodeDecodeError
  /\ lines_logged o2 = []
  /\ pending_partial 1 (final_state o2) = []
  /\ outcome o = inr tt
  /\ lines_logged o = [line_record 1 s (py "ok"); line_record 1 s cafe]
  /\ pending_partial 1 (final_state o) = [].
Proof.
  intros s p o1 o2 o.
  split; [reflexivity|]. split; [left; reflexivity|].
  split; [intros _; eexists; reflexivity|]. split; [reflexivity|].
  apply (proj2 (proj2 (proj2 (proj2
           (line_assembler s p 1 eq_refl (or_introl eq_refl)
              (fun _ => ex_intro _ 1 eq_refl)))))).
  reflexivity.
Defined.

(** C10: a session that [__init__] has just built has [closed] set,
    [opened] and [connected] clear, no child-process handle and no child;
    [close()] on it returns at once, leaving the session as it is:
    nothing is terminated and [closed.wait()] is not reached. *)
Theorem fresh_session_is_closed (user_ : pystr) (name_ hostname_ : option pystr)
    (ct : option Q) (cm : bool) (node_ : option nat) (sid0 next : Z) (s : ssh_session) :
  ssh_session_init user_ name_ hostname_ ct cm node_ sid0 = inr (s, next) ->
  closed s = true /\ opened s = false /\ connected s = false
  /\ sshpipe s = None /\ children s = []
  /\ forall controlmasters_ pid_,
       coroutine_step controlmasters_ pid_ close_start s = (s, [], inr (inr ReturnNone)).
Proof.
  unfold ssh_session_init. intros H.
  destruct cm; [destruct name_; [|discriminate]|]; injection H as <- _;
    repeat split; reflexivity.
Qed.

Lemma fresh_session_is_closed_witness :
  let s := mkSession (Some (py "10.0.0.1")) (Some (py "node1")) (py "root")
             false true false [] None (Some 0) (Some (10 # 1)%Q) None None
             false (py "/usr/bin/ssh") (py "node1(1)") None None false None [] [] in
  ssh_session_init (py "root") (Some (py "node1")) (Some (py "10.0.0.1"))
    (Some (10 # 1)%Q) false (Some 0) 1 = inr (s, 2%Z)
  /\ closed s = true /\ opened s = false /\ connected s = false
  /\ sshpipe s = None /\ children s = []
  /\ forall controlmasters_ pid_,
       coroutine_step controlmasters_ pid_ close_start s = (s, [], inr (inr ReturnNone)).
Proof.
  intros s. split; [vm_compute; reflexivity|].
  apply (fresh_session_is_closed (py "root") (Some (py "node1")) (Some (py "10.0.0.1"))
           (Some (10 # 1)%Q) false (Some 0) 1 2 s).
  vm_compute. reflexivity.
Defined.



(** C4: a step of [post_cmd] on a session that is not a console returns
    only with [closed] set, what it returns is the session's [results]
    object, and the step leaves [results] as it is; once the transport is
    there it returns when [closed] is set and otherwise suspends on
    [closed.wait()].  On a console session [post_cmd] never suspends on
    [closed.wait()] (its only suspension is the wait for
    [subprocess_exec]) and returns [None] as soon as the transport is
    there. *)
Theorem post_cmd_awaits_closed (s : ssh_session) (controlmasters_ : result (option pystr))
    (pid_ : Z) (c : coroutine) :
  is_post_cmd c = true ->
  let o := coroutine_step controlmasters_ pid_ c s in
  (control_master s = false ->
     (forall r, outcome o = inr (inr r) ->
        r = ReturnResults /\ closed s = true /\ closed (final_state o) = true
        /\ results (final_state o) = results s)
     /\ (c = post_cmd_await_closed -> closed s = true ->
         outcome o = inr (inr ReturnResults))
     /\ (c = post_cmd_await_exec -> confirmed s = true ->
         outcome o = if closed s then inr (inr ReturnResults)
                     else inr (inl post_cmd_await_closed)))
  /\ (control_master s = true ->
      (c <> post_cmd_await_closed ->
       forall c', outcome o = inr (inl c') -> c' = post_cmd_await_exec)
      /\ (c = post_cmd_await_exec -> confirmed s = true ->
          outcome o = inr (inr ReturnNone))).
Proof.
  intros Hc o. subst o.
  destruct s as [? ? ? ? cl ? ? ? ? ? ? ? cmaster ? ? ? ? ? pr ? ?].
  unfold confirmed. cbn.
  split; intros ->.
  - split; [|split].
    + intros r. destruct c; try discriminate;
        unfold coroutine_step, subprocess_exec, SSHReaderProtocol_init, await_closed,
          call_later, outcome, final_state, bind, get, gets, modify, logging, emit, ret, raise;
        cbn; repeat (break_match; cbn); intros H; try discriminate;
        injection H as <-; repeat split; congruence.
    + intros -> ->. reflexivity.
    + intros ->. destruct pr as [p|]; [|discriminate].
      destruct (p_transport p) eqn:E; [|discriminate]. intros _.
      unfold coroutine_step, await_closed, outcome, bind, get, gets, modify, logging,
        emit, ret. cbn. rewrite E. cbn. destruct cl; reflexivity.
  - split.
    + intros Hne c'.
      destruct c; try discriminate; try congruence;
        unfold coroutine_step, subprocess_exec, SSHReaderProtocol_init, await_closed,
          call_later, outcome, final_state, bind, get, gets, modify, logging, emit, ret, raise;
        cbn; repeat (break_match; cbn); intros H; try discriminate;
        injection H as <-; reflexivity.
    + intros ->. destruct pr as [p|]; [|discriminate].
      destruct (p_transport p) eqn:E; [|discriminate]. intros _.
      unfold coroutine_step, await_closed, outcome, bind, get, gets, modify, logging,
        emit, ret. cbn. rewrite E. reflexivity.
Qed.

Lemma post_cmd_awaits_closed_witness :
  let running := deliver_all [ConnectionMade] (launch [py "ssh"] 7 example_session) in
  let ended := deliver_all example_events (launch [py "ssh"] 7 example_session) in
  is_post_cmd post_cmd_await_exec = true
  /\ outcome (coroutine_step (inr None) 8 post_cmd_await_exec running)
     = inr (inl post_cmd_await_closed)
  /\ outcome (coroutine_step (inr None) 8 post_cmd_await_exec ended)
     = inr (inr ReturnResults).
Proof.
  intros running ended. split; [reflexivity|]. split.
  - destruct (post_cmd_awaits_closed running (inr None) 8 post_cmd_await_exec eq_refl)
      as [H _].
    destruct (H eq_refl) as (_ & _ & H3). exact (H3 eq_refl eq_refl).
  - destruct (post_cmd_awaits_closed ended (inr None) 8 post_cmd_await_exec eq_refl)
      as [H _].
    destruct (H eq_refl) as (_ & _ & H3). exact (H3 eq_refl eq_refl).
Defined.

(** *** The loop leaves the registry alone *)


Lemma registry_unchanged_refl w : registry_unchanged w w.
Proof. split; reflexivity. Qed.

Lemma registry_unchanged_trans w1 w2 w3 :
  registry_unchanged w1 w2 -> registry_unchanged w2 w3 -> registry_unchanged w1 w3.
Proof. intros [] []; split; congruence. Qed.


Lemma quiet_ret : quiet (ret tt).
Proof. intros w. split; [reflexivity | apply registry_unchanged_refl]. Qed.

Lemma quiet_bind (m : M world unit) (k : M world unit) :
  quiet m -> quiet k -> quiet (m;; k).
Proof.
  intros Hm Hk w. unfold bind. destruct (Hm w) as [Ho Hr].
  destruct (m w) as [[w1 l1] r1]. cbn in *. subst r1.
  destruct (Hk w1) as [Ho' Hr']. destruct (k w1) as [[w2 l2] r2]. cbn in *.
  split; [assumption | eapply registry_unchanged_trans; eassumption].
Qed.

Lemma quiet_get_bind (k : world -> M world unit) :
  (forall w0, quiet (k w0)) -> quiet (w0 <- get;; k w0).
Proof.
  intros Hk w. unfold bind, get. destruct (Hk w w) as [Ho Hr].
  destruct (k w w) as [[w2 l2] r2]. cbn in *. auto.
Qed.

Lemma quiet_when c m : quiet m -> quiet (when c m).
Proof. intros H. destruct c; [exact H | apply quiet_ret]. Qed.

Lemma quiet_for_each {A} (xs : list A) (body : A -> M world unit) :
  (forall x, quiet (body x)) -> quiet (for_each xs body).
Proof.
  intros H. induction xs as [|x xs IH]; cbn; [apply quiet_ret|].
  apply quiet_bind; auto.
Qed.

Lemma quiet_step_task tid : quiet (step_task tid).
Proof.
  intros w. unfold step_task.
  destruct (tasks w !! tid) as [[sid [c|v|e]]|] eqn:Et;
    try (split; [reflexivity | apply registry_unchanged_refl]).
  destruct (sessions w !! sid) as [s|];
    try (split; [reflexivity | apply registry_unchanged_refl]).
  destruct (coroutine_step _ _ _ _) as [[s' l] r]. cbn.
  split; [reflexivity|]. destruct w; split; cbn in *; try reflexivity.
  - rewrite list_fmap_insert. cbn. apply list_insert_id.
    rewrite list_lookup_fmap, Et. reflexivity.
  - apply length_insert.
Qed.

Lemma quiet_deliver_to sid ev : quiet (deliver_to sid ev).
Proof.
  intros w. unfold deliver_to.
  destruct (sessions w !! sid) as [s|];
    try (split; [reflexivity | apply registry_unchanged_refl]).
  destruct (deliver ev s) as [[s' l] r]. cbn.
  split; [reflexivity|]. destruct w; split; cbn; try reflexivity;
    apply length_insert.
Qed.

Lemma quiet_do_action a : quiet (do_action a).
Proof. destruct a; [apply quiet_deliver_to | apply quiet_step_task]. Qed.

Lemma quiet_start_scheduled : quiet start_scheduled.
Proof.
  apply quiet_get_bind. intros w0. apply quiet_for_each. intros tid.
  apply quiet_get_bind. intros w'. destruct (tasks w' !! tid); [|apply quiet_ret].
  apply quiet_when, quiet_step_task.
Qed.

Lemma quiet_confirm_launches : quiet confirm_launches.
Proof.
  apply quiet_get_bind. intros w0. apply quiet_for_each. intros sid.
  apply quiet_get_bind. intros w'. destruct (sessions w' !! sid); [|apply quiet_ret].
  apply quiet_when, quiet_deliver_to.
Qed.

Lemma quiet_modify_waits f :
  (forall w, registry_unchanged w (f w)) -> quiet (modify f).
Proof. intros H w. split; [reflexivity | apply H]. Qed.

Lemma quiet_after_prologue : quiet (start_scheduled;; confirm_launches).
Proof.
  apply quiet_bind; [apply quiet_start_scheduled | apply quiet_confirm_launches].
Qed.

Lemma loop_prologue_spec ts timeout w :
  exists w' l,
    loop_prologue ts timeout w = (w', l, inr tt)
    /\ rexec_tasks w' = rexec_tasks w /\ instances w' = instances w
    /\ nodes w' = nodes w /\ sessionid w' = sessionid w
    /\ length (tasks w') = length (tasks w)
    /\ length (sessions w') = length (sessions w)
    /\ waits w' = waits w ++ [WaitCall ts timeout]
    /\ t_session <$> tasks w' = t_session <$> tasks w.
Proof.
  unfold loop_prologue. unfold bind at 1. unfold modify.
  pose proof (quiet_after_prologue
                (set_waits (waits w ++ [WaitCall ts timeout]) w)) as [Ho Hr].
  revert Ho Hr.
  generalize ((start_scheduled;; confirm_launches)
                (set_waits (waits w ++ [WaitCall ts timeout]) w)).
  intros [[w2 l2] r2] Ho Hr. cbn in *. subst r2.
  exists w2, l2. destruct Hr. cbn in *. repeat split; try assumption.
  rewrite <- (length_fmap t_session), ru_tasks0, length_fmap. reflexivity.
Qed.

Lemma run_until_complete_wait_spec ts timeout sched w :
  exists w' l,
    run_until_complete_wait ts timeout sched w = (w', l, inr tt)
    /\ rexec_tasks w' = rexec_tasks w /\ instances w' = instances w
    /\ nodes w' = nodes w /\ sessionid w' = sessionid w
    /\ length (tasks w') = length (tasks w)
    /\ length (sessions w') = length (sessions w)
    /\ waits w' = waits w ++ [WaitCall ts timeout]
    /\ t_session <$> tasks w' = t_session <$> tasks w.
Proof.
  unfold run_until_complete_wait, bind.
  destruct (loop_prologue_spec ts timeout w)
    as (w1 & l1 & -> & Hr & Hi & Hn & Hs & Ht & Hss & Hw & Hts).
  pose proof (quiet_for_each sched do_action quiet_do_action w1) as [Ho Hq].
  revert Ho Hq. generalize (for_each sched do_action w1).
  intros [[w2 l2] r2] Ho Hq. cbn in *. subst r2.
  exists w2, (l1 ++ l2). destruct Hq. repeat split; try congruence.
  rewrite <- (length_fmap t_session), ru_tasks0, length_fmap. assumption.
Qed.

(** *** rexec *)


Lemma list_remove_snoc x l :
  forallb (fun t => t <? x) l = true -> list_remove x (l ++ [x]) = Some l.
Proof.
  induction l as [|y l IH]; cbn; intros H.
  - rewrite Nat.eqb_refl. reflexivity.
  - apply andb_true_iff in H as [Hy H]. apply Nat.ltb_lt in Hy.
    destruct (Nat.eqb_spec x y); [lia|]. rewrite (IH H). reflexivity.
Qed.

Arguments run_until_complete_wait : simpl never.

Lemma rexec_sync_spec (w : world) (self_ : nat) (n : ssh_node)
    (cmd_ : option pystr) (io cmdt ct : option Q) (sched : list action) :
  nodes w !! self_ = Some n ->
  fresh_task_refs w = true ->
  exists w2 l,
    rexec self_ cmd_ false io cmdt ct sched w
    = (set_nodes (alter (set_my_tasks (my_tasks n)) self_ (nodes w2))
         (set_rexec_tasks (rexec_tasks w) w2),
       l,
       match tasks w2 !! length (tasks w) with
       | Some (Task _ (Done v)) => inr v
       | Some (Task _ (Failed e)) => inl e
       | _ => inl InvalidStateError
       end)
    /\ nodes w2
       = alter (fun n' => set_my_tasks (my_tasks n' ++ [length (tasks w)]) n') self_ (nodes w)
    /\ waits w2 = waits w ++ [WaitCall [length (tasks w)] (Some (10 # 1)%Q)].
Proof.
  intros Hn Hfresh.
  apply andb_true_iff in Hfresh as [Hf1 Hf2].
  assert (Hf3 : forallb (fun t => t <? length (tasks w)) (my_tasks n) = true).
  { rewrite forallb_forall in Hf2. apply Hf2.
    apply list_elem_of_In, list_elem_of_lookup. eauto. }
  unfold rexec, new_session, ssh_session_init, ensure_future, update_node.
  unfold bind at 1. unfold get at 1. rewrite Hn.
  unfold bind, get, gets, modify, ret. cbn.
  match goal with
  | |- context [run_until_complete_wait ?ts ?to ?sc ?w1] =>
      destruct (run_until_complete_wait_spec ts to sc w1)
        as (w2 & l2 & E & Hr & Hi & Hno & Hs & Hlt & Hls & Hw & _);
      rewrite E; cbn in Hr, Hi, Hno, Hs, Hw; clear E Hlt Hls; cbn
  end.
  exists w2.
  unfold rexec_finally, task_result, update_node, bind, get, gets, modify, ret, raise. cbn.
  rewrite Hr, (list_remove_snoc _ _ Hf1). cbn.
  assert (Hl : nodes w2 !! self_
               = Some (set_my_tasks (my_tasks n ++ [length (tasks w)]) n))
    by (rewrite Hno, list_lookup_alter_eq, Hn; reflexivity).
  rewrite Hl. cbn.
  rewrite (list_remove_snoc _ _ Hf3). cbn.
  destruct (tasks w2 !! length (tasks w)) as [[sid [c|v|e]]|] eqn:Et; cbn;
    eexists; (split; [reflexivity|]); auto.
Qed.

(** C2: a synchronous [rexec] whose task is still pending when the
    bounded join (timeout 10) returns takes the task out of
    [ssh_node.rexec_tasks] and out of the node's [my_tasks], and then
    raises: the exception is [InvalidStateError], from
    [this_task.result()] in the [finally] clause, and not a timeout. *)
Theorem rexec_schedule_timeout (w : world) (self_ : nat) (n : ssh_node)
    (cmd_ : option pystr) (io cmdt ct : option Q) (sched : list action) :
  nodes w !! self_ = Some n ->
  fresh_task_refs w = true ->
  let this_task := length (tasks w) in
  let o := rexec self_ cmd_ false io cmdt ct sched w in
  (exists sid c, tasks (final_state o) !! this_task = Some (Task sid (Pending c))) ->
  outcome o = inl InvalidStateError
  /\ rexec_tasks (final_state o) = rexec_tasks w
  /\ (my_tasks <$> nodes (final_state o) !! self_) = Some (my_tasks n)
  /\ waits (final_state o) = waits w ++ [WaitCall [this_task] (Some (10 # 1)%Q)].
Proof.
  intros Hn Hfresh this_task o.
  destruct (rexec_sync_spec w self_ n cmd_ io cmdt ct sched Hn Hfresh)
    as (w2 & l & E & Hno & Hw).
  subst o. rewrite E. cbn. fold this_task.
  intros (sid & c & Ht). rewrite Ht. repeat split; try assumption.
  rewrite Hno, list_lookup_alter_eq, list_lookup_alter_eq, Hn. reflexivity.
Qed.

Lemma rexec_schedule_timeout_witness :
  let n := mkNode (Some (py "10.0.0.1")) (Some (py "node1")) [] None
             (py "/tmp/controlmasters_10.0.0.1") true None None in
  let o := rexec 0 (Some (py "pwd")) false (Some DEFAULT_IO_TIMEOUT)
             (Some DEFAULT_CMD_TIMEOUT) (Some DEFAULT_CONNECT_TIMEOUT) [Step 0]
             example_world in
  nodes example_world !! 0 = Some n
  /\ fresh_task_refs example_world = true
  /\ tasks (final_state o) !! 0 = Some (Task 0 (Pending post_cmd_await_closed))
  /\ outcome o = inl InvalidStateError
  /\ rexec_tasks (final_state o) = rexec_tasks example_world
  /\ (my_tasks <$> nodes (final_state o) !! 0) = Some (my_tasks n)
  /\ waits (final_state o)
     = waits example_world ++ [WaitCall [0] (Some (10 # 1)%Q)].
Proof.
  intros n o.
  assert (Hn : nodes example_world !! 0 = Some n) by (vm_compute; reflexivity).
  assert (Ht : tasks (final_state o) !! 0 = Some (Task 0 (Pending post_cmd_await_closed)))
    by (vm_compute; reflexivity).
  split; [exact Hn|]. split; [reflexivity|]. split; [exact Ht|].
  apply (rexec_schedule_timeout example_world 0 n (Some (py "pwd"))
           (Some DEFAULT_IO_TIMEOUT) (Some DEFAULT_CMD_TIMEOUT)
           (Some DEFAULT_CONNECT_TIMEOUT) [Step 0] Hn eq_refl).
  exists 0, post_cmd_await_closed. exact Ht.
Defined.

(** *** run_all_commands *)

(** X1: without a start text [run_all_commands] ends normally with
    [ssh_node.rexec_tasks] empty and the nodes as they were; it runs one
    join, on the whole pending list with the timeout it was given, and no
    join at all when the list is empty. *)
Lemma run_all_commands_clears (timeout : option Q) (text stoptext : option pystr)
    (sched : list action) (w : world) :
  truthy_str text = false ->
  exists w' l,
    run_all_commands timeout text stoptext sched w = (w', l, inr tt)
    /\ rexec_tasks w' = []
    /\ nodes w' = nodes w
    /\ waits w' = if nonempty (rexec_tasks w)
                  then waits w ++ [WaitCall (rexec_tasks w) timeout]
                  else waits w.
Proof.
  intros Ht. unfold run_all_commands. unfold bind at 1. unfold gets.
  destruct (rexec_tasks w) eqn:Er; cbn [nonempty when].
  - exists w, []. cbn. rewrite Er. auto.
  - rewrite Ht. cbn [when]. unfold bind, ret.
    destruct (run_until_complete_wait_spec (n :: l) timeout sched w)
      as (w2 & l2 & -> & Hr & Hi & Hn & Hs & Htk & Hss & Hw & _).
    destruct (truthy_str stoptext); cbn; eexists; eexists;
      (split; [reflexivity|]); cbn; auto.
Qed.

(** C6: with tasks pending, a call of [run_all_commands] that passes a
    start text raises [NameError] (the module has no name [time]) before
    the loop is run: nothing is waited for, nothing is logged, and the
    world, the pending list included, is as it was. *)
Theorem run_all_commands_start_text (timeout : option Q) (text stoptext : option pystr)
    (sched : list action) (w : world) :
  truthy_str text = true ->
  rexec_tasks w <> [] ->
  run_all_commands timeout text stoptext sched w = (w, [], inl NameError).
Proof.
  intros Ht Hne. unfold run_all_commands. unfold bind at 1. unfold gets.
  destruct (rexec_tasks w) eqn:Er; [congruence|]. cbn [nonempty when].
  rewrite Ht. reflexivity.
Qed.

Lemma run_all_commands_start_text_witness :
  let w := final_state
             (rexec 0 (Some (py "pwd")) true (Some DEFAULT_IO_TIMEOUT)
                (Some DEFAULT_CMD_TIMEOUT) (Some DEFAULT_CONNECT_TIMEOUT) []
                example_world) in
  truthy_str (Some (py "go")) = true
  /\ rexec_tasks w = [0]
  /\ run_all_commands (Some (5 # 1)%Q) (Some (py "go")) None [] w = (w, [], inl NameError).
Proof.
  intros w.
  assert (Hr : rexec_tasks w = [0]) by (vm_compute; reflexivity).
  split; [reflexivity|]. split; [exact Hr|].
  apply (run_all_commands_start_text (Some (5 # 1)%Q) (Some (py "go")) None [] w eq_refl).
  rewrite Hr. discriminate.
Defined.

(** *** Attribute delegation *)

(** C9: reading an attribute that normal lookup does not find on a
    session gives what [getattr] gives on the session's node when the node
    reference is set, and [None], not [AttributeError], when the node
    reference is [None]; this holds for every attribute name. *)
Theorem getattr_delegates_to_node (w : world) (sid : nat) (s : ssh_session)
    (attr : string) :
  ssh_session_own sid s attr = None ->
  ssh_session_getattr w sid s attr
  = match node s with
    | Some nid =>
        match nodes w !! nid with
        | Some n => ssh_node_getattr w n attr
        | None => inl AttributeError
        end
    | None => inr VNone
    end.
Proof.
  intros Hown. unfold ssh_session_getattr.
  destruct (String.eqb attr "is_established") eqn:E.
  - apply String.eqb_eq in E. subst attr. unfold ssh_session___getattr__.
    destruct (node s) as [nid|]; [|reflexivity].
    destruct (nodes w !! nid) as [n|]; reflexivity.
  - rewrite Hown. reflexivity.
Qed.

Lemma getattr_delegates_to_node_witness :
  ssh_session_own 0 example_session "ipaddr" = None
  /\ ssh_session_getattr example_world 0 example_session "ipaddr"
     = inr (VStr (py "10.0.0.1"))
  /\ ssh_session_own 1 orphan_session "ipaddr" = None
  /\ ssh_session_getattr example_world 1 orphan_session "ipaddr" = inr VNone
  /\ ssh_session_getattr example_world 0 example_session "__doc__" = inr VNone
  /\ ssh_session_getattr example_world 1 orphan_session "__class__"
     = inr (VObject "__class__")
  /\ ssh_session_getattr example_world 0 example_session "CMD_TIMEOUT"
     = inr (VNumber (30 # 1)%Q).
Proof.
  split; [reflexivity|]. split; [|split; [reflexivity|split; [|repeat split]]].
  - exact (eq_trans
             (getattr_delegates_to_node example_world 0 example_session "ipaddr" eq_refl)
             eq_refl).
  - exact (getattr_delegates_to_node example_world 1 orphan_session "ipaddr" eq_refl).
Defined.

(** *** Consoles *)


Lemma open_consoles_loop_spec ns : forall ts names w w' l r,
  open_consoles_loop ns ts names w = (w', l, inr r) ->
  instances w' = instances w
  /\ (forall nid, console_or_dangling w nid -> console_or_dangling w' nid)
  /\ (forall nid, nid ∈ ns -> console_or_dangling w' nid).
Proof.
  induction ns as [|nid ns IH]; intros ts names w w' l r H.
  - cbn in H. injection H as <- _ _. repeat split; auto.
    intros nid Hin. inversion Hin.
  - cbn [open_consoles_loop] in H. unfold bind at 1 in H. unfold get at 1 in H.
    destruct (nodes w !! nid) as [n|] eqn:En.
    + destruct (truthy (ssh_console_session n)) eqn:Ec; cbn [negb] in H.
      * (* already has a console *)
        destruct (open_consoles_loop ns ts names w) as [[w1 l1] r1] eqn:E1.
        cbn in H. injection H as <- _ ->.
        destruct (IH _ _ _ _ _ _ E1) as (Hi & Hmono & Hns).
        repeat split; auto. intros nid' Hin.
        apply elem_of_cons in Hin as [->|Hin]; auto.
        apply Hmono. unfold console_or_dangling. rewrite En. exact Ec.
      * unfold new_session, ensure_future, update_node in H.
        unfold bind at 1 in H. unfold bind at 1 in H. unfold get at 1 in H.
        destruct (ssh_session_init _ _ _ _ _ _ _) as [e|[s next]] eqn:Es.
        { cbn in H. discriminate. }
        unfold bind, get, gets, modify, ret in H. cbn in H.
        match type of H with
        | context [open_consoles_loop ns ?ts' ?nm' ?w1] =>
            destruct (open_consoles_loop ns ts' nm' w1) as [[w2 l2] r2] eqn:E1
        end.
        cbn in H. injection H as <- _ ->.
        destruct (IH _ _ _ _ _ _ E1) as (Hi & Hmono & Hns).
        cbn in Hi. repeat split; auto.
        -- intros nid' Hc. apply Hmono. unfold console_or_dangling in *. cbn.
           destruct (decide (nid = nid')) as [<-|Hne].
           ++ rewrite !list_lookup_alter_eq, En. reflexivity.
           ++ rewrite !list_lookup_alter_ne by assumption. exact Hc.
        -- intros nid' Hin. apply elem_of_cons in Hin as [->|Hin]; auto.
           apply Hmono. unfold console_or_dangling. cbn.
           rewrite !list_lookup_alter_eq, En. reflexivity.
    + destruct (open_consoles_loop ns ts names w) as [[w1 l1] r1] eqn:E1.
      cbn in H. injection H as <- _ ->.
      destruct (IH _ _ _ _ _ _ E1) as (Hi & Hmono & Hns).
      repeat split; auto. intros nid' Hin.
      apply elem_of_cons in Hin as [->|Hin]; auto.
      apply Hmono. unfold console_or_dangling. rewrite En. exact I.
Qed.

Lemma open_consoles_loop_nothing ns : forall ts names w,
  (forall nid, nid ∈ ns -> console_or_dangling w nid) ->
  open_consoles_loop ns ts names w = (w, [], inr (ts, names)).
Proof.
  induction ns as [|nid ns IH]; intros ts names w H; [reflexivity|].
  cbn [open_consoles_loop]. unfold bind at 1. unfold get at 1.
  pose proof (H nid (proj2 (elem_of_cons _ _ _) (or_introl eq_refl))) as Hc. unfold console_or_dangling in Hc.
  destruct (nodes w !! nid) as [n|].
  - rewrite Hc. cbn [negb]. rewrite IH; [reflexivity|].
    intros nid' Hin. apply H. apply elem_of_cons. right. exact Hin.
  - rewrite IH; [reflexivity|].
    intros nid' Hin. apply H. apply elem_of_cons. right. exact Hin.
Qed.

Lemma bind_inr {St A B} (m : M St A) (k : A -> M St B) s s1 l1 a :
  m s = (s1, l1, inr a) ->
  bind m k s = (let '(s2, l2, r) := k a s1 in (s2, l1 ++ l2, r)).
Proof. intros H. unfold bind. rewrite H. reflexivity. Qed.

Lemma bind_inl {St A B} (m : M St A) (k : A -> M St B) s s1 l1 e :
  m s = (s1, l1, inl e) ->
  bind m k s = (s1, l1, inl e).
Proof. intros H. unfold bind. rewrite H. reflexivity. Qed.

(** [open_consoles] after its [for] loop. *)
Lemma open_consoles_after_loop sched w w1 l1 ts names :
  open_consoles_loop (instances w) [] [] w = (w1, l1, inr (ts, names)) ->
  exists w2 l r,
    open_consoles sched w = (w2, l, r)
    /\ nodes w2 = nodes w1 /\ instances w2 = instances w1.
Proof.
  intros E. unfold open_consoles.
  rewrite (bind_inr _ _ w w [] (instances w)) by reflexivity.
  rewrite (bind_inr _ _ _ _ _ _ E).
  destruct ts as [|t ts]; cbn [nonempty when].
  - cbn. eauto 10.
  - unfold join_names. destruct (all_names names) as [nl|].
    + rewrite (bind_inr _ _ w1 w1 [] (str_join (py " ") nl)) by reflexivity.
      unfold logging at 1.
      rewrite (bind_inr _ _ w1 w1 [_] tt) by reflexivity.
      destruct (run_until_complete_wait_spec (t :: ts) (Some (60 # 1)%Q) sched w1)
        as (w2 & l2 & E2 & Hr & Hi2 & Hn2 & _).
      rewrite (bind_inr _ _ _ _ _ _ E2). cbn. eauto 10.
    + rewrite (bind_inl _ _ w1 w1 [] TypeError) by reflexivity. cbn. eauto 10.
Qed.

Lemma open_consoles_idempotent (w : world) (sched1 sched2 : list action) :
  outcome (open_consoles sched1 w) = inr tt ->
  open_consoles sched2 (final_state (open_consoles sched1 w))
  = (final_state (open_consoles sched1 w), [], inr tt).
Proof.
  intros Hok.
  assert (Hall : forall nid, nid ∈ instances (final_state (open_consoles sched1 w)) ->
                   console_or_dangling (final_state (open_consoles sched1 w)) nid).
  { destruct (open_consoles_loop (instances w) [] [] w) as [[w1 l1] [e|[ts names]]] eqn:E1.
    - exfalso. revert Hok. unfold open_consoles.
      rewrite (bind_inr _ _ w w [] (instances w)) by reflexivity.
      rewrite (bind_inl _ _ _ _ _ _ E1). discriminate.
    - destruct (open_consoles_loop_spec _ _ _ _ _ _ _ E1) as (Hi & Hmono & Hns).
      destruct (open_consoles_after_loop sched1 _ _ _ _ _ E1)
        as (w2 & l & r & -> & Hn2 & Hi2).
      cbn. intros nid Hin. rewrite Hi2, Hi in Hin.
      unfold console_or_dangling. rewrite Hn2. apply Hns. exact Hin. }
  generalize dependent (final_state (open_consoles sched1 w)). intros w1 Hall.
  unfold open_consoles.
  rewrite (bind_inr _ _ w1 w1 [] (instances w1)) by reflexivity.
  rewrite (bind_inr _ _ _ _ _ _ (open_consoles_loop_nothing _ [] [] _ Hall)).
  reflexivity.
Qed.




Lemma console_of_set_console_task w nid v nid' :
  console_of (set_nodes (alter (set_console_task v) nid (nodes w)) w) nid'
  = console_of w nid'.
Proof.
  unfold console_of. cbn. destruct (decide (nid = nid')) as [<-|Hne].
  - rewrite list_lookup_alter_eq. destruct (nodes w !! nid); reflexivity.
  - rewrite list_lookup_alter_ne by assumption. reflexivity.
Qed.

Lemma omap_ext_pointwise {A B} (f g : A -> option B) (l : list A) :
  (forall x, f x = g x) -> omap f l = omap g l.
Proof.
  intros H. induction l as [|x l IH]; cbn; [reflexivity|].
  rewrite H, IH. reflexivity.
Qed.


Lemma close_consoles_loop_spec ns : forall ts names w,
  exists w1,
    close_consoles_loop ns ts names w
    = (w1, [], inr (ts ++ seq (length (tasks w)) (length (omap (console_of w) ns)),
                    names ++ omap (console_name w) ns))
    /\ tasks w1 = tasks w ++ (close_task <$> omap (console_of w) ns)
    /\ sessions w1 = sessions w
    /\ instances w1 = instances w
    /\ rexec_tasks w1 = rexec_tasks w
    /\ waits w1 = waits w
    /\ (forall nid, console_of w1 nid = console_of w nid).
Proof.
  induction ns as [|nid ns IH]; intros ts names w.
  - exists w. cbn. rewrite !app_nil_r. auto 10.
  - cbn [close_consoles_loop omap list_omap].
    rewrite (bind_inr _ _ w w [] w) by reflexivity.
    destruct (nodes w !! nid) as [n|] eqn:En.
    + destruct (ssh_console_session n) as [sid|] eqn:Ec.
      * assert (Hk : console_of w nid = Some sid)
          by (unfold console_of; rewrite En; exact Ec).
        assert (Hk' : console_name w nid = Some (n_name n))
          by (unfold console_name; rewrite En, Ec; reflexivity).
        rewrite Hk, Hk'.
        unfold ensure_future, update_node.
        unfold bind, get, modify, ret. cbn.
        match goal with
        | |- context [close_consoles_loop ns ?ts' ?nm' ?w1] =>
            destruct (IH ts' nm' w1) as (w2 & E & Ht & Hs & Hi & Hr & Hw & Hc)
        end.
        assert (Hom : omap (console_of (set_nodes
                         (alter (set_console_task (Some (length (tasks w)))) nid (nodes w))
                         (set_tasks (tasks w ++ [Task sid (Pending close_start)]) w))) ns
                      = omap (console_of w) ns).
        { apply omap_ext_pointwise. intros nid'.
          unfold console_of. cbn. destruct (decide (nid = nid')) as [<-|Hne].
          - rewrite list_lookup_alter_eq, En. cbn. reflexivity.
          - rewrite list_lookup_alter_ne by assumption. reflexivity. }
        assert (Hom' : omap (console_name (set_nodes
                         (alter (set_console_task (Some (length (tasks w)))) nid (nodes w))
                         (set_tasks (tasks w ++ [Task sid (Pending close_start)]) w))) ns
                      = omap (console_name w) ns).
        { apply omap_ext_pointwise. intros nid'.
          unfold console_name. cbn. destruct (decide (nid = nid')) as [<-|Hne].
          - rewrite list_lookup_alter_eq, En. cbn. rewrite Ec. reflexivity.
          - rewrite list_lookup_alter_ne by assumption. reflexivity. }
        rewrite Hom, Hom' in E. rewrite Hom in Ht. cbn in E, Ht, Hs, Hi, Hr, Hw.
        rewrite length_app in E. cbn in E. rewrite Nat.add_1_r in E.
        rewrite <- !app_assoc in E. cbn in E.
        rewrite E. cbn.
        exists w2.
        repeat split; auto.
        -- rewrite Ht, <- app_assoc. reflexivity.
        -- intros nid'. rewrite Hc. unfold console_of. cbn.
           destruct (decide (nid = nid')) as [<-|Hne].
           ++ rewrite list_lookup_alter_eq, En. reflexivity.
           ++ rewrite list_lookup_alter_ne by assumption. reflexivity.
      * assert (Hk : console_of w nid = None)
          by (unfold console_of; rewrite En; exact Ec).
        assert (Hk' : console_name w nid = None)
          by (unfold console_name; rewrite En, Ec; reflexivity).
        rewrite Hk, Hk'.
        destruct (IH ts names w) as (w2 & E & H). rewrite E. cbn. eauto.
    + assert (Hk : console_of w nid = None)
        by (unfold console_of; rewrite En; reflexivity).
      assert (Hk' : console_name w nid = None)
        by (unfold console_name; rewrite En; reflexivity).
      rewrite Hk, Hk'.
      destruct (IH ts names w) as (w2 & E & H). rewrite E. cbn. eauto.
Qed.

Lemma t_session_close_tasks (l : list nat) : t_session <$> (close_task <$> l) = l.
Proof. induction l as [|x l IH]; cbn; [reflexivity|]. f_equal. exact IH. Qed.

Lemma quiet_logging lvl msg : quiet (logging lvl msg).
Proof. intros w. split; [reflexivity | apply registry_unchanged_refl]. Qed.

(** [close_consoles] makes one [close()] task for the console of each
    registered node that has one, and no other task. *)
Lemma close_consoles_tasks (sched : list action) (w : world) :
  t_session <$> tasks (final_state (close_consoles sched w))
  = (t_session <$> tasks w) ++ consoles_of w.
Proof.
  unfold close_consoles.
  rewrite (bind_inr _ _ w w [] (instances w)) by reflexivity.
  destruct (close_consoles_loop_spec (instances w) [] [] w)
    as (w1 & E & Ht & Hs & Hi & Hr & Hw & Hc).
  rewrite (bind_inr _ _ _ _ _ _ E).
  assert (H1 : t_session <$> tasks w1 = (t_session <$> tasks w) ++ consoles_of w).
  { rewrite Ht, fmap_app, t_session_close_tasks. reflexivity. }
  cbn [app]. fold (consoles_of w).
  generalize (omap (console_name w) (instances w)). intros names.
  destruct (seq (length (tasks w)) (length (consoles_of w))) as [|t ts]; cbn [nonempty when].
  - cbn. exact H1.
  - unfold join_names. destruct (all_names names) as [nl|].
    + rewrite (bind_inr _ _ w1 w1 [] (str_join (py " ") nl)) by reflexivity.
      unfold logging at 1.
      rewrite (bind_inr _ _ w1 w1 [_] tt) by reflexivity.
      destruct (run_until_complete_wait_spec (t :: ts) (Some (60 # 1)%Q) sched w1)
        as (w2 & l2 & -> & _ & _ & _ & _ & _ & _ & _ & Hts).
      cbn. rewrite Hts. exact H1.
    + rewrite (bind_inl _ _ w1 w1 [] TypeError) by reflexivity. cbn. exact H1.
Qed.

(** *** Two nodes: open, then close *)



Ltac console_fields :=
  repeat match goal with
         | H : _ && _ = true |- _ => apply andb_true_iff in H as [? ?]
         end.

Lemma console_ok_deliver tc s ev :
  console_session_ok tc s = true ->
  console_session_ok tc (final_state (deliver ev s)) = true.
Proof.
  unfold console_session_ok, confirmed, is_None. intros H.
  destruct s as [? ? ? ? ? ? ? pipe ? ct io cm cmaster ? ? ? ? ? pr tm ch].
  cbn in H. console_fields.
  destruct cmaster; [|discriminate]. destruct ct; [discriminate|].
  destruct io; [discriminate|]. destruct cm; [discriminate|].
  destruct tm; [|discriminate]. destruct ch as [|p [|]]; try discriminate.
  destruct pipe as [[|]|]; try discriminate.
  destruct pr as [pr|]; [|discriminate].
  destruct pr as [? ? ? ? ? ? ? wd iowd ? ptr].
  cbn in *. destruct ptr; [|discriminate].
  destruct ev; crunch; try reflexivity; try assumption;
    rewrite ?andb_true_r; try assumption; try discriminate.
Qed.



Ltac open_console_session s H :=
  unfold console_session_ok, confirmed, is_None in H |- *;
  let pipe := fresh "pipe" in let ct := fresh "ct" in let io := fresh "io" in
  let cm := fresh "cm" in let cmaster := fresh "cmaster" in let pr := fresh "pr" in
  let tm := fresh "tm" in let ch := fresh "ch" in let cl := fresh "cl" in
  destruct s as [? ? ? ? cl ? ? pipe ? ct io cm cmaster ? ? ? ? ? pr tm ch];
  cbn in H; console_fields;
  destruct cmaster; [|discriminate]; destruct ct; [discriminate|];
  destruct io; [discriminate|]; destruct cm; [discriminate|];
  destruct tm; [|discriminate]; destruct ch as [|? [|]]; try discriminate;
  destruct pipe as [[|]|]; try discriminate;
  destruct pr as [pr|]; [|discriminate];
  destruct pr as [? ? ? ? ? ? ? ? ? ? ?ptr];
  cbn in *; destruct ptr; [|discriminate].

Ltac unfold_coroutine :=
  unfold coroutine_step, subprocess_exec, SSHReaderProtocol_init, await_closed,
    call_later, terminate, outcome, final_state, bind, get, gets, modify, logging,
    emit, ret, raise.

Lemma console_ok_resume tc s cm pid c :
  console_session_ok tc s = true ->
  resumed c = true ->
  console_session_ok tc (final_state (coroutine_step cm pid c s)) = true
  /\ next_resumed (outcome (coroutine_step cm pid c s)) = true
  /\ length (children (final_state (coroutine_step cm pid c s))) = length (children s).
Proof.
  intros H Hc. open_console_session s H.
  destruct c; try discriminate; unfold_coroutine; cbn;
    repeat (break_match; cbn); rewrite ?andb_true_r; auto.
Qed.

Lemma console_ok_close s cm pid :
  console_session_ok 0 s = true ->
  console_session_ok 1 (final_state (coroutine_step cm pid close_start s)) = true
  /\ next_resumed (outcome (coroutine_step cm pid close_start s)) = true
  /\ length (children (final_state (coroutine_step cm pid close_start s)))
     = length (children s).
Proof.
  intros H. open_console_session s H.
  unfold_coroutine; cbn; repeat (break_match; cbn); rewrite ?andb_true_r;
    match goal with H : (terminate_calls _ =? 0) = true |- _ =>
      apply Nat.eqb_eq in H; rewrite H end; auto.
Qed.


Lemma not_started_resumed sid c :
  not_started (Task sid (Pending c)) = false -> resumed c = true.
Proof. destruct c; cbn; congruence. Qed.

Lemma consoles_running_action tc a w :
  consoles_running tc w -> consoles_running tc (final_state (do_action a w)).
Proof.
  intros [Hs Ht]. destruct a as [sid ev|tid]; cbn [do_action].
  - unfold deliver_to. destruct (sessions w !! sid) as [s|] eqn:Es; [|split; assumption].
    pose proof (console_ok_deliver tc s ev (proj1 (Forall_lookup _ _) Hs _ _ Es)) as Hd.
    destruct (deliver ev s) as [[s' l] r]. cbn in *.
    split; cbn; [apply Forall_insert; assumption | assumption].
  - unfold step_task.
    destruct (tasks w !! tid) as [[sid [c|v|e]]|] eqn:Et; try (split; assumption).
    destruct (sessions w !! sid) as [s|] eqn:Es; [|split; assumption].
    pose proof (proj1 (Forall_lookup _ _) Ht _ _ Et) as Hns.
    apply not_started_resumed in Hns.
    destruct (console_ok_resume tc s (session_controlmasters w sid s) (next_pid w) c
                (proj1 (Forall_lookup _ _) Hs _ _ Es) Hns) as (Hok & Hnext & _).
    destruct (coroutine_step _ _ c s) as [[s' l] r]. cbn in *.
    split; cbn; apply Forall_insert; try assumption.
    destruct r as [e|[c'|[]]]; cbn in *; try reflexivity.
    destruct c'; cbn in *; congruence.
Qed.

Lemma consoles_running_schedule tc sched : forall w,
  consoles_running tc w ->
  consoles_running tc (final_state (for_each sched do_action w)).
Proof.
  induction sched as [|a sched IH]; intros w H; [exact H|].
  cbn [for_each]. unfold bind.
  pose proof (consoles_running_action tc a w H) as Ha.
  destruct (quiet_do_action a w) as [Ho _].
  destruct (do_action a w) as [[w1 l1] r1]. cbn in *. subst r1.
  specialize (IH w1 Ha).
  destruct (for_each sched do_action w1) as [[w2 l2] r2]. exact IH.
Qed.




Lemma console_ok_counts tc s :
  console_session_ok tc s = true ->
  length (children s) = 1
  /\ length (List.filter terminated (children s)) = if 0 <? tc then 1 else 0.
Proof.
  intros H. open_console_session s H.
  match goal with H : (terminate_calls _ =? tc) = true |- _ =>
    apply Nat.eqb_eq in H end.
  unfold terminated. cbn. subst tc. split; [reflexivity|].
  match goal with |- context [terminate_calls ?x] => destruct (terminate_calls x) end;
    reflexivity.
Qed.

Lemma consoles_running_counts tc w :
  consoles_running tc w ->
  processes_started w = length (sessions w)
  /\ processes_terminated w = if 0 <? tc then length (sessions w) else 0.
Proof.
  intros [Hs _]. unfold processes_started, processes_terminated.
  assert (Hc : forall x l, list_sum (x :: l) = x + list_sum l) by reflexivity.
  induction Hs as [|s l Hs Hl IH]; cbn [List.map length].
  - destruct (0 <? tc); split; reflexivity.
  - rewrite !Hc. destruct (console_ok_counts tc s Hs) as [-> ->]. destruct IH as [-> ->].
    destruct (0 <? tc); split; reflexivity.
Qed.

Lemma run_eq {St A} (m : M St A) (s : St) l r :
  emitted (m s) = l -> outcome (m s) = r -> m s = (final_state (m s), l, r).
Proof. destruct (m s) as [[s' l'] r']. cbn. intros -> ->. reflexivity. Qed.

Lemma loop_prologue_eq ts timeout w :
  exists l, loop_prologue ts timeout w
            = (final_state (loop_prologue ts timeout w), l, inr tt).
Proof.
  destruct (loop_prologue_spec ts timeout w) as (w' & l & E & _).
  exists l. rewrite E. reflexivity.
Qed.

Lemma schedule_eq sched w :
  exists l, for_each sched do_action w
            = (final_state (for_each sched do_action w), l, inr tt).
Proof.
  destruct (quiet_for_each sched do_action quiet_do_action w) as [Ho _].
  destruct (for_each sched do_action w) as [[w' l] r]. cbn in *. subst r. eauto.
Qed.

Lemma run_until_complete_wait_final ts timeout sched w :
  exists l,
    run_until_complete_wait ts timeout sched w
    = (final_state (for_each sched do_action (final_state (loop_prologue ts timeout w))),
       l, inr tt).
Proof.
  unfold run_until_complete_wait.
  destruct (loop_prologue_eq ts timeout w) as (l1 & E1).
  rewrite (bind_inr _ _ _ _ _ _ E1).
  destruct (schedule_eq sched (final_state (loop_prologue ts timeout w))) as (l2 & E2).
  rewrite E2. eauto.
Qed.

Lemma open_consoles_final sched w w1 l1 t ts names nl :
  open_consoles_loop (instances w) [] [] w = (w1, l1, inr (t :: ts, names)) ->
  all_names names = Some nl ->
  exists l,
    open_consoles sched w
    = (final_state (for_each sched do_action
                      (final_state (loop_prologue (t :: ts) (Some (60 # 1)%Q) w1))),
       l, inr tt).
Proof.
  intros E Hn. unfold open_consoles.
  rewrite (bind_inr _ _ w w [] (instances w)) by reflexivity.
  rewrite (bind_inr _ _ _ _ _ _ E). cbn [nonempty when].
  unfold join_names. rewrite Hn.
  rewrite (bind_inr _ _ w1 w1 [] (str_join (py " ") nl)) by reflexivity.
  unfold logging at 1.
  rewrite (bind_inr _ _ w1 w1 [_] tt) by reflexivity.
  destruct (run_until_complete_wait_final (t :: ts) (Some (60 # 1)%Q) sched w1) as (l & E2).
  rewrite (bind_inr _ _ _ _ _ _ E2). cbn. eauto.
Qed.


Lemma open_two_nodes name1 name2 ip1 ip2 dev1 dev2 sp1 sp2 sched :
  let w0 := two_nodes name1 name2 ip1 ip2 dev1 dev2 sp1 sp2 in
  let w2 := final_state (open_consoles sched w0) in
  outcome (open_consoles sched w0) = inr tt
  /\ consoles_running 0 w2
  /\ length (sessions w2) = 2 /\ length (tasks w2) = 2
  /\ instances w2 = [0; 1]
  /\ (n_name <$> nodes w2) = [Some name1; Some name2]
  /\ (ssh_console_session <$> nodes w2) = [Some 0; Some 1].
Proof.
  intros w0 w2.
  assert (E : open_consoles_loop (instances w0) [] [] w0
              = (final_state (open_consoles_loop (instances w0) [] [] w0), [],
                 inr ([0; 1], [Some name1; Some name2]))).
  { apply run_eq; vm_compute; reflexivity. }
  destruct (open_consoles_final sched w0 _ _ _ _ _ [name1; name2] E eq_refl) as (l & Hf).
  subst w2. rewrite Hf. cbn [final_state outcome fst snd].
  split; [reflexivity|].
  set (w1 := final_state (loop_prologue [0; 1] (Some (60 # 1)%Q)
                            (final_state (open_consoles_loop (instances w0) [] [] w0)))) in *.
  assert (H1 : consoles_running 0 w1).
  { split; vm_compute; repeat constructor. }
  pose proof (consoles_running_schedule 0 sched w1 H1) as H2.
  destruct (quiet_for_each sched do_action quiet_do_action w1) as [_ Hq].
  destruct Hq.
  split; [exact H2|].
  repeat split.
  - rewrite ru_sessions0. vm_compute. reflexivity.
  - rewrite <- (length_fmap t_session), ru_tasks0, length_fmap. vm_compute. reflexivity.
  - rewrite ru_instances0. vm_compute. reflexivity.
  - rewrite ru_nodes0. vm_compute. reflexivity.
  - rewrite ru_nodes0. vm_compute. reflexivity.
Qed.

Ltac open_task t H :=
  let sid := fresh "sid" in let c := fresh "c" in
  destruct t as [sid [c| |]]; [destruct c; try discriminate H | |].

Ltac zero_calls :=
  repeat match goal with
         | H : (terminate_calls ?p =? 0) = true |- _ =>
             apply Nat.eqb_eq in H; destruct p; cbn in H; subst
         end.

Lemma close_prologue_ok rt inst sidc nds sA sB t0 t1 np wts ts timeout :
  console_session_ok 0 sA = true ->
  console_session_ok 0 sB = true ->
  not_started t0 = false ->
  not_started t1 = false ->
  let w := final_state
             (loop_prologue ts timeout
                (mkWorld rt inst sidc nds [sA; sB]
                   [t0; t1; close_task 0; close_task 1] np wts)) in
  consoles_running 1 w /\ length (sessions w) = 2.
Proof.
  intros HA HB H0 H1.
  open_console_session sA HA. open_console_session sB HB. zero_calls.
  destruct cl, cl0; open_task t0 H0; open_task t1 H1;
    (split; [split|]; vm_compute; repeat constructor).
Qed.

Lemma close_consoles_final sched w w1 l1 t ts names nl :
  close_consoles_loop (instances w) [] [] w = (w1, l1, inr (t :: ts, names)) ->
  all_names names = Some nl ->
  final_state (close_consoles sched w)
  = final_state (for_each sched do_action
                   (final_state (loop_prologue (t :: ts) (Some (60 # 1)%Q) w1))).
Proof.
  intros E Hn. unfold close_consoles.
  rewrite (bind_inr _ _ w w [] (instances w)) by reflexivity.
  rewrite (bind_inr _ _ _ _ _ _ E). cbn [nonempty when].
  unfold join_names. rewrite Hn.
  rewrite (bind_inr _ _ w1 w1 [] (str_join (py " ") nl)) by reflexivity.
  unfold logging at 1.
  rewrite (bind_inr _ _ w1 w1 [_] tt) by reflexivity.
  destruct (run_until_complete_wait_final (t :: ts) (Some (60 # 1)%Q) sched w1) as (l & E2).
  rewrite E2. reflexivity.
Qed.

Lemma consoles_of_two (w : world) (name1 name2 : pystr) :
  instances w = [0; 1] ->
  (n_name <$> nodes w) = [Some name1; Some name2] ->
  (ssh_console_session <$> nodes w) = [Some 0; Some 1] ->
  omap (console_of w) (instances w) = [0; 1]
  /\ omap (console_name w) (instances w) = [Some name1; Some name2].
Proof.
  intros Hi Hnames Hcons. rewrite Hi. unfold console_of, console_name.
  destruct (nodes w) as [|nA [|nB [|]]]; try discriminate.
  cbn in Hnames, Hcons. injection Hnames as HnA HnB. injection Hcons as HcA HcB.
  cbn. rewrite HcA, HcB, HnA, HnB. cbn. split; reflexivity.
Qed.

Lemma close_two_nodes (w2 : world) (name1 name2 : pystr) (sched : list action) :
  consoles_running 0 w2 ->
  length (sessions w2) = 2 -> length (tasks w2) = 2 ->
  instances w2 = [0; 1] ->
  (n_name <$> nodes w2) = [Some name1; Some name2] ->
  (ssh_console_session <$> nodes w2) = [Some 0; Some 1] ->
  consoles_running 1 (final_state (close_consoles sched w2))
  /\ length (sessions (final_state (close_consoles sched w2))) = 2.
Proof.
  intros [Hs Ht] Hls Hlt Hi Hnames Hcons.
  destruct (close_consoles_loop_spec (instances w2) [] [] w2)
    as (w3 & E & Ht3 & Hs3 & Hi3 & Hr3 & Hw3 & Hc3).
  destruct (consoles_of_two w2 name1 name2 Hi Hnames Hcons) as [Ho Hn].
  rewrite Ho, Hn, Hlt in E. rewrite Ho in Ht3. cbn [length seq app] in E.
  rewrite (close_consoles_final sched _ _ _ _ _ _ [name1; name2] E eq_refl).
  destruct (sessions w2) as [|sA [|sB [|]]]; try discriminate.
  destruct (tasks w2) as [|t0 [|t1 [|]]]; try discriminate.
  destruct w3 as [rt3 inst3 sidc3 nds3 ss3 tk3 np3 wts3].
  cbn in Ht3, Hs3. subst ss3 tk3.
  inversion Hs as [|? ? HA Hs']. inversion Hs' as [|? ? HB _]. subst.
  inversion Ht as [|? ? Ht0 Ht']. inversion Ht' as [|? ? Ht1 _]. subst.
  destruct (close_prologue_ok rt3 inst3 sidc3 nds3 sA sB t0 t1 np3 wts3 [2; 3]
              (Some (60 # 1)%Q) HA HB Ht0 Ht1) as [Hrun Hlen].
  cbn [fmap list_fmap app] in *.
  set (w4 := final_state (loop_prologue _ _ _)) in *.
  split.
  - apply consoles_running_schedule. exact Hrun.
  - destruct (quiet_for_each sched do_action quiet_do_action w4) as [_ Hq].
    destruct Hq. rewrite ru_sessions0. exact Hlen.
Qed.




Lemma two_nodes_empty name1 name2 ip1 ip2 dev1 dev2 sp1 sp2 :
  processes_started (two_nodes name1 name2 ip1 ip2 dev1 dev2 sp1 sp2) = 0.
Proof. vm_compute. reflexivity. Qed.

Lemma open_consoles_twice (w : world) (sched1 sched2 : list action) :
  outcome (open_consoles sched1 w) = inr tt ->
  final_state (open_consoles sched2 (final_state (open_consoles sched1 w)))
  = final_state (open_consoles sched1 w).
Proof.
  intros Hok. rewrite (open_consoles_idempotent w sched1 sched2 Hok).
  unfold final_state at 1. reflexivity.
Qed.

Lemma open_close_counts (w1 : world) (name1 name2 : pystr) (sched2 : list action) :
  consoles_running 0 w1 ->
  length (sessions w1) = 2 -> length (tasks w1) = 2 ->
  instances w1 = [0; 1] ->
  (n_name <$> nodes w1) = [Some name1; Some name2] ->
  (ssh_console_session <$> nodes w1) = [Some 0; Some 1] ->
  processes_started w1 = 2 /\ processes_terminated w1 = 0
  /\ processes_started (final_state (close_consoles sched2 w1)) = 2
  /\ processes_terminated (final_state (close_consoles sched2 w1)) = 2.
Proof.
  intros Hrun Hls Hlt Hi Hn Hc.
  destruct (close_two_nodes w1 name1 name2 sched2 Hrun Hls Hlt Hi Hn Hc) as [Hrun2 Hls2].
  destruct (consoles_running_counts 0 w1 Hrun) as [Hs1 Ht1].
  destruct (consoles_running_counts 1 _ Hrun2) as [Hs2 Ht2].
  rewrite Hs1, Ht1, Hs2, Ht2, Hls, Hls2. repeat split; reflexivity.
Qed.

(** *** Two nodes without a name *)

(** The first node makes [ssh_session.__init__] raise, whatever the loop
    would have done: no session is kept, and the [close_consoles] after it
    finds no console. *)
Lemma unnamed_nodes_consoles ip1 ip2 dev1 dev2 sp1 sp2 (sched1 sched2 : list action) :
  outcome (open_consoles sched1 (two_unnamed_nodes ip1 ip2 dev1 dev2 sp1 sp2))
  = inl TypeError
  /\ processes_started
       (final_state (open_consoles sched1 (two_unnamed_nodes ip1 ip2 dev1 dev2 sp1 sp2)))
     = 0
  /\ outcome
       (close_consoles sched2
          (final_state (open_consoles sched1 (two_unnamed_nodes ip1 ip2 dev1 dev2 sp1 sp2))))
     = inr tt
  /\ processes_started
       (final_state
          (close_consoles sched2
             (final_state
                (open_consoles sched1 (two_unnamed_nodes ip1 ip2 dev1 dev2 sp1 sp2)))))
     = 0
  /\ processes_terminated
       (final_state
          (close_consoles sched2
             (final_state
                (open_consoles sched1 (two_unnamed_nodes ip1 ip2 dev1 dev2 sp1 sp2)))))
     = 0.
Proof. repeat split; vm_compute; reflexivity. Qed.

(** *** Closing twice *)

Lemma final_bind_inr {St A B} (m : M St A) (k : A -> M St B) s s1 l1 a :
  m s = (s1, l1, inr a) ->
  final_state (bind m k s) = final_state (k a s1).
Proof.
  intros H. unfold bind. rewrite H. destruct (k a s1) as [[s2 l2] r]. reflexivity.
Qed.

Lemma fmap_alter_same {A B} (f : A -> B) (g : A -> A) i (l : list A) :
  (forall x, f (g x) = f x) -> f <$> alter g i l = f <$> l.
Proof.
  intros H. revert i. induction l as [|a l IH]; intros i; [reflexivity|].
  destruct i; cbn; [rewrite H; reflexivity|]. f_equal. apply IH.
Qed.

(** [close_consoles] changes nothing of a node but its [console_task], and
    registers no node. *)
Lemma close_consoles_keeps_nodes {B} (f : ssh_node -> B) (sched : list action)
    (w : world) :
  (forall v n, f (set_console_task v n) = f n) ->
  (f <$> nodes (final_state (close_consoles sched w))) = (f <$> nodes w)
  /\ instances (final_state (close_consoles sched w)) = instances w.
Proof.
  intros Hf.
  assert (Hloop : forall ns ts names w0,
             (f <$> nodes (final_state (close_consoles_loop ns ts names w0)))
             = (f <$> nodes w0)).
  { induction ns as [|nid ns IH]; intros ts names w0; [reflexivity|].
    cbn [close_consoles_loop].
    rewrite (final_bind_inr _ _ w0 w0 [] w0) by reflexivity.
    destruct (nodes w0 !! nid) as [n|]; [|apply IH].
    destruct (ssh_console_session n) as [sid|]; [|apply IH].
    unfold ensure_future, update_node, bind, get, modify, ret. cbn.
    match goal with
    | |- context [close_consoles_loop ns ?ts' ?nm' ?w1] =>
        pose proof (IH ts' nm' w1) as Hi;
        destruct (close_consoles_loop ns ts' nm' w1) as [[w2 l2] r2]
    end.
    cbn in *. rewrite Hi. apply fmap_alter_same. intros x. apply Hf. }
  specialize (Hloop (instances w) [] [] w).
  destruct (close_consoles_loop_spec (instances w) [] [] w)
    as (w1 & E & Ht & Hs & Hi & Hr & Hw & Hc).
  rewrite E in Hloop. cbn in Hloop.
  assert (G : forall o, o = close_consoles sched w ->
                (f <$> nodes (final_state o)) = (f <$> nodes w)
                /\ instances (final_state o) = instances w);
    [|exact (G _ eq_refl)].
  intros o Ho. unfold close_consoles in Ho.
  rewrite (bind_inr _ _ w w [] (instances w)) in Ho by reflexivity.
  rewrite (bind_inr _ _ _ _ _ _ E) in Ho.
  revert Ho. generalize (omap (console_name w) (instances w)). intros names.
  cbn [app].
  destruct (seq (length (tasks w)) (length (omap (console_of w) (instances w))))
    as [|t ts]; cbn [nonempty when].
  - intros ->. cbn. auto.
  - unfold join_names. destruct (all_names names) as [nl|].
    + rewrite (bind_inr _ _ w1 w1 [] (str_join (py " ") nl)) by reflexivity.
      unfold logging at 1.
      rewrite (bind_inr _ _ w1 w1 [_] tt) by reflexivity.
      destruct (run_until_complete_wait_spec (t :: ts) (Some (60 # 1)%Q) sched w1)
        as (w2 & l2 & -> & _ & Hi2 & Hn2 & _).
      intros ->. cbn. rewrite Hn2, Hi2. auto.
    + rewrite (bind_inl _ _ w1 w1 [] TypeError) by reflexivity. intros ->. cbn. auto.
Qed.

Lemma consoles_of_keeps (w w' : world) :
  (ssh_console_session <$> nodes w') = (ssh_console_session <$> nodes w) ->
  instances w' = instances w ->
  consoles_of w' = consoles_of w.
Proof.
  intros Hc Hi. unfold consoles_of. rewrite Hi.
  apply omap_ext_pointwise. intros nid. unfold console_of.
  assert (H : (ssh_console_session <$> nodes w') !! nid
              = (ssh_console_session <$> nodes w) !! nid) by (rewrite Hc; reflexivity).
  rewrite !list_lookup_fmap in H.
  destruct (nodes w' !! nid), (nodes w !! nid); cbn in H; congruence.
Qed.

(** A second [close_consoles] makes a [close()] task for every console
    again. *)
Lemma close_consoles_twice_tasks (w : world) (sched1 sched2 : list action) :
  t_session <$> tasks (final_state (close_consoles sched2
                                      (final_state (close_consoles sched1 w))))
  = (t_session <$> tasks w) ++ consoles_of w ++ consoles_of w.
Proof.
  destruct (close_consoles_keeps_nodes ssh_console_session sched1 w
              (fun _ _ => eq_refl)) as [Hc Hi].
  rewrite close_consoles_tasks, (consoles_of_keeps _ _ Hc Hi), close_consoles_tasks,
    <- app_assoc.
  reflexivity.
Qed.

Lemma bind_skip {St A B} (m : M St A) (k : A -> M St B) s a :
  m s = (s, [], inr a) -> bind m k s = k a s.
Proof.
  intros H. unfold bind. rewrite H. destruct (k a s) as [[s2 l2] r]. reflexivity.
Qed.

Lemma start_scheduled_unfold (w : world) :
  start_scheduled w = for_each (seq 0 (length (tasks w))) start_if_new w.
Proof. exact (bind_skip get _ w w eq_refl). Qed.

Lemma start_if_new_started (w : world) (tid : nat) (t : task) :
  tasks w !! tid = Some t -> not_started t = false ->
  start_if_new tid w = (w, [], inr tt).
Proof.
  intros Ht Hn. unfold start_if_new.
  rewrite (bind_skip get _ w w eq_refl), Ht, Hn. reflexivity.
Qed.

(** The loop has nothing to start for tasks that have had their first
    step. *)
Lemma for_each_started (tids rest : list nat) (w : world) :
  (forall tid, tid ∈ tids ->
     exists t, tasks w !! tid = Some t /\ not_started t = false) ->
  for_each (tids ++ rest) start_if_new w = for_each rest start_if_new w.
Proof.
  induction tids as [|tid tids IH]; intros H; [reflexivity|].
  cbn [app for_each].
  destruct (H tid) as (t & Ht & Hn); [apply elem_of_cons; left; reflexivity|].
  rewrite (bind_skip _ _ w tt (start_if_new_started w tid t Ht Hn)).
  apply IH. intros tid' Hin. apply H. apply elem_of_cons. right. exact Hin.
Qed.

Lemma start_scheduled_new (old new : list task) (w : world) :
  tasks w = old ++ new ->
  Forall (fun t => not_started t = false) old ->
  start_scheduled w = for_each (seq (length old) (length new)) start_if_new w.
Proof.
  intros Ht Hold.
  rewrite start_scheduled_unfold, Ht, length_app, seq_app. cbn [plus].
  apply for_each_started. intros tid Hin.
  apply list_elem_of_In, in_seq in Hin. destruct Hin as [_ Hlt]. cbn in Hlt.
  destruct (lookup_lt_is_Some_2 old tid Hlt) as [t Hl].
  exists t. split.
  - rewrite Ht, lookup_app_l by exact Hlt. exact Hl.
  - exact (proj1 (Forall_lookup _ _) Hold _ _ Hl).
Qed.

Ltac known_calls :=
  repeat match goal with
         | H : (terminate_calls ?p =? _) = true |- _ =>
             apply Nat.eqb_eq in H; destruct p; cbn in H; subst
         end.

Lemma close_prologue_again rt inst sidc nds sA sB t0 t1 t2 t3 np wts ts timeout :
  console_session_ok 1 sA = true ->
  console_session_ok 1 sB = true ->
  Forall (fun t => not_started t = false) [t0; t1; t2; t3] ->
  consoles_running 2
    (final_state
       (loop_prologue ts timeout
          (mkWorld rt inst sidc nds [sA; sB]
             [t0; t1; t2; t3; close_task 0; close_task 1] np wts)))
  /\ length
       (sessions
          (final_state
             (loop_prologue ts timeout
                (mkWorld rt inst sidc nds [sA; sB]
                   [t0; t1; t2; t3; close_task 0; close_task 1] np wts)))) = 2.
Proof.
  intros HA HB Hold.
  assert (E : forall w, tasks w = [t0; t1; t2; t3] ++ [close_task 0; close_task 1] ->
                final_state (loop_prologue ts timeout w)
                = final_state
                    ((for_each [4; 5] start_if_new;; confirm_launches)
                       (set_waits (waits w ++ [WaitCall ts timeout]) w))).
  { intros w Hw. unfold loop_prologue.
    rewrite (final_bind_inr _ _ w (set_waits (waits w ++ [WaitCall ts timeout]) w) [] tt)
      by reflexivity.
    unfold bind.
    rewrite (start_scheduled_new [t0; t1; t2; t3] [close_task 0; close_task 1]);
      [reflexivity | exact Hw | exact Hold]. }
  rewrite E by reflexivity. clear E.
  pose proof (proj1 (Forall_lookup _ _) Hold 0 t0 eq_refl) as Hn0.
  pose proof (proj1 (Forall_lookup _ _) Hold 1 t1 eq_refl) as Hn1.
  pose proof (proj1 (Forall_lookup _ _) Hold 2 t2 eq_refl) as Hn2.
  pose proof (proj1 (Forall_lookup _ _) Hold 3 t3 eq_refl) as Hn3.
  cbv beta in Hn0, Hn1, Hn2, Hn3. clear Hold.
  open_console_session sA HA. open_console_session sB HB. known_calls.
  destruct cl, cl0; (split; [split|]; vm_compute; repeat constructor; assumption).
Qed.

Lemma close_two_nodes_again (w2 : world) (name1 name2 : pystr) (sched : list action) :
  consoles_running 1 w2 ->
  length (sessions w2) = 2 -> length (tasks w2) = 4 ->
  instances w2 = [0; 1] ->
  (n_name <$> nodes w2) = [Some name1; Some name2] ->
  (ssh_console_session <$> nodes w2) = [Some 0; Some 1] ->
  consoles_running 2 (final_state (close_consoles sched w2))
  /\ length (sessions (final_state (close_consoles sched w2))) = 2.
Proof.
  intros [Hs Ht] Hls Hlt Hi Hnames Hcons.
  destruct (close_consoles_loop_spec (instances w2) [] [] w2)
    as (w3 & E & Ht3 & Hs3 & Hi3 & Hr3 & Hw3 & Hc3).
  destruct (consoles_of_two w2 name1 name2 Hi Hnames Hcons) as [Ho Hn].
  rewrite Ho, Hn, Hlt in E. rewrite Ho in Ht3. cbn [length seq app] in E.
  rewrite (close_consoles_final sched _ _ _ _ _ _ [name1; name2] E eq_refl).
  destruct (sessions w2) as [|sA [|sB [|]]]; try discriminate.
  destruct (tasks w2) as [|t0 [|t1 [|t2 [|t3 [|]]]]]; try discriminate.
  destruct w3 as [rt3 inst3 sidc3 nds3 ss3 tk3 np3 wts3].
  cbn in Ht3, Hs3. subst ss3 tk3.
  inversion Hs as [|? ? HA Hs']. inversion Hs' as [|? ? HB _]. subst.
  destruct (close_prologue_again rt3 inst3 sidc3 nds3 sA sB t0 t1 t2 t3 np3 wts3 [4; 5]
              (Some (60 # 1)%Q) HA HB Ht) as [Hrun Hlen].
  cbn [fmap list_fmap app] in *.
  set (w4 := final_state (loop_prologue _ _ _)) in *.
  split.
  - apply consoles_running_schedule. exact Hrun.
  - destruct (quiet_for_each sched do_action quiet_do_action w4) as [_ Hq].
    destruct Hq as [_ _ _ _ _ Hss _]. rewrite Hss. exact Hlen.
Qed.

Lemma console_ok_terminate_counts tc s :
  console_session_ok tc s = true -> terminate_counts s = [tc].
Proof.
  intros H. open_console_session s H.
  match goal with H : (terminate_calls _ =? tc) = true |- _ =>
    apply Nat.eqb_eq in H end.
  unfold terminate_counts. cbn. subst tc. reflexivity.
Qed.

Lemma consoles_running_terminate_counts tc w :
  consoles_running tc w -> length (sessions w) = 2 ->
  terminate_counts <$> sessions w = [[tc]; [tc]].
Proof.
  intros [Hs _] Hl.
  destruct (sessions w) as [|sA [|sB [|]]]; try discriminate.
  inversion Hs as [|? ? HA Hs']. inversion Hs' as [|? ? HB _]. subst.
  cbn. rewrite (console_ok_terminate_counts tc sA HA), (console_ok_terminate_counts tc sB HB).
  reflexivity.
Qed.

Lemma open_close_close (w1 : world) (name1 name2 : pystr) (sched2 sched3 : list action) :
  consoles_running 0 w1 ->
  length (sessions w1) = 2 -> length (tasks w1) = 2 ->
  instances w1 = [0; 1] ->
  (n_name <$> nodes w1) = [Some name1; Some name2] ->
  (ssh_console_session <$> nodes w1) = [Some 0; Some 1] ->
  terminate_counts <$> sessions (final_state (close_consoles sched2 w1)) = [[1]; [1]]
  /\ terminate_counts
       <$> sessions (final_state (close_consoles sched3
                                    (final_state (close_consoles sched2 w1))))
     = [[2]; [2]]
  /\ length (tasks (final_state (close_consoles sched3
                                   (final_state (close_consoles sched2 w1))))) = 6
  /\ processes_started (final_state (close_consoles sched3
                                       (final_state (close_consoles sched2 w1)))) = 2.
Proof.
  intros Hrun Hls Hlt Hi Hn Hc.
  destruct (close_two_nodes w1 name1 name2 sched2 Hrun Hls Hlt Hi Hn Hc) as [Hrun2 Hls2].
  destruct (close_consoles_keeps_nodes ssh_console_session sched2 w1 (fun _ _ => eq_refl))
    as [Hc2 Hi2].
  destruct (close_consoles_keeps_nodes n_name sched2 w1 (fun _ _ => eq_refl)) as [Hn2 _].
  destruct (consoles_of_two w1 name1 name2 Hi Hn Hc) as [Ho _].
  assert (Ht2 : length (tasks (final_state (close_consoles sched2 w1))) = 4).
  { rewrite <- (length_fmap t_session), close_consoles_tasks, length_app, length_fmap, Hlt.
    unfold consoles_of. rewrite Ho. reflexivity. }
  assert (Ht3 : length (tasks (final_state (close_consoles sched3
                                  (final_state (close_consoles sched2 w1))))) = 6).
  { rewrite <- (length_fmap t_session), close_consoles_twice_tasks, !length_app,
      length_fmap, Hlt.
    unfold consoles_of. rewrite Ho. reflexivity. }
  rewrite Hc in Hc2. rewrite Hn in Hn2. rewrite Hi in Hi2.
  revert Hrun2 Hls2 Hc2 Hi2 Hn2 Ht2 Ht3.
  generalize (final_state (close_consoles sched2 w1)).
  intros w2 Hrun2 Hls2 Hc2 Hi2 Hn2 Ht2 Ht3.
  destruct (close_two_nodes_again w2 name1 name2 sched3 Hrun2 Hls2 Ht2 Hi2 Hn2 Hc2)
    as [Hrun3 Hls3].
  destruct (consoles_running_counts 2 _ Hrun3) as [Hs3 _].
  split; [exact (consoles_running_terminate_counts 1 w2 Hrun2 Hls2)|].
  split; [exact (consoles_running_terminate_counts 2 _ Hrun3 Hls3)|].
  split; [exact Ht3|].
  rewrite Hs3. exact Hls3.
Qed.

(** C7: [open_consoles] run again on the world an [open_consoles] call
    that returned has left changes nothing: no session, no task, no
    process, no log record; [close_consoles] makes a [close()] task for the
    console session of each registered node that has one, in the order of
    the nodes, and no other task; with two named nodes registered, an open
    starts two child processes and terminates none, a second open starts no
    further one, and a close after the open terminates both and starts
    none, whatever the loop does while it is run.  With two nodes made with
    the default [name=None], however, [open_consoles] raises [TypeError]
    and starts no child process, and the [close_consoles] after it
    terminates none: the count is 0 and 0, not 2 and 2.  And
    [close_consoles] is not idempotent: a node keeps its
    [ssh_console_session] when it is closed, so a second [close_consoles]
    makes a [close()] task for every console again, and with two named
    nodes [terminate()] has then been called twice on each of the two
    child processes. *)
Theorem consoles_open_close :
  (forall (w : world) (sched1 sched2 : list action),
      outcome (open_consoles sched1 w) = inr tt ->
      open_consoles sched2 (final_state (open_consoles sched1 w))
      = (final_state (open_consoles sched1 w), [], inr tt))
  /\ (forall (w : world) (sched : list action),
        t_session <$> tasks (final_state (close_consoles sched w))
        = (t_session <$> tasks w) ++ consoles_of w)
  /\ (forall (name1 name2 : pystr) (ip1 ip2 dev1 dev2 : option pystr)
             (speedups1 speedups2 : bool) (sched1 sched1' sched2 : list action),
        let w0 := two_nodes name1 name2 ip1 ip2 dev1 dev2 speedups1 speedups2 in
        let w1 := final_state (open_consoles sched1 w0) in
        let w1' := final_state (open_consoles sched1' w1) in
        let w2 := final_state (close_consoles sched2 w1) in
        processes_started w0 = 0
        /\ processes_started w1 = 2 /\ processes_terminated w1 = 0
        /\ processes_started w1' = 2
        /\ processes_started w2 = 2 /\ processes_terminated w2 = 2)
  /\ (forall (ip1 ip2 dev1 dev2 : option pystr) (speedups1 speedups2 : bool)
             (sched1 sched2 : list action),
        let w0 := two_unnamed_nodes ip1 ip2 dev1 dev2 speedups1 speedups2 in
        let w1 := final_state (open_consoles sched1 w0) in
        let w2 := final_state (close_consoles sched2 w1) in
        outcome (open_consoles sched1 w0) = inl TypeError
        /\ processes_started w1 = 0
        /\ outcome (close_consoles sched2 w1) = inr tt
        /\ processes_started w2 = 0 /\ processes_terminated w2 = 0)
  /\ (forall (w : world) (sched1 sched2 : list action),
        t_session <$> tasks (final_state (close_consoles sched2
                                            (final_state (close_consoles sched1 w))))
        = (t_session <$> tasks w) ++ consoles_of w ++ consoles_of w)
  /\ (forall (name1 name2 : pystr) (ip1 ip2 dev1 dev2 : option pystr)
             (speedups1 speedups2 : bool) (sched1 sched2 sched3 : list action),
        let w0 := two_nodes name1 name2 ip1 ip2 dev1 dev2 speedups1 speedups2 in
        let w1 := final_state (open_consoles sched1 w0) in
        let w2 := final_state (close_consoles sched2 w1) in
        let w3 := final_state (close_consoles sched3 w2) in
        terminate_counts <$> sessions w2 = [[1]; [1]]
        /\ terminate_counts <$> sessions w3 = [[2]; [2]]
        /\ length (tasks w3) = 6
        /\ processes_started w3 = 2).
Proof.
  split; [exact open_consoles_idempotent|].
  split; [intros w sched; apply close_consoles_tasks|].
  split.
  { intros name1 name2 ip1 ip2 dev1 dev2 sp1 sp2 sched1 sched1' sched2.
    cbv zeta.
    pose proof (open_two_nodes name1 name2 ip1 ip2 dev1 dev2 sp1 sp2 sched1) as H.
    cbv zeta in H.
    pose proof (two_nodes_empty name1 name2 ip1 ip2 dev1 dev2 sp1 sp2) as H0.
    revert H H0.
    generalize (two_nodes name1 name2 ip1 ip2 dev1 dev2 sp1 sp2). intros w0 H H0.
    destruct H as (Hok & Hrun & Hls & Hlt & Hi & Hn & Hc).
    rewrite (open_consoles_twice w0 sched1 sched1' Hok).
    revert Hok Hrun Hls Hlt Hi Hn Hc.
    generalize (final_state (open_consoles sched1 w0)).
    intros w1 Hok Hrun Hls Hlt Hi Hn Hc.
    destruct (open_close_counts w1 name1 name2 sched2 Hrun Hls Hlt Hi Hn Hc)
      as (Ha & Hb & Hd & He).
    repeat split; assumption. }
  split.
  { intros ip1 ip2 dev1 dev2 sp1 sp2 sched1 sched2. cbv zeta.
    exact (unnamed_nodes_consoles ip1 ip2 dev1 dev2 sp1 sp2 sched1 sched2). }
  split; [exact close_consoles_twice_tasks|].
  intros name1 name2 ip1 ip2 dev1 dev2 sp1 sp2 sched1 sched2 sched3.
  cbv zeta.
  pose proof (open_two_nodes name1 name2 ip1 ip2 dev1 dev2 sp1 sp2 sched1) as H.
  cbv zeta in H.
  revert H.
  generalize (two_nodes name1 name2 ip1 ip2 dev1 dev2 sp1 sp2). intros w0 H.
  destruct H as (_ & Hrun & Hls & Hlt & Hi & Hn & Hc).
  revert Hrun Hls Hlt Hi Hn Hc.
  generalize (final_state (open_consoles sched1 w0)).
  intros w1 Hrun Hls Hlt Hi Hn Hc.
  exact (open_close_close w1 name1 name2 sched2 sched3 Hrun Hls Hlt Hi Hn Hc).
Qed.


(** ** Further properties *)

Lemma run_all_commands_clears_witness :
  let w := final_state
             (rexec 0 (Some (py "pwd")) true (Some DEFAULT_IO_TIMEOUT)
                (Some DEFAULT_CMD_TIMEOUT) (Some DEFAULT_CONNECT_TIMEOUT) []
                example_world) in
  truthy_str None = false
  /\ exists w' l,
       run_all_commands (Some (5 # 1)%Q) None (Some (py "done")) [Step 0] w = (w', l, inr tt)
       /\ rexec_tasks w' = []
       /\ nodes w' = nodes w
       /\ waits w' = if nonempty (rexec_tasks w)
                     then waits w ++ [WaitCall (rexec_tasks w) (Some (5 # 1)%Q)]
                     else waits w.
Proof.
  intros w. split; [reflexivity|].
  apply (run_all_commands_clears (Some (5 # 1)%Q) None (Some (py "done")) [Step 0] w).
  reflexivity.
Defined.

(** *** [rexec] *)

(** X2: [rexec] with [ASYNC=True] returns the new task at once: the task
    is the last entry of [ssh_node.rexec_tasks] and of the node's
    [my_tasks], it has not started ([post_cmd] with the command and the two
    timeouts, without ssh speedups), its session is new, closed, without a
    child process, and belongs to the node; the session counter goes up by
    one; the loop is not run and nothing is logged. *)
Theorem rexec_async_returns_task (w : world) (self_ : nat) (n : ssh_node)
    (cmd_ : option pystr) (io cmdt ct : option Q) (sched : list action) :
  nodes w !! self_ = Some n ->
  let o := rexec self_ cmd_ true io cmdt ct sched w in
  let t := length (tasks w) in
  let sid := length (sessions w) in
  outcome o = inr (VTask t)
  /\ emitted o = []
  /\ rexec_tasks (final_state o) = rexec_tasks w ++ [t]
  /\ (my_tasks <$> nodes (final_state o) !! self_) = Some (my_tasks n ++ [t])
  /\ tasks (final_state o)
     = tasks w ++ [Task sid (Pending (post_cmd_start cmd_ io cmdt false))]
  /\ (exists s, sessions (final_state o) = sessions w ++ [s]
                /\ closed s = true /\ children s = [] /\ node s = Some self_
                /\ CONNECT_TIMEOUT s = ct /\ control_master s = false)
  /\ sessionid (final_state o) = (sessionid w + 1)%Z
  /\ waits (final_state o) = waits w.
Proof.
  intros Hn o t sid. subst o t sid.
  unfold rexec, new_session, ssh_session_init, ensure_future, update_node.
  unfold bind, get, gets, modify, ret. rewrite Hn. cbn.
  repeat split.
  - rewrite list_lookup_alter_eq, Hn. reflexivity.
  - eexists. repeat split.
Qed.

Lemma rexec_async_returns_task_witness :
  let n := mkNode (Some (py "10.0.0.1")) (Some (py "node1")) [] None
             (py "/tmp/controlmasters_10.0.0.1") true None None in
  let o := rexec 0 (Some (py "pwd")) true (Some DEFAULT_IO_TIMEOUT)
             (Some DEFAULT_CMD_TIMEOUT) (Some DEFAULT_CONNECT_TIMEOUT) [] example_world in
  nodes example_world !! 0 = Some n
  /\ outcome o = inr (VTask 0)
  /\ rexec_tasks (final_state o) = [0]
  /\ processes_started (final_state o) = 0.
Proof.
  intros n o.
  assert (Hn : nodes example_world !! 0 = Some n) by (vm_compute; reflexivity).
  split; [exact Hn|].
  destruct (rexec_async_returns_task example_world 0 n (Some (py "pwd"))
              (Some DEFAULT_IO_TIMEOUT) (Some DEFAULT_CMD_TIMEOUT)
              (Some DEFAULT_CONNECT_TIMEOUT) [] Hn) as (H1 & _ & H3 & _).
  split; [exact H1|]. split; [exact H3|]. vm_compute. reflexivity.
Defined.

(** X3: a synchronous [rexec] whose task has ended when the join returns
    hands back what the task produced: the value [post_cmd] returned, or
    the exception that ended it, raised again; in both cases the task is
    gone from [ssh_node.rexec_tasks] and from the node's [my_tasks]. *)
Theorem rexec_returns_task_result (w : world) (self_ : nat) (n : ssh_node)
    (cmd_ : option pystr) (io cmdt ct : option Q) (sched : list action) :
  nodes w !! self_ = Some n ->
  fresh_task_refs w = true ->
  let o := rexec self_ cmd_ false io cmdt ct sched w in
  (forall sid v, tasks (final_state o) !! length (tasks w) = Some (Task sid (Done v)) ->
                 outcome o = inr v)
  /\ (forall sid e, tasks (final_state o) !! length (tasks w) = Some (Task sid (Failed e)) ->
                    outcome o = inl e)
  /\ rexec_tasks (final_state o) = rexec_tasks w
  /\ (my_tasks <$> nodes (final_state o) !! self_) = Some (my_tasks n).
Proof.
  intros Hn Hfresh o.
  destruct (rexec_sync_spec w self_ n cmd_ io cmdt ct sched Hn Hfresh)
    as (w2 & l & E & Hno & Hw).
  subst o. rewrite E. cbn.
  split; [|split; [|split]].
  - intros sid v Ht. rewrite Ht. reflexivity.
  - intros sid e Ht. rewrite Ht. reflexivity.
  - reflexivity.
  - rewrite Hno, list_lookup_alter_eq, list_lookup_alter_eq, Hn. reflexivity.
Qed.

Lemma rexec_returns_task_result_witness :
  let n := mkNode (Some (py "10.0.0.1")) (Some (py "node1")) [] None
             (py "/tmp/controlmasters_10.0.0.1") true None None in
  let o := rexec 0 (Some (py "pwd")) false (Some DEFAULT_IO_TIMEOUT)
             (Some DEFAULT_CMD_TIMEOUT) (Some DEFAULT_CONNECT_TIMEOUT) example_schedule
             example_world in
  nodes example_world !! 0 = Some n
  /\ fresh_task_refs example_world = true
  /\ tasks (final_state o) !! 0 = Some (Task 0 (Done (VBytearray 0)))
  /\ outcome o = inr (VBytearray 0)
  /\ (results <$> sessions (final_state o)) = [bytes_of "/root" ++ [x0a]].
Proof.
  intros n o.
  assert (Hn : nodes example_world !! 0 = Some n) by (vm_compute; reflexivity).
  assert (Ht : tasks (final_state o) !! 0 = Some (Task 0 (Done (VBytearray 0))))
    by (vm_compute; reflexivity).
  split; [exact Hn|]. split; [reflexivity|]. split; [exact Ht|]. split.
  - exact (proj1 (rexec_returns_task_result example_world 0 n (Some (py "pwd"))
                    (Some DEFAULT_IO_TIMEOUT) (Some DEFAULT_CMD_TIMEOUT)
                    (Some DEFAULT_CONNECT_TIMEOUT) example_schedule Hn eq_refl)
             0 (VBytearray 0) Ht).
  - vm_compute. reflexivity.
Defined.

(** *** [wl] and [wl_async] *)

Lemma run_after_get {St A} (x : St * list log_record * result A) :
  (let (p, r) := x in let (s2, l2) := p in (s2, [] ++ l2, r)) = x.
Proof. destruct x as [[s2 l2] r]. reflexivity. Qed.

Lemma wl_posts_rexec (w : world) (self_ : nat) (n : ssh_node) (cmd_ : pystr)
    (ASYNC : bool) (sched : list action) :
  nodes w !! self_ = Some n ->
  wl self_ cmd_ ASYNC sched w
  = rexec self_ (Some (wl_command n cmd_)) ASYNC (Some DEFAULT_IO_TIMEOUT)
      (Some DEFAULT_CMD_TIMEOUT) (Some DEFAULT_CONNECT_TIMEOUT) sched w.
Proof.
  intros Hn. unfold wl. unfold bind at 1. unfold get at 1. rewrite Hn.
  unfold wl_command. destruct (device n) as [[|c dev]|]; cbv [truthy_str];
    unfold str_of_opt;
    apply run_after_get.
Qed.

(** X4: [wl_async] is [wl] with [ASYNC=False]: it runs the bounded join
    before it returns.  With [ASYNC=True], [wl] posts
    ['/usr/bin/wl -i <device> <cmd>'] for a node with a device and
    ['/usr/bin/wl <cmd>'] for one without (or with an empty device), with
    the default io, command and connect timeouts. *)
Theorem wl_async_is_synchronous (w : world) (self_ : nat) (cmd_ : pystr)
    (sched : list action) :
  wl_async self_ cmd_ sched w = wl self_ cmd_ false sched w
  /\ (forall n, nodes w !! self_ = Some n ->
        fresh_task_refs w = true ->
        waits (final_state (wl_async self_ cmd_ sched w))
        = waits w ++ [WaitCall [length (tasks w)] (Some (10 # 1)%Q)])
  /\ (forall n, nodes w !! self_ = Some n ->
        outcome (wl self_ cmd_ true sched w) = inr (VTask (length (tasks w)))
        /\ tasks (final_state (wl self_ cmd_ true sched w))
           = tasks w ++ [Task (length (sessions w))
                           (Pending (post_cmd_start (Some (wl_command n cmd_))
                                       (Some DEFAULT_IO_TIMEOUT)
                                       (Some DEFAULT_CMD_TIMEOUT) false))]
        /\ (CONNECT_TIMEOUT <$> sessions (final_state (wl self_ cmd_ true sched w))
              !! length (sessions w))
           = Some (Some DEFAULT_CONNECT_TIMEOUT)).
Proof.
  split; [reflexivity|]. split.
  - intros n Hn Hfresh.
    replace (wl_async self_ cmd_ sched w) with (wl self_ cmd_ false sched w)
      by reflexivity.
    rewrite (wl_posts_rexec w self_ n cmd_ false sched Hn).
    destruct (rexec_sync_spec w self_ n (Some (wl_command n cmd_))
                (Some DEFAULT_IO_TIMEOUT) (Some DEFAULT_CMD_TIMEOUT)
                (Some DEFAULT_CONNECT_TIMEOUT) sched Hn Hfresh)
      as (w2 & l & E & Hno & Hw).
    rewrite E. cbn. exact Hw.
  - intros n Hn. rewrite (wl_posts_rexec w self_ n cmd_ true sched Hn).
    destruct (rexec_async_returns_task w self_ n (Some (wl_command n cmd_))
                (Some DEFAULT_IO_TIMEOUT) (Some DEFAULT_CMD_TIMEOUT)
                (Some DEFAULT_CONNECT_TIMEOUT) sched Hn)
      as (H1 & _ & _ & _ & H5 & (s & H6 & _ & _ & _ & H7 & _) & _).
    rewrite H1, H5, H6. repeat split.
    rewrite lookup_app_r, Nat.sub_diag by lia. cbn. rewrite H7. reflexivity.
Qed.

Lemma wl_async_is_synchronous_witness :
  let n := mkNode (Some (py "10.0.0.1")) (Some (py "node1")) [] None
             (py "/tmp/controlmasters_10.0.0.1") true None None in
  nodes example_world !! 0 = Some n
  /\ fresh_task_refs example_world = true
  /\ waits (final_state (wl_async 0 (py "status") example_schedule example_world))
     = [WaitCall [0] (Some (10 # 1)%Q)].
Proof.
  intros n.
  assert (Hn : nodes example_world !! 0 = Some n) by (vm_compute; reflexivity).
  split; [exact Hn|]. split; [reflexivity|].
  exact (proj1 (proj2 (wl_async_is_synchronous example_world 0 (py "status")
                         example_schedule)) n Hn eq_refl).
Defined.

(** *** The bytes of a command's output *)

Ltac finish_results :=
  try (repeat absurd_some; fail);
  cbn; rewrite ?app_nil_r; reflexivity.

Lemma results_step made oe o1 o2 s ev :
  lifecycle made oe o1 o2 s ->
  allowed made ev = true ->
  results (final_state (deliver ev s)) = results s ++ data_of ev.
Proof.
  intros [(p & Hp & He & H1 & H2 & Hm & Hc) Hcl Hch] Hall.
  destruct ev; cbn in Hall.
  - apply negb_true_iff in Hall; subst made.
    open_session s p.
    destruct ch; [congruence|].
    crunch; finish_results.
  - subst made. open_session s p. crunch; finish_results.
  - subst made. open_session s p. crunch; finish_results.
  - subst made. open_session s p. crunch; finish_results.
  - subst made. open_session s p. crunch; finish_results.
  - open_session s p. crunch; finish_results.
Qed.

Lemma results_run evs : forall made oe o1 o2 s,
  lifecycle made oe o1 o2 s ->
  contract made evs = true ->
  results (deliver_all evs s) = results s ++ received evs.
Proof.
  induction evs as [|ev evs IH]; intros made oe o1 o2 s Hl Hc.
  - cbn. rewrite app_nil_r. reflexivity.
  - cbn [contract] in Hc. apply andb_true_iff in Hc as [Ha Hc].
    rewrite deliver_all_cons.
    rewrite (IH _ _ _ _ _ (lifecycle_step _ _ _ _ _ _ Hl Ha) Hc).
    rewrite (results_step _ _ _ _ _ _ Hl Ha).
    unfold received. cbn [List.map List.concat]. rewrite <- !List.app_assoc. reflexivity.
Qed.

Lemma results_launch s sshcmd newpid : results (launch sshcmd newpid s) = results s.
Proof.
  destruct s as [? ? ? ? ? ? ? ? ? ct ? ? ? ? ? ? ? ? ? ? ?].
  destruct ct; reflexivity.
Qed.

(** X5: what [results] holds after any run of a launched session is what
    it held at the launch followed by every chunk received on stdout and
    stderr, in the order of arrival: nothing is dropped, reordered or
    decoded, and a session object that is used again keeps the output of
    its earlier commands. *)
Theorem results_are_received_bytes (s : ssh_session) (sshcmd : list pystr)
    (newpid : Z) (evs : list event) :
  transport_contract evs = true ->
  results (deliver_all evs (launch sshcmd newpid s)) = results s ++ received evs.
Proof.
  intros Hc.
  rewrite (results_run _ _ _ _ _ _ (lifecycle_launch s sshcmd newpid) Hc).
  rewrite results_launch. reflexivity.
Qed.

Lemma results_are_received_bytes_witness :
  transport_contract example_events = true
  /\ results (deliver_all example_events (launch [py "ssh"] 7 example_session))
     = bytes_of "abwarnc".
Proof.
  split; [reflexivity|].
  exact (eq_trans
           (results_are_received_bytes example_session [py "ssh"] 7 example_events eq_refl)
           eq_refl).
Defined.

(** X6: a chunk that is not valid UTF-8 on its own (a multi-byte character
    cut by the pipe, say) makes [pipe_data_received] raise
    [UnicodeDecodeError]: the chunk has been added to [results] all the
    same, but no line is logged, both line buffers are as before, the io
    watchdog has been cancelled and no new one is armed. *)
Theorem undecodable_chunk (s : ssh_session) (p : SSHReaderProtocol) (fd : Z)
    (data : list byte) :
  protocol s = Some p ->
  (is_Some (IO_TIMEOUT s) -> is_Some (iowatchdog p)) ->
  decode_utf8 data = None ->
  let o := feed fd data s in
  outcome o = inl UnicodeDecodeError
  /\ results (final_state o) = results s ++ data
  /\ lines_logged o = []
  /\ (forall fd', pending_partial fd' (final_state o) = stream_buffer fd' p)
  /\ timers (final_state o)
     = match IO_TIMEOUT s, iowatchdog p with
       | Some _, Some h => alter cancel_timer h (timers s)
       | _, _ => timers s
       end.
Proof.
  intros Hp Hwd Hdec o. subst o.
  open_session s p.
  unfold feed, lines_logged, emitted, outcome, pending_partial.
  unfold_methods. cbn.
  destruct io, iowd, dbg; cbn; rewrite ?Hdec; cbn; try (repeat absurd_some; fail).
  all: repeat split.
Qed.

Lemma undecodable_chunk_witness :
  let s := deliver_all [ConnectionMade] (launch [py "ssh"] 7 example_session) in
  let p := mkProtocol false false false (Some 7%Z) [] [] false (Some 2) (Some 1) false
             (Some 0) in
  let o := feed 1 [xc3] s in
  protocol s = Some p
  /\ (is_Some (IO_TIMEOUT s) -> is_Some (iowatchdog p))
  /\ decode_utf8 [xc3] = None
  /\ outcome o = inl UnicodeDecodeError
  /\ results (final_state o) = [xc3]
  /\ active_count IoWatchdog (final_state o) = 0.
Proof.
  intros s p o.
  split; [reflexivity|]. split; [intros _; eexists; reflexivity|].
  split; [reflexivity|].
  destruct (undecodable_chunk s p 1 [xc3] eq_refl (fun _ => ex_intro _ 1 eq_refl) eq_refl)
    as (H1 & H2 & _).
  split; [exact H1|]. split; [exact H2|]. vm_compute. reflexivity.
Defined.

(** *** Cancelling the watchdogs *)

Lemma armed_alter f h ct io cm tm :
  (forall x, is_pending (f x) = false) ->
  armed ct io cm tm -> armed ct io cm (alter f h tm).
Proof.
  intros Hf H i t Hl Hp. destruct (lookup_alter_pending _ _ _ _ _ Hf Hl Hp) as [Hl' _].
  exact (H i t Hl' Hp).
Qed.

Lemma armed_cancel h ct io cm tm :
  armed ct io cm tm -> armed ct io cm (alter cancel_timer h tm).
Proof. apply armed_alter, is_pending_cancel. Qed.

Lemma armed_fire h ct io cm tm :
  armed ct io cm tm -> armed ct io cm (alter fire_timer h tm).
Proof. apply armed_alter, is_pending_fire. Qed.

Lemma armed_io ct d0 cm d tm :
  armed ct (Some d0) cm tm ->
  armed ct (Some d0) cm (tm ++ [Timer IoWatchdog d TimerPending]).
Proof.
  intros H i t Hl Hp. apply lookup_snoc_pending in Hl as [Hl|[-> ->]];
    [exact (H i t Hl Hp)|].
  cbn. eexists. reflexivity.
Qed.

Lemma armed_cmd ct io d0 d tm :
  armed ct io (Some d0) tm ->
  armed ct io (Some d0) (tm ++ [Timer CmdWatchdog d TimerPending]).
Proof.
  intros H i t Hl Hp. apply lookup_snoc_pending in Hl as [Hl|[-> ->]];
    [exact (H i t Hl Hp)|].
  cbn. eexists. reflexivity.
Qed.

Create HintDb armed_db.
#[local] Hint Resolve armed_cancel armed_fire armed_io armed_cmd : armed_db.

Lemma armed_step s ev :
  armed_only_if_set s -> armed_only_if_set (final_state (deliver ev s)).
Proof.
  unfold armed_only_if_set. intros H.
  destruct s as [? ? ? ? ? ? ? ? ? ct io cm ? ? ? ? ? ? pr tm ch].
  cbn in H.
  destruct pr as [p|]; [|destruct ev; crunch; eauto with armed_db].
  destruct p as [? ? ? ? ? ? dbg wd iowd ? ?].
  destruct ev; crunch; eauto 6 with armed_db.
Qed.

Lemma armed_run evs : forall s,
  armed_only_if_set s -> armed_only_if_set (deliver_all evs s).
Proof.
  induction evs as [|ev evs IH]; intros s H; [exact H|].
  rewrite deliver_all_cons. apply IH, armed_step, H.
Qed.

Lemma armed_launch s sshcmd newpid :
  idle_timers s = true -> armed_only_if_set (launch sshcmd newpid s).
Proof.
  intros Hidle. apply idle_none_pending in Hidle.
  unfold armed_only_if_set, launch, subprocess_exec, SSHReaderProtocol_init.
  destruct s as [? ? ? ? ? ? ? ? ? ct io cm ? ? ? ? ? ? pr tm ch].
  cbn in Hidle. destruct ct; cbn; intros i t Hl Hp.
  - apply lookup_snoc_pending in Hl as [Hl|[-> ->]]; [|cbn; eexists; reflexivity].
    rewrite (Hidle i t Hl) in Hp. discriminate.
  - rewrite (Hidle i t Hl) in Hp. discriminate.
Qed.

Lemma active_true k t : active k t = true -> is_pending t = true /\ th_kind t = k.
Proof.
  unfold active. intros H. apply andb_true_iff in H as [Hp Hk].
  split; [exact Hp|]. destruct k, (th_kind t); try discriminate; reflexivity.
Qed.

Lemma count_zero k tm :
  no_pending_of k tm -> length (List.filter (active k) tm) = 0.
Proof.
  induction tm as [|a tm IH]; intros H; [reflexivity|].
  cbn. destruct (active k a) eqn:E.
  - exfalso. apply active_true in E as [Hp Hk]. exact (H 0 a eq_refl Hp Hk).
  - apply IH. intros i t Hl Hp. exact (H (S i) t Hl Hp).
Qed.

Lemma no_connect_once_made ct wd iowd tm :
  timers_ok true ct wd iowd tm -> no_pending_of ConnectWatchdog tm.
Proof.
  intros H i t Hl Hp Hk. specialize (H i t Hl Hp). rewrite Hk in H.
  destruct H as (_ & H & _). discriminate.
Qed.

Lemma no_cmd_after_cancel made ct h iowd tm :
  timers_ok made ct (Some h) iowd tm ->
  no_pending_of CmdWatchdog (alter cancel_timer h tm).
Proof.
  intros H i t Hl Hp Hk.
  destruct (lookup_alter_pending _ _ _ _ _ is_pending_cancel Hl Hp) as [Hl' Hne].
  specialize (H i t Hl' Hp). rewrite Hk in H. destruct H. congruence.
Qed.

Lemma no_cmd_without_attr made ct iowd tm :
  timers_ok made ct None iowd tm -> no_pending_of CmdWatchdog tm.
Proof.
  intros H i t Hl Hp Hk. specialize (H i t Hl Hp). rewrite Hk in H.
  destruct H. discriminate.
Qed.

Lemma no_cmd_without_timeout ct io tm :
  armed ct io None tm -> no_pending_of CmdWatchdog tm.
Proof.
  intros H i t Hl Hp Hk. specialize (H i t Hl Hp). rewrite Hk in H.
  destruct H. discriminate.
Qed.

Lemma no_io_after_cancel made ct wd h tm :
  timers_ok made ct wd (Some h) tm ->
  no_pending_of IoWatchdog (alter cancel_timer h tm).
Proof. intros H. exact (cancel_io _ _ _ _ _ H). Qed.

Lemma no_io_without_attr made ct wd tm :
  timers_ok made ct wd None tm -> no_pending_of IoWatchdog tm.
Proof.
  intros H i t Hl Hp Hk. specialize (H i t Hl Hp). rewrite Hk in H.
  destruct H. discriminate.
Qed.

Lemma no_io_without_timeout ct cm tm :
  armed ct None cm tm -> no_pending_of IoWatchdog tm.
Proof.
  intros H i t Hl Hp Hk. specialize (H i t Hl Hp). rewrite Hk in H.
  destruct H. discriminate.
Qed.

#[local] Hint Resolve no_cmd_after_cancel no_cmd_without_attr no_cmd_without_timeout
  no_io_after_cancel no_io_without_attr no_io_without_timeout : armed_db.

Lemma exited_cancels_cmd s :
  watchdogs_ok true s -> armed_only_if_set s ->
  active_count CmdWatchdog (final_state (deliver ProcessExited s)) = 0.
Proof.
  intros [(p & Hp & Hok) Hch] Ha. unfold armed_only_if_set in Ha. unfold active_count.
  open_session s p. crunch; apply count_zero; eauto with armed_db.
Qed.

Lemma pipe_lost_cancels_io s fd exc :
  watchdogs_ok true s -> armed_only_if_set s ->
  active_count IoWatchdog (final_state (deliver (PipeConnectionLost fd exc) s)) = 0.
Proof.
  intros [(p & Hp & Hok) Hch] Ha. unfold armed_only_if_set in Ha. unfold active_count.
  open_session s p. crunch; apply count_zero; eauto with armed_db.
Qed.

(** X7: on a launched session that started with no pending handle, once
    [connection_made] has been called no connect watchdog is pending any
    more; right after [process_exited] no command watchdog is pending, and
    right after [pipe_connection_lost], for either pipe, no io watchdog is
    pending. *)
Theorem watchdogs_are_cancelled (s : ssh_session) (sshcmd : list pystr) (newpid : Z)
    (evs : list event) :
  idle_timers s = true ->
  transport_contract evs = true ->
  existsb is_connection_made evs = true ->
  let s1 := deliver_all evs (launch sshcmd newpid s) in
  active_count ConnectWatchdog s1 = 0
  /\ active_count CmdWatchdog (final_state (deliver ProcessExited s1)) = 0
  /\ (forall fd exc,
        active_count IoWatchdog (final_state (deliver (PipeConnectionLost fd exc) s1)) = 0).
Proof.
  intros Hidle Hc Hmade s1.
  pose proof (watchdogs_run _ _ _ (watchdogs_launch s sshcmd newpid Hidle) Hc) as Hw.
  rewrite Hmade in Hw. cbn in Hw. fold s1 in Hw.
  pose proof (armed_run evs _ (armed_launch s sshcmd newpid Hidle)) as Ha. fold s1 in Ha.
  clearbody s1.
  split; [|split].
  - destruct Hw as [(p & _ & Hok) _]. unfold active_count.
    apply count_zero. eapply no_connect_once_made, Hok.
  - apply exited_cancels_cmd; assumption.
  - intros fd exc. apply pipe_lost_cancels_io; assumption.
Qed.

Lemma watchdogs_are_cancelled_witness :
  let evs := [ConnectionMade; PipeDataReceived 1 (bytes_of "ab")] in
  let s1 := deliver_all evs (launch [py "ssh"] 7 example_session) in
  idle_timers example_session = true
  /\ transport_contract evs = true
  /\ existsb is_connection_made evs = true
  /\ active_count ConnectWatchdog s1 = 0
  /\ active_count CmdWatchdog s1 = 1
  /\ active_count CmdWatchdog (final_state (deliver ProcessExited s1)) = 0
  /\ active_count IoWatchdog s1 = 1
  /\ (forall fd exc,
        active_count IoWatchdog (final_state (deliver (PipeConnectionLost fd exc) s1)) = 0).
Proof.
  intros evs s1.
  destruct (watchdogs_are_cancelled example_session [py "ssh"] 7 evs eq_refl eq_refl eq_refl)
    as (H1 & H2 & H3).
  repeat split; try reflexivity; assumption.
Defined.

(** *** What a watchdog does when it fires *)

(** X8: on a new session on which [post_cmd] has started a command, a
    watchdog that fires before [connection_made] terminates nothing (the
    child keeps running); after [connection_made], each watchdog that is
    still pending, when it fires, calls [terminate()] on the child once,
    logs one error record and sets [timeout_occurred]; [closed] stays
    clear until the exit and the closures arrive. *)
Theorem watchdog_terminates_once_connected
    (user_ : pystr) (name_ hostname_ : option pystr) (ct : option Q) (cmaster : bool)
    (node_ : option nat) (sid0 next : Z) (s0 : ssh_session)
    (path : option pystr) (newpid : Z) (cmdtext : pystr) (io cmdt : option Q)
    (speedups : bool) :
  ssh_session_init user_ name_ hostname_ ct cmaster node_ sid0 = inr (s0, next) ->
  let s1 := final_state
              (coroutine_step (inr path) newpid
                 (post_cmd_start (Some cmdtext) io cmdt speedups) s0) in
  let s2 := final_state (deliver ConnectionMade s1) in
  (forall h, terminate_counts (final_state (deliver (TimerExpired h) s1)) = [0])
  /\ (forall h t, timers s2 !! h = Some t -> is_pending t = true ->
        let o := deliver (TimerExpired h) s2 in
        terminate_counts (final_state o) = [1]
        /\ (exists msg, emitted o = [LogRecord RootLogger ERROR msg])
        /\ (timeout_occurred <$> protocol (final_state o)) = Some true
        /\ closed (final_state o) = false).
Proof.
  unfold ssh_session_init. intros H.
  destruct cmaster; [destruct name_; [|discriminate]|]; injection H as <- _;
    destruct ct, io, cmdt, speedups; split.
  all: try (intros h; destruct h as [|[|[|h]]]; vm_compute; reflexivity).
  all: intros h t Hl Hp; destruct h as [|[|[|h]]]; vm_compute in Hl;
    try discriminate Hl; injection Hl as <-; vm_compute in Hp; try discriminate Hp;
    vm_compute; repeat split; eexists; reflexivity.
Qed.

Lemma watchdog_terminates_once_connected_witness :
  let s0 := mkSession (Some (py "10.0.0.1")) (Some (py "node1")) (py "root")
              false true false [] None (Some 0) (Some (10 # 1)%Q) None None
              false (py "/usr/bin/ssh") (py "node1(1)") None None false None [] [] in
  let s1 := final_state
              (coroutine_step (inr None) 7
                 (post_cmd_start (Some (py "pwd")) (Some (20 # 1)%Q) (Some (30 # 1)%Q)
                    false) s0) in
  let s2 := final_state (deliver ConnectionMade s1) in
  ssh_session_init (py "root") (Some (py "node1")) (Some (py "10.0.0.1"))
    (Some (10 # 1)%Q) false (Some 0) 1 = inr (s0, 2%Z)
  /\ terminate_counts (final_state (deliver (TimerExpired 0) s1)) = [0]
  /\ timers s2 !! 1 = Some (Timer IoWatchdog (20 # 1)%Q TimerPending)
  /\ terminate_counts (final_state (deliver (TimerExpired 1) s2)) = [1].
Proof.
  intros s0 s1 s2.
  assert (H0 : ssh_session_init (py "root") (Some (py "node1")) (Some (py "10.0.0.1"))
                 (Some (10 # 1)%Q) false (Some 0) 1 = inr (s0, 2%Z))
    by (vm_compute; reflexivity).
  assert (Hl : timers s2 !! 1 = Some (Timer IoWatchdog (20 # 1)%Q TimerPending))
    by (vm_compute; reflexivity).
  destruct (watchdog_terminates_once_connected (py "root") (Some (py "node1"))
              (Some (py "10.0.0.1")) (Some (10 # 1)%Q) false (Some 0) 1 2 s0 None 7
              (py "pwd") (Some (20 # 1)%Q) (Some (30 # 1)%Q) false H0) as [Hb Ha].
  split; [exact H0|]. split; [exact (Hb 0)|]. split; [exact Hl|].
  exact (proj1 (Ha 1 _ Hl eq_refl)).
Defined.

(** *** [post_cmd] *)

(** X9: [post_cmd] called without a command (its default, [cmd=None])
    raises [TypeError] when it joins the command line: by then it has
    bound [cmd] and the two timeouts on the session, but no protocol has
    been built, no child has been spawned and [closed] is as it was. *)
Theorem post_cmd_without_command (s : ssh_session) (path : option pystr) (newpid : Z)
    (io cmdt : option Q) (speedups : bool) :
  let o := coroutine_step (inr path) newpid (post_cmd_start None io cmdt speedups) s in
  outcome o = inl TypeError
  /\ children (final_state o) = children s
  /\ protocol (final_state o) = protocol s
  /\ timers (final_state o) = timers s
  /\ closed (final_state o) = closed s
  /\ cmd (final_state o) = Some None
  /\ IO_TIMEOUT (final_state o) = io /\ CMD_TIMEOUT (final_state o) = cmdt.
Proof.
  destruct s as [? ? ? ? ? ? ? ? ? ? ? ? cmaster ? ? ? ? ? ? ? ?].
  destruct cmaster, speedups; cbn; repeat split.
Qed.

(** *** Attributes that cannot be read *)

(** X10: reading [is_established] never yields a boolean: the getter reads
    [self._exited], which no session has, so with a node the read ends in
    [AttributeError] and without one it yields [None]. *)
Theorem is_established_never_answers (w : world) (sid : nat) (s : ssh_session) :
  ssh_session_getattr w sid s "is_established"
  = if truthy (node s) then inl AttributeError else inr VNone.
Proof.
  unfold ssh_session_getattr, ssh_session___getattr__. cbn.
  destruct (node s) as [nid|]; cbn; [|reflexivity].
  destruct (nodes w !! nid) as [n|]; reflexivity.
Qed.

(** X11: [set_loop] without a loop raises [NameError] (the name [os] is
    not defined in the module) and leaves [ssh_node.loop] as it was; with
    a loop it installs that loop and returns it, whatever was installed
    before. *)
Theorem set_loop_needs_a_loop (cur : option nat) (l l' : nat) :
  set_loop None cur = (cur, [], inl NameError)
  /\ set_loop (Some l) cur = (Some l, [], inr (Some l))
  /\ final_state (set_loop None (final_state (set_loop (Some l) cur))) = Some l
  /\ final_state (set_loop (Some l') (final_state (set_loop (Some l) cur))) = Some l'.
Proof. repeat split. Qed.

(** X12: [close_console] closes nothing: the coroutine it makes from
    [close()] is never run, so the world is as before (no [terminate()],
    no task, no log record), whether or not the node has a console. *)
Theorem close_console_closes_nothing (w : world) (self_ : nat) :
  final_state (close_console self_ w) = w
  /\ emitted (close_console self_ w) = []
  /\ (forall n, nodes w !! self_ = Some n -> outcome (close_console self_ w) = inr tt).
Proof.
  unfold close_console, bind, get, when, ret, raise.
  destruct (nodes w !! self_) as [n|] eqn:E; cbn.
  - destruct (truthy (ssh_console_session n)); cbn; repeat split.
  - repeat split. intros n H. discriminate H.
Qed.

(** *** The command lines of the children *)

Lemma argv_terminate h (ch : list process) :
  argv <$> alter terminate_process h ch = argv <$> ch.
Proof.
  revert h. induction ch as [|c ch IH]; intros h; [reflexivity|].
  destruct h; cbn; [reflexivity|]. f_equal. apply IH.
Qed.

Lemma deliver_keeps_argv s ev :
  argv <$> children (final_state (deliver ev s)) = argv <$> children s.
Proof.
  destruct s as [? ? ? ? ? ? ? ? ? ct io cm ? ? ? ? ? ? pr tm ch].
  destruct pr as [p|]; [|destruct ev; crunch; reflexivity].
  destruct p as [? ? ? ? ? ? dbg wd iowd ? ?].
  destruct ev; crunch; rewrite ?argv_terminate; reflexivity.
Qed.

Lemma resume_keeps_argv cm pid c s :
  resumed c = true ->
  argv <$> children (final_state (coroutine_step cm pid c s)) = argv <$> children s
  /\ next_resumed (outcome (coroutine_step cm pid c s)) = true.
Proof.
  intros Hc. destruct s as [? ? ? ? cl ? ? pipe ? ? ? ? cmaster ? ? ? ? ? pr ? ch].
  destruct c; try discriminate; unfold_coroutine; cbn;
    repeat (break_match; cbn); rewrite ?argv_terminate; auto.
Qed.

Lemma command_lines_insert (w : world) sid s s' :
  sessions w !! sid = Some s ->
  argv <$> children s' = argv <$> children s ->
  command_lines (set_sessions (<[sid := s']> (sessions w)) w) = command_lines w.
Proof.
  intros Es Ha. unfold command_lines. cbn.
  rewrite list_fmap_insert. apply list_insert_id.
  rewrite list_lookup_fmap, Es. cbn. rewrite Ha. reflexivity.
Qed.

Lemma action_keeps_command_lines a w :
  all_started w ->
  command_lines (final_state (do_action a w)) = command_lines w
  /\ all_started (final_state (do_action a w)).
Proof.
  unfold all_started. intros Ht. destruct a as [sid ev|tid]; cbn [do_action].
  - unfold deliver_to. destruct (sessions w !! sid) as [s|] eqn:Es; [|split; auto].
    pose proof (deliver_keeps_argv s ev) as Hd.
    destruct (deliver ev s) as [[s' l] r]. cbn in *.
    split; [|exact Ht]. exact (command_lines_insert w sid s s' Es Hd).
  - unfold step_task.
    destruct (tasks w !! tid) as [[sid [c|v|e]]|] eqn:Et; try (split; auto; fail).
    destruct (sessions w !! sid) as [s|] eqn:Es; [|split; auto].
    pose proof (proj1 (Forall_lookup _ _) Ht _ _ Et) as Hns.
    apply not_started_resumed in Hns.
    destruct (resume_keeps_argv (session_controlmasters w sid s) (next_pid w) c s Hns)
      as [Ha Hnext].
    destruct (coroutine_step _ _ c s) as [[s' l] r]. cbn in *.
    split.
    + unfold command_lines. cbn.
      rewrite list_fmap_insert. apply list_insert_id.
      rewrite list_lookup_fmap, Es. cbn. rewrite Ha. reflexivity.
    + apply Forall_insert; [exact Ht|].
      destruct r as [e|[c'|[]]]; cbn in *; try reflexivity.
      destruct c'; cbn in *; congruence.
Qed.

Lemma schedule_keeps_command_lines sched : forall w,
  all_started w ->
  command_lines (final_state (for_each sched do_action w)) = command_lines w.
Proof.
  induction sched as [|a sched IH]; intros w H; [reflexivity|].
  cbn [for_each]. unfold bind.
  destruct (action_keeps_command_lines a w H) as [Hc Ha].
  destruct (quiet_do_action a w) as [Ho _].
  destruct (do_action a w) as [[w1 l1] r1]. cbn in *. subst r1.
  specialize (IH w1 Ha).
  destruct (for_each sched do_action w1) as [[w2 l2] r2]. cbn in *. congruence.
Qed.

Lemma command_lines_after_join ts timeout sched w :
  all_started (final_state (loop_prologue ts timeout w)) ->
  command_lines (final_state (run_until_complete_wait ts timeout sched w))
  = command_lines (final_state (loop_prologue ts timeout w)).
Proof.
  intros H. destruct (run_until_complete_wait_final ts timeout sched w) as (l & E).
  rewrite E. unfold final_state at 1. cbn [fst].
  apply schedule_keeps_command_lines, H.
Qed.

(** A synchronous [rexec] is the asynchronous one followed by the join and
    the clean-up, which touches the two lists only. *)
Lemma rexec_sync_sessions (w : world) (self_ : nat) (n : ssh_node)
    (cmd_ : option pystr) (io cmdt ct : option Q) (sched : list action) :
  nodes w !! self_ = Some n ->
  sessions (final_state (rexec self_ cmd_ false io cmdt ct sched w))
  = sessions (final_state
                (run_until_complete_wait [length (tasks w)] (Some (10 # 1)%Q) sched
                   (final_state (rexec self_ cmd_ true io cmdt ct sched w)))).
Proof.
  intros Hn.
  unfold rexec, new_session, ssh_session_init, ensure_future, update_node.
  unfold bind, get, gets, modify, ret. rewrite Hn. cbn.
  match goal with
  | |- context [run_until_complete_wait ?ts ?to ?sc ?w1] =>
      destruct (run_until_complete_wait ts to sc w1) as [[w2 l2] [e|[]]]
  end; cbn; [reflexivity|].
  unfold rexec_finally, task_result, update_node, bind, get, gets, modify, ret, raise.
  repeat (break_match; cbn); reflexivity.
Qed.

(** X13: for a node with a name, whatever its [ssh_speedups] flag and its
    device, and whatever the loop does during the join: the child of a
    synchronous [rexec] is started as [/usr/bin/ssh root@<ipaddr> <cmd>],
    without a control path, and the child of the node's console as
    [/usr/bin/ssh -o ControlMaster=yes -o ControlPath=/tmp/controlmasters_<ipaddr>
    root@<ipaddr> dmesg -w]; no other child is started. *)
Theorem command_lines_of_children (name_ : pystr) (ip dev : option pystr)
    (speedups : bool) (cmdtext : pystr) (io cmdt ct : option Q) (sched : list action) :
  let w0 := final_state (ssh_node_init (Some name_) ip false dev speedups empty_world) in
  command_lines (final_state (rexec 0 (Some cmdtext) false io cmdt ct sched w0))
  = [[[py "/usr/bin/ssh"; py "root@" ++ str_of_opt ip; cmdtext]]]
  /\ command_lines (final_state (open_consoles sched w0))
     = [[[py "/usr/bin/ssh"; py "-o ControlMaster=yes";
          py "-o ControlPath=/tmp/controlmasters_" ++ str_of_opt ip;
          py "root@" ++ str_of_opt ip; py "dmesg -w"]]].
Proof.
  intros w0. split.
  - assert (Hn : nodes w0 !! 0
                 = Some (mkNode ip (Some name_) [] dev
                           (py "/tmp/controlmasters_" ++ str_of_opt ip) speedups None None))
      by reflexivity.
    unfold command_lines at 1.
    rewrite (rexec_sync_sessions w0 0 _ (Some cmdtext) io cmdt ct sched Hn).
    fold (command_lines
            (final_state
               (run_until_complete_wait [length (tasks w0)] (Some (10 # 1)%Q) sched
                  (final_state (rexec 0 (Some cmdtext) true io cmdt ct sched w0))))).
    rewrite command_lines_after_join.
    + destruct ip, ct, io, cmdt; vm_compute; reflexivity.
    + destruct ip, ct, io, cmdt; vm_compute; repeat constructor.
  - assert (E : open_consoles_loop (instances w0) [] [] w0
                = (final_state (open_consoles_loop (instances w0) [] [] w0), [],
                   inr ([0], [Some name_]))).
    { apply run_eq; vm_compute; reflexivity. }
    destruct (open_consoles_final sched w0 _ _ _ _ _ [name_] E eq_refl) as (l & Hf).
    rewrite Hf. unfold final_state at 1. cbn [fst].
    rewrite schedule_keeps_command_lines.
    + destruct ip; vm_compute; reflexivity.
    + destruct ip; vm_compute; repeat constructor.
Qed.

(** *** Consoles: a node without a name, and opening after closing *)

Lemma processes_started_new_session (w : world) (s : ssh_session) :
  children s = [] ->
  processes_started (set_sessions (sessions w ++ [s]) w) = processes_started w.
Proof.
  intros H. unfold processes_started. cbn.
  rewrite List.map_app, list_sum_app. cbn. rewrite H. cbn. lia.
Qed.

(** The [for] loop of [open_consoles] does not run the event loop, starts
    no process and leaves the session counter alone. *)
Lemma open_loop_frame ns : forall ts names w,
  waits (final_state (open_consoles_loop ns ts names w)) = waits w
  /\ processes_started (final_state (open_consoles_loop ns ts names w))
     = processes_started w
  /\ sessionid (final_state (open_consoles_loop ns ts names w)) = sessionid w.
Proof.
  induction ns as [|nid ns IH]; intros ts names w; [repeat split|].
  cbn [open_consoles_loop].
  rewrite (final_bind_inr _ _ w w [] w) by reflexivity.
  destruct (nodes w !! nid) as [n|] eqn:En; [|apply IH].
  destruct (truthy (ssh_console_session n)); cbn [negb]; [apply IH|].
  unfold new_session, ssh_session_init.
  destruct (n_name n) as [nm|].
  - unfold ensure_future, update_node, bind, get, gets, modify, ret. cbn.
    match goal with
    | |- context [open_consoles_loop ns ?ts' ?nm' ?w1] =>
        destruct (IH ts' nm' w1) as (Hw & Hp & Hs);
        destruct (open_consoles_loop ns ts' nm' w1) as [[w2 l2] r2]
    end.
    cbn in *. rewrite Hw, Hp, Hs. repeat split.
    unfold processes_started. cbn.
    rewrite List.map_app, list_sum_app. cbn. lia.
  - unfold bind, get, gets, modify, ret, raise. cbn. repeat split.
Qed.

Lemma open_loop_unnamed ns : forall ts names w nid n,
  nid ∈ ns ->
  nodes w !! nid = Some n ->
  n_name n = None ->
  ssh_console_session n = None ->
  outcome (open_consoles_loop ns ts names w) = inl TypeError.
Proof.
  induction ns as [|h ns IH]; intros ts names w nid n Hin Hn Hname Hcons.
  - inversion Hin.
  - cbn [open_consoles_loop]. unfold bind at 1. unfold get at 1.
    destruct (nodes w !! h) as [n'|] eqn:Eh.
    + destruct (truthy (ssh_console_session n')) eqn:Ec; cbn [negb].
      * assert (Hne : h <> nid).
        { intros ->. rewrite Hn in Eh. injection Eh as <-.
          rewrite Hcons in Ec. discriminate. }
        apply elem_of_cons in Hin as [->|Hin]; [congruence|].
        pose proof (IH ts names w nid n Hin Hn Hname Hcons) as Ho.
        destruct (open_consoles_loop ns ts names w) as [[w1 l1] r1]. exact Ho.
      * unfold new_session, ssh_session_init.
        destruct (n_name n') as [nm|] eqn:En'.
        -- assert (Hne : h <> nid).
           { intros ->. rewrite Hn in Eh. injection Eh as <-. congruence. }
           apply elem_of_cons in Hin as [->|Hin]; [congruence|].
           unfold ensure_future, update_node, bind, get, gets, modify, ret. cbn.
           match goal with
           | |- context [open_consoles_loop ns ?ts' ?nm' ?w1] =>
               assert (Ho : outcome (open_consoles_loop ns ts' nm' w1) = inl TypeError);
               [apply (IH ts' nm' w1 nid n Hin); [|assumption|assumption]
               |destruct (open_consoles_loop ns ts' nm' w1) as [[w2 l2] r2]; exact Ho]
           end.
           cbn. rewrite !list_lookup_alter_ne by assumption. exact Hn.
        -- reflexivity.
    + assert (Hne : h <> nid) by (intros ->; congruence).
      apply elem_of_cons in Hin as [->|Hin]; [congruence|].
      pose proof (IH ts names w nid n Hin Hn Hname Hcons) as Ho.
      destruct (open_consoles_loop ns ts names w) as [[w1 l1] r1]. exact Ho.
Qed.

(** X14: with a registered node that has no name and no console,
    [open_consoles] raises [TypeError] (from [self.name + '(console)'] in
    [ssh_session.__init__]) before it runs the loop: no join is made and
    no child process is started, also for the nodes that were given a
    console session before the exception. *)
Theorem open_consoles_unnamed_node (w : world) (sched : list action) (nid : nat)
    (n : ssh_node) :
  nid ∈ instances w ->
  nodes w !! nid = Some n ->
  n_name n = None ->
  ssh_console_session n = None ->
  outcome (open_consoles sched w) = inl TypeError
  /\ waits (final_state (open_consoles sched w)) = waits w
  /\ processes_started (final_state (open_consoles sched w)) = processes_started w.
Proof.
  intros Hin Hn Hname Hcons.
  pose proof (open_loop_unnamed (instances w) [] [] w nid n Hin Hn Hname Hcons) as Ho.
  destruct (open_loop_frame (instances w) [] [] w) as (Hw & Hp & _).
  unfold open_consoles.
  rewrite (bind_inr _ _ w w [] (instances w)) by reflexivity.
  destruct (open_consoles_loop (instances w) [] [] w) as [[w1 l1] r1] eqn:E.
  cbn in Ho, Hw, Hp. subst r1.
  rewrite (bind_inl _ _ _ _ _ _ E).
  cbn. auto.
Qed.

Lemma open_consoles_unnamed_node_witness :
  let w := final_state
             ((ssh_node_init (Some (py "node1")) (Some (py "10.0.0.1")) false None true;;
               ssh_node_init None (Some (py "10.0.0.2")) false None true) empty_world) in
  let n := mkNode (Some (py "10.0.0.2")) None [] None
             (py "/tmp/controlmasters_10.0.0.2") true None None in
  1 ∈ instances w
  /\ nodes w !! 1 = Some n
  /\ outcome (open_consoles [] w) = inl TypeError
  /\ waits (final_state (open_consoles [] w)) = waits w
  /\ processes_started (final_state (open_consoles [] w)) = processes_started w.
Proof.
  intros w n.
  assert (Hin : 1 ∈ instances w).
  { apply elem_of_cons. right. apply elem_of_cons. left. reflexivity. }
  assert (Hn : nodes w !! 1 = Some n) by (vm_compute; reflexivity).
  destruct (open_consoles_unnamed_node w [] 1 n Hin Hn eq_refl eq_refl) as (H1 & H2 & H3).
  split; [exact Hin|]. split; [exact Hn|]. split; [exact H1|]. split; [exact H2|].
  exact H3.
Defined.

Lemma close_consoles_keeps_consoles (sched : list action) (w : world) :
  (ssh_console_session <$> nodes (final_state (close_consoles sched w)))
  = (ssh_console_session <$> nodes w)
  /\ instances (final_state (close_consoles sched w)) = instances w.
Proof. exact (close_consoles_keeps_nodes ssh_console_session sched w (fun _ _ => eq_refl)). Qed.

(** X15: [close_consoles] leaves [ssh_console_session] set on every node,
    so when every registered node had a console, an [open_consoles] after
    the [close_consoles] does nothing at all: the consoles that were
    closed are not started again. *)
Theorem consoles_are_not_reopened (w : world) (sched1 sched2 : list action) :
  all_have_consoles w = true ->
  open_consoles sched2 (final_state (close_consoles sched1 w))
  = (final_state (close_consoles sched1 w), [], inr tt).
Proof.
  intros Hall.
  destruct (close_consoles_keeps_consoles sched1 w) as [Hc Hi].
  assert (H : forall nid, nid ∈ instances (final_state (close_consoles sched1 w)) ->
                console_or_dangling (final_state (close_consoles sched1 w)) nid).
  { intros nid Hin. rewrite Hi in Hin.
    unfold all_have_consoles in Hall. rewrite forallb_forall in Hall.
    specialize (Hall nid (proj1 (list_elem_of_In _ _) Hin)).
    unfold console_or_dangling.
    destruct (nodes (final_state (close_consoles sched1 w)) !! nid) as [n'|] eqn:E';
      [|exact I].
    assert (E2 : (ssh_console_session <$> nodes (final_state (close_consoles sched1 w)))
                   !! nid = Some (ssh_console_session n'))
      by (rewrite list_lookup_fmap, E'; reflexivity).
    rewrite Hc, list_lookup_fmap in E2.
    destruct (nodes w !! nid) as [n|]; [|discriminate].
    cbn in E2. injection E2 as <-. exact Hall. }
  generalize dependent (final_state (close_consoles sched1 w)). intros w1 _ _ H.
  unfold open_consoles.
  rewrite (bind_inr _ _ w1 w1 [] (instances w1)) by reflexivity.
  rewrite (bind_inr _ _ _ _ _ _ (open_consoles_loop_nothing _ [] [] _ H)).
  reflexivity.
Qed.

Lemma consoles_are_not_reopened_witness :
  let w := final_state
             (open_consoles []
                (two_nodes (py "node1") (py "node2") None None None None true true)) in
  all_have_consoles w = true
  /\ open_consoles [] (final_state (close_consoles [] w))
     = (final_state (close_consoles [] w), [], inr tt)
  /\ processes_started (final_state (close_consoles [] w)) = 2
  /\ processes_terminated (final_state (close_consoles [] w)) = 2.
Proof.
  intros w.
  assert (Hall : all_have_consoles w = true) by (vm_compute; reflexivity).
  split; [exact Hall|]. split; [exact (consoles_are_not_reopened w [] [] Hall)|].
  split; vm_compute; reflexivity.
Defined.

(** *** [close] on a session that is running *)

Lemma contract_app evs1 : forall made evs2,
  contract made (evs1 ++ evs2)
  = contract made evs1 && contract (made || existsb is_connection_made evs1) evs2.
Proof.
  induction evs1 as [|ev evs1 IH]; intros made evs2.
  - cbn. rewrite orb_false_r. reflexivity.
  - cbn. rewrite IH, orb_assoc, andb_assoc. reflexivity.
Qed.

Lemma lifecycle_close_start made oe o1 o2 s cm pid :
  lifecycle made oe o1 o2 s ->
  lifecycle made oe o1 o2 (final_state (coroutine_step cm pid close_start s)).
Proof.
  intros [Hp Hcl Hch].
  destruct s as [? ? ? ? cl ? ? pipe ? ? ? ? ? ? ? ? ? ? pr ? ch].
  cbn in *. destruct pipe as [h|], cl; cbn; split; cbn; auto.
  all: apply children_alter_nonempty; assumption.
Qed.

(** X16: [close()] on a launched session whose child-process handle is set
    calls [terminate()] on that child and returns at once only if the
    command had already completed; otherwise it stays suspended on
    [closed.wait()] and returns exactly when process exit, closure of
    stdout and closure of stderr have all been delivered. *)
Theorem close_returns_after_closure (s : ssh_session) (sshcmd : list pystr) (newpid : Z)
    (evs1 evs2 : list event) (cm : result (option pystr)) (pid_ : Z) (h : nat) :
  transport_contract (evs1 ++ evs2) = true ->
  sshpipe (deliver_all evs1 (launch sshcmd newpid s)) = Some h ->
  let s1 := deliver_all evs1 (launch sshcmd newpid s) in
  let o := coroutine_step cm pid_ close_start s1 in
  let s3 := deliver_all evs2 (final_state o) in
  children (final_state o) = alter terminate_process h (children s1)
  /\ outcome o = (if observed_all evs1 then inr (inr ReturnNone)
                  else inr (inl close_await_closed))
  /\ outcome (coroutine_step cm pid_ close_await_closed s3)
     = (if observed_all (evs1 ++ evs2) then inr (inr ReturnNone)
        else inr (inl close_await_closed)).
Proof.
  intros Hc Hpipe s1 o s3.
  unfold transport_contract in Hc. rewrite contract_app in Hc.
  apply andb_true_iff in Hc as [Hc1 Hc2]. cbn [orb] in Hc2.
  pose proof (lifecycle_run _ _ _ _ _ _ (lifecycle_launch s sshcmd newpid) Hc1) as Hl1.
  fold s1 in Hl1, Hpipe. cbn [orb] in Hl1.
  pose proof (lifecycle_close_start _ _ _ _ _ cm pid_ Hl1) as Hl2. fold o in Hl2.
  pose proof (lifecycle_run _ _ _ _ _ _ Hl2 Hc2) as Hl3. fold s3 in Hl3.
  pose proof (lc_closed _ _ _ _ _ Hl1) as Hcl1.
  pose proof (lc_closed _ _ _ _ _ Hl3) as Hcl3.
  clearbody s3. subst o. clearbody s1.
  split; [|split].
  - destruct s1. cbn in *. subst. unfold_coroutine. cbn.
    match goal with |- context [if ?c then _ else _] => destruct c end; reflexivity.
  - unfold observed_all. rewrite <- Hcl1.
    destruct s1. cbn in *. subst. unfold_coroutine. cbn.
    match goal with |- context [if ?c then _ else _] => destruct c end; reflexivity.
  - assert (Hobs : closed s3 = observed_all (evs1 ++ evs2)).
    { rewrite Hcl3. unfold observed_all. rewrite !existsb_app. reflexivity. }
    rewrite <- Hobs. unfold coroutine_step, await_closed, outcome, bind, gets, ret.
    destruct (closed s3); reflexivity.
Qed.

Lemma close_returns_after_closure_witness :
  let evs1 := [ConnectionMade; PipeDataReceived 1 (bytes_of "ab")] in
  let evs2 := [ProcessExited; PipeConnectionLost 1 None; PipeConnectionLost 2 None] in
  let s1 := deliver_all evs1 (launch [py "ssh"] 7 example_session) in
  let o := coroutine_step (inr None) 8 close_start s1 in
  let s3 := deliver_all evs2 (final_state o) in
  transport_contract (evs1 ++ evs2) = true
  /\ sshpipe s1 = Some 0
  /\ terminate_counts (final_state o) = [1]
  /\ outcome o = inr (inl close_await_closed)
  /\ outcome (coroutine_step (inr None) 8 close_await_closed s3) = inr (inr ReturnNone).
Proof.
  intros evs1 evs2 s1 o s3.
  destruct (close_returns_after_closure example_session [py "ssh"] 7 evs1 evs2
              (inr None) 8 0 eq_refl eq_refl) as (H1 & H2 & H3).
  split; [reflexivity|]. split; [reflexivity|]. split; [vm_compute; reflexivity|].
  split; [exact H2|exact H3].
Defined.

(** *** The connection id on the records of a session *)

Lemma tagged_root connid lvl msg : tagged connid (LogRecord RootLogger lvl msg).
Proof. intros H. discriminate H. Qed.

Lemma tagged_adapter connid lvl msg :
  tagged connid (LogRecord ModuleLogger lvl (adapter_process connid msg)).
Proof. intros _. eexists. reflexivity. Qed.

Lemma tagged_lines connid lvl (f : pystr -> pystr) (lines : list pystr) :
  Forall (tagged connid)
    (List.map (fun line => LogRecord ModuleLogger lvl (adapter_process connid (f line)))
       lines).
Proof.
  induction lines as [|l ls IH]; cbn; constructor; [apply tagged_adapter | exact IH].
Qed.

Ltac solve_tagged :=
  repeat first
    [ exact I
    | apply Forall_nil
    | apply Forall_cons_2; [first [apply tagged_root | apply tagged_adapter]|]
    | apply Forall_app; split
    | apply (tagged_lines _ _ (fun line => line))
    | apply tagged_lines ].

(** X17: every record a callback of a session logs through the session's
    adapter starts with the session's connection id in brackets, and no
    callback changes that id. *)
Theorem adapter_records_are_tagged (s : ssh_session) (ev : event) :
  Forall (tagged (adapter s)) (emitted (deliver ev s))
  /\ adapter (final_state (deliver ev s)) = adapter s.
Proof.
  destruct s as [? ? ? ? ? ? ? ? ? ct io cm ? ? ad ? ? ? pr tm ch].
  destruct pr as [p|];
    [|destruct ev; unfold emitted; crunch; (split; [solve_tagged | reflexivity])].
  destruct p as [? ? ? ? ? ? dbg wd iowd ? ?].
  destruct ev; unfold emitted; crunch; (split; [solve_tagged | reflexivity]).
Qed.

(** *** The [connected] signal *)

Lemma connected_step made lost oe o1 o2 s ev :
  lifecycle made oe o1 o2 s ->
  connected s = made && negb lost ->
  (lost = true -> made = true) ->
  allowed made ev = true ->
  connected (final_state (deliver ev s))
  = (made || is_connection_made ev) && negb (lost || is_connection_lost ev).
Proof.
  intros [(p & Hp & He & H1 & H2 & Hm & Hc) Hcl Hch] Hcon Hlost Hall.
  destruct ev; cbn in Hall.
  - apply negb_true_iff in Hall; subst made.
    assert (lost = false) as -> by (destruct lost; [discriminate (Hlost eq_refl)|reflexivity]).
    open_session s p.
    destruct ch; [congruence|].
    crunch; try (repeat absurd_some; fail); reflexivity.
  - subst made. open_session s p.
    crunch; try (repeat absurd_some; fail); cbn; rewrite ?orb_true_r; reflexivity.
  - subst made. open_session s p.
    crunch; try (repeat absurd_some; fail); cbn; rewrite ?orb_false_r; reflexivity.
  - subst made. open_session s p.
    crunch; try (repeat absurd_some; fail); cbn; rewrite ?orb_false_r; reflexivity.
  - subst made. open_session s p.
    crunch; try (repeat absurd_some; fail); cbn; rewrite ?orb_false_r; reflexivity.
  - open_session s p.
    crunch; try (repeat absurd_some; fail); cbn; rewrite ?orb_false_r; reflexivity.
Qed.

Lemma connected_run evs : forall made lost oe o1 o2 s,
  lifecycle made oe o1 o2 s ->
  connected s = made && negb lost ->
  (lost = true -> made = true) ->
  contract made evs = true ->
  connected (deliver_all evs s)
  = (made || existsb is_connection_made evs)
    && negb (lost || existsb is_connection_lost evs).
Proof.
  induction evs as [|ev evs IH]; intros made lost oe o1 o2 s Hl Hcon Hlost Hc.
  - cbn. rewrite !orb_false_r. exact Hcon.
  - cbn [contract] in Hc. apply andb_true_iff in Hc as [Ha Hc].
    rewrite deliver_all_cons. cbn [existsb]. rewrite !orb_assoc.
    apply (IH _ _ _ _ _ _ (lifecycle_step _ _ _ _ _ _ Hl Ha)
             (connected_step _ _ _ _ _ _ _ Hl Hcon Hlost Ha)); [|exact Hc].
    intros H. apply orb_true_iff in H as [H|H].
    + rewrite (Hlost H). reflexivity.
    + destruct ev; try discriminate. cbn in Ha. rewrite Ha. reflexivity.
Qed.

Lemma connected_launch s sshcmd newpid : connected (launch sshcmd newpid s) = connected s.
Proof.
  destruct s as [? ? ? ? ? ? ? ? ? ct ? ? ? ? ? ? ? ? ? ? ?].
  destruct ct; reflexivity.
Qed.

(** X18: on a session launched with [connected] clear, [connected] is set
    exactly from [connection_made] until [connection_lost]: after any run
    it is set if and only if [connection_made] has been called and
    [connection_lost] has not.  Launching a command does not clear the
    signal. *)
Theorem connected_tracks_transport (s : ssh_session) (sshcmd : list pystr) (newpid : Z)
    (evs : list event) :
  transport_contract evs = true ->
  connected s = false ->
  connected (deliver_all evs (launch sshcmd newpid s))
  = existsb is_connection_made evs && negb (existsb is_connection_lost evs).
Proof.
  intros Hc Hcon.
  apply (connected_run evs false false _ _ _ _ (lifecycle_launch s sshcmd newpid)).
  - rewrite connected_launch. exact Hcon.
  - discriminate.
  - exact Hc.
Qed.

Lemma connected_tracks_transport_witness :
  transport_contract example_events = true
  /\ connected example_session = false
  /\ connected (deliver_all (take 7 example_events) (launch [py "ssh"] 7 example_session))
     = true
  /\ connected (deliver_all example_events (launch [py "ssh"] 7 example_session)) = false.
Proof.
  split; [reflexivity|]. split; [reflexivity|]. split.
  - exact (eq_trans
             (connected_tracks_transport example_session [py "ssh"] 7
                (take 7 example_events) eq_refl eq_refl) eq_refl).
  - exact (eq_trans
             (connected_tracks_transport example_session [py "ssh"] 7 example_events
                eq_refl eq_refl) eq_refl).
Defined.
